(** * ArxivClient: a shallow embedding of [arxiv_client.py]

    The development follows the client leaf-first: Python string
    operations and [_clean_arxiv_id], the XML element model and
    [_parse_entry], the cache key ([json.dumps] with sorted keys, then
    MD5), the world the client runs in (clock, network, cache files), and
    on top of these [_rate_limit], [_get_cached] / [_set_cached],
    [_make_request], [search], [get_paper] / [get_papers] and
    [paginate_all].

    Conventions.
    - A Python [str] is a [string] whose characters are code points below
      256; [None] is [option]'s [None].
    - Time is an integer number of microseconds ([second] = 10^6); the clock
      never runs backwards and [time.sleep d] lasts at least [d].
    - A raised exception is the [Raise] case of [Result]; state changes made
      before the raise persist. *)

From Stdlib Require Import ZArith List Ascii String Lia Permutation.
From Stdlib Require Import Decimal DecimalString DecimalZ.
From stdpp Require Import gmap strings list fin_maps.

Local Open Scope string_scope.
Local Open Scope Z_scope.

(** stdpp keeps [String.append] folded; the proofs below compute with it. *)
#[local] Arguments String.append !_ _ : simpl nomatch.

(* ===================================================================== *)
(** ** Python string operations                                           *)
(* ===================================================================== *)

Module PyStr.

Definition code (c : ascii) : N := N_of_ascii c.

(** [str.isspace] on one code point below 256 (also the class [\s] of
    [re] on [str] patterns): TAB..CR, FS..US, SPACE, NEL, NBSP. *)
Definition isspace (c : ascii) : bool :=
  let n := code c in
  (((9 <=? n) && (n <=? 13)) || ((28 <=? n) && (n <=? 32))
   || (n =? 133) || (n =? 160))%N.

(** The class [\d] of [re] below 256: the ASCII digits. *)
Definition isdigit (c : ascii) : bool :=
  let n := code c in ((48 <=? n) && (n <=? 57))%N.

Definition newline : ascii := ascii_of_N 10.
Definition space : ascii := ascii_of_N 32.

Definition is_empty (s : string) : bool :=
  match s with EmptyString => true | String _ _ => false end.

(** [s.split(sep)] for a one-character separator: never the empty list. *)
Fixpoint split (sep : ascii) (s : string) : list string :=
  match s with
  | EmptyString => [EmptyString]
  | String c s' =>
      if Ascii.eqb c sep then EmptyString :: split sep s'
      else match split sep s' with
           | [] => [String c EmptyString]
           | piece :: pieces => String c piece :: pieces
           end
  end.

(** [xs[-1]] on a list of strings known to be non-empty. *)
Definition last_item (xs : list string) : string := List.last xs EmptyString.

(** [s.lstrip()], [s.rstrip()], [s.strip()]. *)
Fixpoint lstrip (s : string) : string :=
  match s with
  | EmptyString => EmptyString
  | String c s' => if isspace c then lstrip s' else s
  end.

Fixpoint rstrip (s : string) : string :=
  match s with
  | EmptyString => EmptyString
  | String c s' =>
      let r := rstrip s' in
      if isspace c && is_empty r then EmptyString else String c r
  end.

Definition strip (s : string) : string := rstrip (lstrip s).

(** [s.replace(a, b)] for one-character [a] and [b]. *)
Fixpoint replace (a b : ascii) (s : string) : string :=
  match s with
  | EmptyString => EmptyString
  | String c s' => String (if Ascii.eqb c a then b else c) (replace a b s')
  end.

(** [sub in s]. *)
Fixpoint contains (sub s : string) : bool :=
  String.prefix sub s ||
  match s with
  | EmptyString => false
  | String _ s' => contains sub s'
  end.

(** [re.sub(r'\s+', ' ', s)]: every maximal run of whitespace becomes one
    space. [in_run] tells that the previous character was whitespace. *)
Fixpoint collapse_from (in_run : bool) (s : string) : string :=
  match s with
  | EmptyString => EmptyString
  | String c s' =>
      if isspace c
      then if in_run then collapse_from true s'
           else String space (collapse_from true s')
      else String c (collapse_from false s')
  end.

Definition re_sub_spaces (s : string) : string := collapse_from false s.

(** [\d*$] right after at least one digit: digits up to the end of the
    string, where [$] also matches just before one final newline. The
    result is what follows the match. *)
Fixpoint digits_to_end (s : string) : option string :=
  match s with
  | EmptyString => Some EmptyString
  | String c s' =>
      if isdigit c then digits_to_end s'
      else if Ascii.eqb c newline && is_empty s' then Some s
      else None
  end.

(** A match of [v\d+$] at the start of [s]; the result is what follows. *)
Definition version_at (s : string) : option string :=
  match s with
  | String c (String d s') =>
      if Ascii.eqb c "v" && isdigit d then digits_to_end s' else None
  | _ => None
  end.

(** [re.sub(r'v\d+$', '', s)]: the leftmost match is removed; what
    follows it (nothing or a final newline) holds no further match. *)
Fixpoint re_sub_version (s : string) : string :=
  match version_at s with
  | Some rest => rest
  | None =>
      match s with
      | EmptyString => EmptyString
      | String c s' => String c (re_sub_version s')
      end
  end.

(** [s.split()] and [' '.join(words)], used to state what whitespace
    normalisation achieves. [cur] is the word being read. *)
Fixpoint words_from (cur : option string) (s : string) : list string :=
  match s with
  | EmptyString => match cur with Some w => [w] | None => [] end
  | String c s' =>
      if isspace c
      then match cur with
           | Some w => w :: words_from None s'
           | None => words_from None s'
           end
      else words_from (Some (match cur with
                             | Some w => w +:+ String c EmptyString
                             | None => String c EmptyString
                             end)) s'
  end.

Definition words (s : string) : list string := words_from None s.

Fixpoint join_spaces (ws : list string) : string :=
  match ws with
  | [] => EmptyString
  | [w] => w
  | w :: rest => w +:+ String space (join_spaces rest)
  end.

(** The class [[a-z-]] of [re]. *)
Definition islower_or_dash (c : ascii) : bool :=
  let n := code c in
  (((97 <=? n) && (n <=? 122)) || (n =? 45))%N.

(** [\d{n}] at the start of [s]: the digits matched and what follows. *)
Fixpoint take_digits (n : nat) (s : string) : option (string * string) :=
  match n, s with
  | O, _ => Some (EmptyString, s)
  | S n', String c s' =>
      if isdigit c
      then match take_digits n' s' with
           | Some (ds, rest) => Some (String c ds, rest)
           | None => None
           end
      else None
  | S _, EmptyString => None
  end.

(** A match of [/(\d{4}\.\d{4,5})] at the start of [s], as its group 1;
    the greedy [\d{4,5}] takes a fifth digit when there is one. *)
Definition new_id_at (s : string) : option string :=
  match s with
  | String c s1 =>
      if Ascii.eqb c "/" then
        match take_digits 4 s1 with
        | Some (yymm, String dot s2) =>
            if Ascii.eqb dot "." then
              match take_digits 5 s2 with
              | Some (num, _) => Some (yymm +:+ String "." num)
              | None =>
                  match take_digits 4 s2 with
                  | Some (num, _) => Some (yymm +:+ String "." num)
                  | None => None
                  end
              end
            else None
        | _ => None
        end
      else None
  | EmptyString => None
  end.

(** The longest prefix of [s] in [[a-z-]], and what follows it. *)
Fixpoint span_lower (s : string) : string * string :=
  match s with
  | EmptyString => (EmptyString, EmptyString)
  | String c s' =>
      if islower_or_dash c
      then let (run, rest) := span_lower s' in (String c run, rest)
      else (EmptyString, s)
  end.

(** A match of [/([a-z-]+/\d{7})] at the start of [s], as its group 1. A
    shorter run of [[a-z-]] is never followed by a slash, so only the
    longest one is tried. *)
Definition old_id_at (s : string) : option string :=
  match s with
  | String c s1 =>
      if Ascii.eqb c "/" then
        match span_lower s1 with
        | (String c1 run, String slash s2) =>
            if Ascii.eqb slash "/" then
              match take_digits 7 s2 with
              | Some (num, _) => Some (String c1 run +:+ String "/" num)
              | None => None
              end
            else None
        | _ => None
        end
      else None
  | EmptyString => None
  end.

(** [re.search(pattern, s)] for a pattern given by its matches at the start
    of a string: the leftmost match. *)
Fixpoint search (match_at : string -> option string) (s : string)
  : option string :=
  match match_at s with
  | Some group => Some group
  | None =>
      match s with
      | EmptyString => None
      | String _ s' => search match_at s'
      end
  end.

(** [sep.join(xs)]. *)
Fixpoint join (sep : string) (xs : list string) : string :=
  match xs with
  | [] => EmptyString
  | [x] => x
  | x :: rest => x +:+ sep +:+ join sep rest
  end.

(** Every character of [s] satisfies [p]. *)
Fixpoint all_chars (p : ascii -> bool) (s : string) : bool :=
  match s with
  | EmptyString => true
  | String c s' => p c && all_chars p s'
  end.

Definition starts_with_digit (s : string) : bool :=
  match s with
  | EmptyString => false
  | String c _ => isdigit c
  end.

(** The character [c] occurs in [s]. *)
Fixpoint has_char (c : ascii) (s : string) : bool :=
  match s with
  | EmptyString => false
  | String c' s' => Ascii.eqb c' c || has_char c s'
  end.

(** No [v] of [s], read as the start of [s +:+ rest], is followed by a
    digit. *)
Fixpoint no_version_in (s rest : string) : bool :=
  match s with
  | EmptyString => true
  | String c s' =>
      negb (Ascii.eqb c "v" && starts_with_digit (s' +:+ rest))
      && no_version_in s' rest
  end.

(** No slash of [s] is followed by a digit; [after_slash] tells that the
    character before [s] is a slash. *)
Fixpoint no_slash_digit (after_slash : bool) (s : string) : bool :=
  match s with
  | EmptyString => true
  | String c s' =>
      negb (after_slash && isdigit c) && no_slash_digit (Ascii.eqb c "/") s'
  end.

(** A normalised text: words separated by single spaces, no other
    whitespace, none at either end. [after_space] tells that a word must
    start here. *)
Fixpoint tidy_from (after_space : bool) (s : string) : bool :=
  match s with
  | EmptyString => negb after_space
  | String c s' =>
      if isspace c
      then Ascii.eqb c space && negb after_space && tidy_from true s'
      else tidy_from false s'
  end.

Definition tidy (s : string) : bool := is_empty s || tidy_from true s.

(** A string matches a shape: [d] in the shape stands for a digit, any
    other character for itself. *)
Fixpoint has_shape (shape s : string) : bool :=
  match shape, s with
  | EmptyString, EmptyString => true
  | String p shape', String c s' =>
      (if Ascii.eqb p "d" then isdigit c else Ascii.eqb p c)
      && has_shape shape' s'
  | _, _ => false
  end.

End PyStr.

(* ===================================================================== *)
(** ** Identifiers                                                        *)
(* ===================================================================== *)

(** [ArxivClient._clean_arxiv_id]. *)
Definition _clean_arxiv_id (arxiv_id : string) : string :=
  if PyStr.contains "arxiv.org" arxiv_id then
    match PyStr.search PyStr.new_id_at arxiv_id with
    | Some group => group
    | None =>
        match PyStr.search PyStr.old_id_at arxiv_id with
        | Some group => group
        | None => PyStr.re_sub_version arxiv_id
        end
    end
  else PyStr.re_sub_version arxiv_id.

(** The identifiers and version markers of the API: new style
    [4digits.4-5digits], old style [category/7digits] with a category of
    lower-case letters and hyphens, and [v] with digits or nothing. *)
Definition new_style (id : string) : bool :=
  PyStr.has_shape "dddd.dddd" id || PyStr.has_shape "dddd.ddddd" id.

Definition old_style (category number : string) : bool :=
  negb (PyStr.is_empty category)
  && PyStr.all_chars PyStr.islower_or_dash category
  && PyStr.has_shape "ddddddd" number.

Definition version_marker (v : string) : bool :=
  match v with
  | EmptyString => true
  | String c ds =>
      Ascii.eqb c "v" && negb (PyStr.is_empty ds)
      && PyStr.all_chars PyStr.isdigit ds
  end.

(** The part of a URL before the slash that precedes the identifier, as in
    [https://arxiv.org/abs]: it names the host and has no slash followed
    by a digit. *)
Definition url_prefix (pre : string) : bool :=
  PyStr.contains "arxiv.org" pre && PyStr.no_slash_digit false pre.

(* ===================================================================== *)
(** ** Exceptions and results                                             *)
(* ===================================================================== *)

(** The exception a handler of [_make_request] caught; Python chains it as
    the [__context__] of an exception raised inside that handler. *)
Inductive Cause := Timeout | ConnectionError | ParseError.

(** The messages of the [Exception]s that [_make_request] raises itself. *)
Inductive Message :=
| ApiErrorMsg (title : string)   (* "ArXiv API Error: {title.text}" *)
| TimedOutMsg (retries : Z)      (* "Request timed out after {n} retries" *)
| ConnFailedMsg (retries : Z)    (* "Connection failed after {n} retries" *)
| ParseFailedMsg                 (* "Failed to parse ArXiv response: {e}" *)
| FailedMsg (retries : Z).       (* "Failed after {n} retries" *)

Inductive PyExc :=
| AttributeError                 (* a method called on [None] *)
| ValueError                     (* [datetime.fromisoformat] outside a [try] *)
| TypeError                      (* subscripting a value that is no [dict] *)
| HTTPError (status : Z)         (* [response.raise_for_status()] *)
| Exception (msg : Message) (context : option Cause).

Inductive Result (A : Type) :=
| OK (a : A)
| Raise (e : PyExc).
Arguments OK {A} a.
Arguments Raise {A} e.

Definition rbind {A B} (r : Result A) (k : A -> Result B) : Result B :=
  match r with OK a => k a | Raise e => Raise e end.

Declare Scope result_scope.
Delimit Scope result_scope with result.
Notation "x <-! r ; k" := (rbind r (fun x => k))
  (at level 100, r at next level, right associativity) : result_scope.

(** The retry count and the cause that a raised exception carries. *)
Definition retry_count (e : PyExc) : option Z :=
  match e with
  | Exception (TimedOutMsg n) _ | Exception (ConnFailedMsg n) _
  | Exception (FailedMsg n) _ => Some n
  | _ => None
  end.

Definition cause_of (e : PyExc) : option Cause :=
  match e with Exception _ ctx => ctx | _ => None end.

(* ===================================================================== *)
(** ** XML elements ([xml.etree.ElementTree])                             *)
(* ===================================================================== *)

Module Xml.

(** An element: its tag, written with the prefixes of [ArxivClient.NS]
    ([atom:], [arxiv:]), the text before its first child ([None] for an
    empty element), its attributes and its children in document order. *)
#[warnings="-register-all"]
Inductive Element :=
| Elem (tag : string) (text : option string)
       (attrib : gmap string string) (children : list Element).

Definition tag (e : Element) : string := let 'Elem t _ _ _ := e in t.
Definition text (e : Element) : option string := let 'Elem _ t _ _ := e in t.
Definition attrib (e : Element) : gmap string string :=
  let 'Elem _ _ a _ := e in a.
Definition children (e : Element) : list Element :=
  let 'Elem _ _ _ c := e in c.

(** [e.findall(path)] and [e.find(path)] for a one-step path: the direct
    children with that tag, and the first of them. *)
Definition findall (path : string) (e : Element) : list Element :=
  List.filter (fun c => String.eqb (tag c) path) (children e).

Definition find (path : string) (e : Element) : option Element :=
  List.head (findall path e).

(** [e.get(key)] and [e.get(key, default)]. *)
Definition get (key : string) (e : Element) : option string :=
  attrib e !! key.

Definition get_or (key dflt : string) (e : Element) : string :=
  default dflt (attrib e !! key).

End Xml.

(* ===================================================================== *)
(** ** The [datetime] module                                              *)
(* ===================================================================== *)

(** [datetime.fromisoformat] accepts different sets of strings in different
    Python versions; the client only relies on the interface below.
    [fromisoformat s = None] stands for the [ValueError] it raises. *)
Class Datetime := {
  datetime : Type;
  fromisoformat : string -> option datetime;
  strftime_ymd : datetime -> string;        (* [dt.strftime('%Y-%m-%d')] *)
  isoformat : datetime -> string;           (* [dt.isoformat()] *)
  fromisoformat_empty : fromisoformat "" = None
}.

(** A small instance: it accepts the timestamps of the form the API sends,
    once their [Z] is replaced by [+00:00], and keeps a [datetime] as its
    ISO text. *)
Definition utc_seconds : Datetime :=
  {| datetime := string;
     fromisoformat s :=
       if PyStr.has_shape "dddd-dd-ddTdd:dd:dd+00:00" s then Some s else None;
     strftime_ymd d := String.substring 0 10 d;
     isoformat d := d;
     fromisoformat_empty := eq_refl |}.

(* ===================================================================== *)
(** ** Normalised records and [_parse_entry]                              *)
(* ===================================================================== *)

(** The dictionary returned by [_parse_entry], one field per key. *)
Record Paper := {
  arxiv_id : string;
  base_id : string;
  title : string;
  authors : list (option string);
  affiliations : list (option string);
  abstract : string;
  published : string;
  published_datetime : option string;
  updated : string;
  updated_datetime : option string;
  primary_category : option string;
  categories : list (option string);
  doi : option string;
  journal_ref : option string;
  comment : option string;
  arxiv_url : string;
  pdf_url : string;
  links : gmap string string
}.

Section Parser.
Context `{Datetime}.
Import PyStr Xml.
Local Open Scope result_scope.

(** [x.text if x is not None else dflt]. *)
Definition text_or (dflt : option string) (x : option Element) : option string :=
  match x with Some e => text e | None => dflt end.

(** The text of the first child with a tag, empty when there is none. *)
Definition raw_text (tag : string) (entry : Element) : string :=
  default "" (find tag entry ≫= text).

(** [url.split('/')[-1]]. *)
Definition last_segment (url : string) : string := last_item (split "/" url).

(** Every child with this tag that is present carries text. *)
Definition has_text (tag : string) (entry : Element) : Prop :=
  forall e, find tag entry = Some e -> text e <> None.

(** A method call on a value that may be [None]. *)
Definition on_str {A} (f : string -> A) (s : option string) : Result A :=
  match s with Some s => OK (f s) | None => Raise AttributeError end.

(** [s.replace('Z', '+00:00')]. *)
Fixpoint replace_Z (s : string) : string :=
  match s with
  | EmptyString => EmptyString
  | String c s' =>
      if Ascii.eqb c "Z" then "+00:00" +:+ replace_Z s'
      else String c (replace_Z s')
  end.

(** The [try: datetime.fromisoformat(...) except ValueError: None] step. *)
Definition parse_date (s : option string) : Result (option datetime) :=
  on_str (fun s => fromisoformat (replace_Z s)) s.

(** The key under which the loop over links stores a link. *)
Definition link_key (link : Element) : string :=
  let rel := get_or "rel" "alternate" link in
  let link_type := get_or "type" "" link in
  if String.eqb link_type "application/pdf" then "pdf"
  else if String.eqb rel "alternate" then "abstract"
  else rel.

Definition add_link (links : gmap string string) (link : Element)
  : gmap string string :=
  <[link_key link := get_or "href" "" link]> links.

Definition names_of (tag : string) (people : list Element)
  : list (option string) :=
  omap (fun a => text <$> find tag a) people.

Definition _parse_entry (entry : Element) : Result Paper :=
  let arxiv_url := text_or (Some "") (find "atom:id" entry) in
  let arxiv_id :=
    match arxiv_url with
    | Some u => if is_empty u then "" else last_item (split "/" u)
    | None => ""
    end in
  let base_id := re_sub_version arxiv_id in
  title <-! match find "atom:title" entry with
            | Some e => on_str (fun t => replace newline space (strip t)) (text e)
            | None => OK ""
            end;
  let title := re_sub_spaces title in
  let people := findall "atom:author" entry in
  let authors := names_of "atom:name" people in
  let affiliations := names_of "arxiv:affiliation" people in
  abstract <-! match find "atom:summary" entry with
               | Some e => on_str strip (text e)
               | None => OK ""
               end;
  let abstract := re_sub_spaces abstract in
  published_dt <-! parse_date (text_or (Some "") (find "atom:published" entry));
  updated_dt <-! parse_date (text_or (Some "") (find "atom:updated" entry));
  let primary_category :=
    match find "arxiv:primary_category" entry with
    | Some e => get "term" e
    | None => Some ""
    end in
  let categories := List.map (get "term") (findall "atom:category" entry) in
  let links := fold_left add_link (findall "atom:link" entry) ∅ in
  let doi := text_or None (find "arxiv:doi" entry) in
  let journal_ref := text_or None (find "arxiv:journal_ref" entry) in
  let comment := text_or None (find "arxiv:comment" entry) in
  OK {| arxiv_id := arxiv_id;
        base_id := base_id;
        title := title;
        authors := authors;
        affiliations := affiliations;
        abstract := abstract;
        published := default "" (strftime_ymd <$> published_dt);
        published_datetime := isoformat <$> published_dt;
        updated := default "" (strftime_ymd <$> updated_dt);
        updated_datetime := isoformat <$> updated_dt;
        primary_category := primary_category;
        categories := categories;
        doi := doi;
        journal_ref := journal_ref;
        comment := comment;
        arxiv_url := "https://arxiv.org/abs/" +:+ base_id;
        pdf_url := "https://arxiv.org/pdf/" +:+ base_id +:+ ".pdf";
        links := links |}.

End Parser.

(* ===================================================================== *)
(** ** [json.dumps(params, sort_keys=True)]                               *)
(* ===================================================================== *)

Module Json.
Import PyStr.

(** The values the client puts in a parameter dictionary. *)
Inductive value :=
| Str (s : string)
| Int (z : Z).

(** A Python [dict] with string keys: its items in insertion order, keys
    pairwise different. *)
Definition dict := list (string * value).

Definition lookup (k : string) (d : dict) : option value :=
  snd <$> List.find (fun kv => String.eqb (fst kv) k) d.

Definition dquote : ascii := ascii_of_N 34.

Definition hex_digit (n : N) : ascii :=
  ascii_of_N (if (n <? 10)%N then 48 + n else 87 + n).

(** One character of a string under [ensure_ascii=True]. *)
Definition escape_char (c : ascii) : string :=
  let n := code c in
  if (n =? 34)%N then String "\" (String dquote EmptyString)
  else if (n =? 92)%N then "\\"
  else if (n =? 10)%N then "\n"
  else if (n =? 13)%N then "\r"
  else if (n =? 9)%N then "\t"
  else if (n =? 12)%N then "\f"
  else if (n =? 8)%N then "\b"
  else if ((32 <=? n) && (n <=? 126))%N then String c EmptyString
  else "\u00" +:+ String (hex_digit (n / 16)) (String (hex_digit (n mod 16)) EmptyString).

Fixpoint escape (s : string) : string :=
  match s with
  | EmptyString => EmptyString
  | String c s' => escape_char c +:+ escape s'
  end.

Definition encode_str (s : string) : string :=
  String dquote (escape s +:+ String dquote EmptyString).

(** Reading back what [escape_char] wrote at the start of a string: the
    character and what follows. Used to show that the encoding of a string
    can be told apart from whatever comes after it. *)
Definition unhex (c : ascii) : option N :=
  let n := code c in
  if ((48 <=? n) && (n <=? 57))%N then Some (n - 48)%N
  else if ((97 <=? n) && (n <=? 102))%N then Some (n - 87)%N
  else None.

Definition unescape_char (s : string) : option (ascii * string) :=
  match s with
  | EmptyString => None
  | String c r =>
      if Ascii.eqb c "\" then
        match r with
        | EmptyString => None
        | String e r' =>
            if Ascii.eqb e "u" then
              match r' with
              | String _ (String _ (String h (String l r''))) =>
                  match unhex h, unhex l with
                  | Some a, Some b => Some (ascii_of_N (16 * a + b), r'')
                  | _, _ => None
                  end
              | _ => None
              end
            else if Ascii.eqb e "n" then Some (ascii_of_N 10, r')
            else if Ascii.eqb e "r" then Some (ascii_of_N 13, r')
            else if Ascii.eqb e "t" then Some (ascii_of_N 9, r')
            else if Ascii.eqb e "f" then Some (ascii_of_N 12, r')
            else if Ascii.eqb e "b" then Some (ascii_of_N 8, r')
            else Some (e, r')
        end
      else if Ascii.eqb c dquote then None
      else Some (c, r)
  end.

(** [int.__repr__]: decimal digits, a minus sign for negatives. *)
Definition encode_int (z : Z) : string :=
  DecimalString.NilZero.string_of_int (Z.to_int z).

Definition encode_value (v : value) : string :=
  match v with
  | Str s => encode_str s
  | Int z => encode_int z
  end.

Definition encode_item (kv : string * value) : string :=
  encode_str (fst kv) +:+ ": " +:+ encode_value (snd kv).

Fixpoint join_items (xs : list string) : string :=
  match xs with
  | [] => EmptyString
  | [x] => x
  | x :: rest => x +:+ ", " +:+ join_items rest
  end.

(** [sorted(d.items())]: a stable insertion sort on the keys, compared as
    Python compares [str], code point by code point. *)
Fixpoint insert_item (kv : string * value) (l : dict) : dict :=
  match l with
  | [] => [kv]
  | kv' :: l' =>
      if String.leb (fst kv) (fst kv') then kv :: l
      else kv' :: insert_item kv l'
  end.

Fixpoint sorted_items (d : dict) : dict :=
  match d with
  | [] => []
  | kv :: d' => insert_item kv (sorted_items d')
  end.

Definition dumps_sorted (d : dict) : string :=
  "{" +:+ join_items (List.map encode_item (sorted_items d)) +:+ "}".

(** [s.encode()]: UTF-8, two bytes for a code point from 128 to 255. *)
Fixpoint utf8 (s : string) : list Z :=
  match s with
  | EmptyString => []
  | String c s' =>
      let n := Z.of_N (code c) in
      if n <? 128 then n :: utf8 s'
      else (192 + n / 64) :: (128 + n mod 64) :: utf8 s'
  end.

End Json.

(* ===================================================================== *)
(** ** [hashlib.md5] (RFC 1321)                                           *)
(* ===================================================================== *)

Module MD5.

Definition K : list Z :=
  [3614090360; 3905402710; 606105819; 3250441966;
   4118548399; 1200080426; 2821735955; 4249261313;
   1770035416; 2336552879; 4294925233; 2304563134;
   1804603682; 4254626195; 2792965006; 1236535329;
   4129170786; 3225465664; 643717713; 3921069994;
   3593408605; 38016083; 3634488961; 3889429448;
   568446438; 3275163606; 4107603335; 1163531501;
   2850285829; 4243563512; 1735328473; 2368359562;
   4294588738; 2272392833; 1839030562; 4259657740;
   2763975236; 1272893353; 4139469664; 3200236656;
   681279174; 3936430074; 3572445317; 76029189;
   3654602809; 3873151461; 530742520; 3299628645;
   4096336452; 1126891415; 2878612391; 4237533241;
   1700485571; 2399980690; 4293915773; 2240044497;
   1873313359; 4264355552; 2734768916; 1309151649;
   4149444226; 3174756917; 718787259; 3951481745].

Definition S : list Z :=
  [7; 12; 17; 22; 7; 12; 17; 22; 7; 12; 17; 22; 7; 12; 17; 22;
   5; 9; 14; 20; 5; 9; 14; 20; 5; 9; 14; 20; 5; 9; 14; 20;
   4; 11; 16; 23; 4; 11; 16; 23; 4; 11; 16; 23; 4; 11; 16; 23;
   6; 10; 15; 21; 6; 10; 15; 21; 6; 10; 15; 21; 6; 10; 15; 21].

Definition w32 (x : Z) : Z := x mod 4294967296.
Definition lnot32 (x : Z) : Z := Z.lxor x 4294967295.
Definition rotl (x s : Z) : Z :=
  w32 (Z.lor (Z.shiftl x s) (Z.shiftr x (32 - s))).

Definition regs : Type := Z * Z * Z * Z.

(** Round [i] of the compression function on the sixteen words [M]. *)
Definition round (M : list Z) (st : regs) (i : nat) : regs :=
  let '(a, b, c, d) := st in
  let iz := Z.of_nat i in
  let '(f, g) :=
    if (i <? 16)%nat then
      (Z.lor (Z.land b c) (Z.land (lnot32 b) d), iz)
    else if (i <? 32)%nat then
      (Z.lor (Z.land d b) (Z.land (lnot32 d) c), (5 * iz + 1) mod 16)
    else if (i <? 48)%nat then
      (Z.lxor b (Z.lxor c d), (3 * iz + 5) mod 16)
    else
      (Z.lxor c (Z.lor b (lnot32 d)), (7 * iz) mod 16) in
  let f := w32 (f + a + nth i K 0 + nth (Z.to_nat g) M 0) in
  (d, w32 (b + rotl f (nth i S 0)), b, c).

Definition compress (st : regs) (M : list Z) : regs :=
  let '(a, b, c, d) := st in
  let '(a', b', c', d') := fold_left (round M) (seq 0 64) st in
  (w32 (a + a'), w32 (b + b'), w32 (c + c'), w32 (d + d')).

(** Little-endian 32-bit words of a byte sequence. *)
Fixpoint words_le (bytes : list Z) : list Z :=
  match bytes with
  | b0 :: b1 :: b2 :: b3 :: rest =>
      (b0 + 256 * b1 + 65536 * b2 + 16777216 * b3) :: words_le rest
  | _ => []
  end.

Fixpoint blocks (fuel : nat) (ws : list Z) : list (list Z) :=
  match fuel, ws with
  | Datatypes.S fuel', _ :: _ => firstn 16 ws :: blocks fuel' (skipn 16 ws)
  | _, _ => []
  end.

Definition bytes_le (n : nat) (x : Z) : list Z :=
  List.map (fun j => (x / 256 ^ Z.of_nat j) mod 256) (seq 0 n).

(** Padding: a one bit, zeros up to 56 modulo 64, the bit length. *)
Definition pad (msg : list Z) : list Z :=
  let len := Z.of_nat (List.length msg) in
  let zeros := Z.to_nat ((55 - len) mod 64) in
  (msg ++ [128] ++ repeat 0 zeros ++ bytes_le 8 ((8 * len) mod 2 ^ 64))%list.

Definition init : regs := (1732584193, 4023233417, 2562383102, 271733878).

Definition run (msg : list Z) : regs :=
  let ws := words_le (pad msg) in
  fold_left compress (blocks (List.length ws) ws) init.

(** The digest as a number below 2^128, its bytes in little-endian order. *)
Definition digest (msg : list Z) : Z :=
  let '(a, b, c, d) := run msg in
  w32 a + 2 ^ 32 * w32 b + 2 ^ 64 * w32 c + 2 ^ 96 * w32 d.

Definition hex_byte (b : Z) : string :=
  String (Json.hex_digit (Z.to_N (b / 16)))
    (String (Json.hex_digit (Z.to_N (b mod 16))) EmptyString).

Definition hex_of (x : Z) : string :=
  fold_right (fun b acc => hex_byte b +:+ acc) EmptyString (bytes_le 16 x).

(** [hashlib.md5(data).hexdigest()]. *)
Definition hexdigest (msg : list Z) : string := hex_of (digest msg).

End MD5.

(** [ArxivClient._get_cache_key]. *)
Definition _get_cache_key (params : Json.dict) : string :=
  MD5.hexdigest (Json.utf8 (Json.dumps_sorted params)).

(* ===================================================================== *)
(** ** The world: clock, network, cache files                             *)
(* ===================================================================== *)

Definition second : Z := 1000000.

(** What [requests.get] does on one call. [content] is the root element of
    the response body, [None] when the body is not well-formed XML. *)
Inductive NetOutcome :=
| NetTimeout
| NetConnectionError
| Response (status_code : Z) (content : option Xml.Element).

(** A cache file as [json.load] sees it. In an object, a missing key gives
    [None]; [results] is also [None] for a JSON [null]. *)
Inductive Timestamp :=
| NotIso                           (* [fromisoformat] raises [ValueError] *)
| IsoTime (t : Z).

Inductive CacheFile :=
| NotJson                          (* [json.load] raises [JSONDecodeError] *)
| JsonOther                        (* valid JSON, but not an object *)
| JsonObject (timestamp : option Timestamp) (results : option (list Paper)).

(** The two places that call [time.sleep]. *)
Inductive SleepKind := RateLimitWait | Backoff.

Inductive Event :=
| EvSleep (kind : SleepKind) (duration : Z)
| EvGet (params : Json.dict).

(** [latency i] is the time that passes on its own during the [i]-th
    primitive operation (a clock reading, a sleep, a request);
    [network i params] is what the [i]-th request does. *)
Record World := {
  clock : Z;
  ticks : nat;
  latency : nat -> N;
  sent : nat;
  network : nat -> Json.dict -> NetOutcome;
  files : gmap string CacheFile;
  trace : list Event
}.

Definition advance (extra : Z) (w : World) : World :=
  {| clock := clock w + Z.of_N (latency w (ticks w)) + extra;
     ticks := Datatypes.S (ticks w);
     latency := latency w;
     sent := sent w;
     network := network w;
     files := files w;
     trace := trace w |}.

Definition log (ev : Event) (w : World) : World :=
  {| clock := clock w; ticks := ticks w; latency := latency w;
     sent := sent w; network := network w; files := files w;
     trace := (trace w ++ [ev])%list |}.

(** [time.time()] and [datetime.now()] read the same clock. *)
Definition time_time (w : World) : Z * World :=
  let w' := advance 0 w in (clock w', w').

Definition datetime_now (w : World) : Z * World := time_time w.

(** [time.sleep(d)]. *)
Definition time_sleep (kind : SleepKind) (d : Z) (w : World) : World :=
  log (EvSleep kind d) (advance d w).

(** [requests.get(BASE_URL, params=params, timeout=...)]. *)
Definition requests_get (params : Json.dict) (w : World) : NetOutcome * World :=
  let w' := log (EvGet params) (advance 0 w) in
  (network w (sent w) params,
   {| clock := clock w'; ticks := ticks w'; latency := latency w';
      sent := Datatypes.S (sent w'); network := network w'; files := files w';
      trace := trace w' |}).

Definition write_file (path : string) (f : CacheFile) (w : World) : World :=
  {| clock := clock w; ticks := ticks w; latency := latency w;
     sent := sent w; network := network w;
     files := <[path := f]> (files w);
     trace := trace w |}.

(** What a trace says about sleeping and sending. *)
Definition sleeps_of (kind : SleepKind) (tr : list Event) : list Z :=
  omap (fun ev => match ev, kind with
                  | EvSleep RateLimitWait d, RateLimitWait
                  | EvSleep Backoff d, Backoff => Some d
                  | _, _ => None
                  end) tr.

Definition requests_of (tr : list Event) : list Json.dict :=
  omap (fun ev => match ev with EvGet p => Some p | _ => None end) tr.

(* ===================================================================== *)
(** ** The client                                                         *)
(* ===================================================================== *)

Record ArxivClient := {
  rate_limit_delay : Z;
  last_request_time : Z;
  max_retries : Z;
  timeout : Z;
  cache_dir : option string;
  cache_ttl : Z
}.

(** [ArxivClient.__init__]; an empty [cache_dir] string counts as [None]. *)
Definition init (rate_limit_delay : Z) (cache_dir : option string)
    (cache_ttl_hours max_retries timeout : Z) : ArxivClient :=
  {| rate_limit_delay := rate_limit_delay;
     last_request_time := 0;
     max_retries := max_retries;
     timeout := timeout;
     cache_dir := match cache_dir with
                  | Some d => if PyStr.is_empty d then None else Some d
                  | None => None
                  end;
     cache_ttl := cache_ttl_hours * 3600 * second |}.

Definition set_last_request_time (t : Z) (c : ArxivClient) : ArxivClient :=
  {| rate_limit_delay := rate_limit_delay c;
     last_request_time := t;
     max_retries := max_retries c;
     timeout := timeout c;
     cache_dir := cache_dir c;
     cache_ttl := cache_ttl c |}.

(** A method of the client: it reads and updates the client and the world,
    and returns or raises. *)
Definition State : Type := ArxivClient * World.
Definition M (A : Type) : Type := State -> Result A * State.

Definition ret {A} (a : A) : M A := fun st => (OK a, st).
Definition raise {A} (e : PyExc) : M A := fun st => (Raise e, st).
Definition bind {A B} (m : M A) (k : A -> M B) : M B :=
  fun st => match m st with
            | (OK a, st') => k a st'
            | (Raise e, st') => (Raise e, st')
            end.
Definition lift {A} (r : Result A) : M A := fun st => (r, st).
Definition on_world (f : World -> World) : M unit :=
  fun '(c, w) => (OK tt, (c, f w)).
Definition from_world {A} (f : World -> A * World) : M A :=
  fun '(c, w) => let (a, w') := f w in (OK a, (c, w')).
Definition self : M ArxivClient := fun '(c, w) => (OK c, (c, w)).

Declare Scope method_scope.
Delimit Scope method_scope with method.
Notation "x <- m ;; k" := (bind m (fun x => k))
  (at level 100, m at next level, right associativity) : method_scope.
Notation "m ;; k" := (bind m (fun _ => k))
  (at level 100, right associativity) : method_scope.

Section Methods.
Context `{Datetime}.
Import PyStr Xml.
Local Open Scope method_scope.

(** [ArxivClient._rate_limit]. *)
Definition _rate_limit : M unit :=
  fun '(c, w) =>
    let (now, w1) := time_time w in
    let elapsed := now - last_request_time c in
    let w2 := if elapsed <? rate_limit_delay c
              then time_sleep RateLimitWait (rate_limit_delay c - elapsed) w1
              else w1 in
    let (now', w3) := time_time w2 in
    (OK tt, (set_last_request_time now' c, w3)).

(** [n] calls of [_rate_limit] in a row. *)
Fixpoint acquire_times (n : nat) : M unit :=
  match n with
  | O => ret tt
  | Datatypes.S n' => _rate_limit ;; acquire_times n'
  end.

(** [self.cache_dir / f"{cache_key}.json"]. *)
Definition cache_file (dir cache_key : string) : string :=
  dir +:+ "/" +:+ cache_key +:+ ".json".

(** [ArxivClient._get_cached]. *)
Definition _get_cached (cache_key : string) : M (option (list Paper)) :=
  fun '(c, w) =>
    match cache_dir c with
    | None => (OK None, (c, w))
    | Some dir =>
        match files w !! cache_file dir cache_key with
        | None => (OK None, (c, w))
        | Some NotJson => (OK None, (c, w))
        | Some JsonOther => (Raise TypeError, (c, w))
        | Some (JsonObject None _) => (OK None, (c, w))
        | Some (JsonObject (Some NotIso) _) => (Raise ValueError, (c, w))
        | Some (JsonObject (Some (IsoTime cached_time)) results) =>
            let (now, w') := datetime_now w in
            if now - cached_time <? cache_ttl c
            then (OK results, (c, w'))
            else (OK None, (c, w'))
        end
    end.

(** [ArxivClient._set_cached]. *)
Definition _set_cached (cache_key : string) (results : list Paper) : M unit :=
  fun '(c, w) =>
    match cache_dir c with
    | None => (OK tt, (c, w))
    | Some dir =>
        let (now, w') := datetime_now w in
        (OK tt, (c, write_file (cache_file dir cache_key)
                       (JsonObject (Some (IsoTime now)) (Some results)) w'))
    end.

(** [[self._parse_entry(entry) for entry in entries]]. *)
Fixpoint parse_entries (entries : list Element) : Result (list Paper) :=
  match entries with
  | [] => OK []
  | entry :: rest =>
      rbind (_parse_entry entry) (fun paper =>
      rbind (parse_entries rest) (fun papers => OK (paper :: papers)))
  end.

(** The check for an error response: a single entry whose title has text
    containing "Error". *)
Definition error_title (entries : list Element) : option string :=
  match entries with
  | [entry] =>
      match find "atom:title" entry with
      | Some title =>
          match text title with
          | Some t => if negb (is_empty t) && contains "Error" t
                      then Some t else None
          | None => None
          end
      | None => None
      end
  | _ => None
  end.

(** The body of the [if response.status_code == 200] branch. *)
Definition handle_ok (cache_key : string) (content : option Element)
  : M (list Paper) :=
  match content with
  | None => raise (Exception ParseFailedMsg (Some ParseError))
  | Some root =>
      let entries := findall "atom:entry" root in
      match error_title entries with
      | Some t => raise (Exception (ApiErrorMsg t) None)
      | None =>
          papers <- lift (parse_entries entries) ;;
          _set_cached cache_key papers ;;
          ret papers
      end
  end.

(** The failures that the retry loop answers with a backoff: a timeout,
    a connection error, a status of 500 or more. *)
Definition transient (o : NetOutcome) : bool :=
  match o with
  | NetTimeout | NetConnectionError => true
  | Response status _ => status >=? 500
  end.

(** A response that [_make_request] accepts, and the records it holds. *)
Definition good_response (o : NetOutcome) (papers : list Paper) : Prop :=
  exists root, o = Response 200 (Some root)
    /\ error_title (findall "atom:entry" root) = None
    /\ parse_entries (findall "atom:entry" root) = OK papers.

(** The backoff sleeps of attempts [first], ..., [first + n - 1]. *)
Definition backoffs (first : Z) (n : nat) : list Z :=
  List.map (fun i => 2 ^ (first + Z.of_nat i) * second) (seq 0 n).

(** How a run of the client moved from one state to a later one: the
    configuration and the environment are the same, and the trace grew by
    the requests [reqs] and the backoff sleeps [naps]. *)
Definition extends (st st' : State) (reqs : list Json.dict) (naps : list Z)
  : Prop :=
  let '(c, w) := st in
  let '(c', w') := st' in
  max_retries c' = max_retries c /\
  cache_dir c' = cache_dir c /\
  cache_ttl c' = cache_ttl c /\
  rate_limit_delay c' = rate_limit_delay c /\
  network w' = network w /\
  latency w' = latency w /\
  sent w' = (sent w + List.length reqs)%nat /\
  requests_of (trace w') = (requests_of (trace w) ++ reqs)%list /\
  sleeps_of Backoff (trace w') = (sleeps_of Backoff (trace w) ++ naps)%list.

(** What the last of a series of transient failures leaves behind: the
    cause chained to the terminal error, and a last backoff sleep. *)
Definition final_cause (last : NetOutcome) : option Cause :=
  match last with
  | NetTimeout => Some Timeout
  | NetConnectionError => Some ConnectionError
  | Response _ _ => None
  end.

Definition final_backoff (attempt : Z) (last : NetOutcome) : list Z :=
  match last with
  | Response _ _ => [2 ^ attempt * second]
  | _ => []
  end.

(** [response.raise_for_status()]. *)
Definition raise_for_status (status : Z) : M unit :=
  if (400 <=? status) && (status <? 600) then raise (HTTPError status)
  else ret tt.

Definition backoff (attempt : Z) : M unit :=
  on_world (time_sleep Backoff (2 ^ attempt * second)).

(** What one iteration of the retry loop does with the outcome of
    [requests.get]: the rest of the [try] body and the [except] clauses.
    [retry] is the rest of the loop, entered where the iteration ends
    without returning or raising; [c] is the client, read for
    [max_retries]. *)
Definition on_response (retry : M (list Paper)) (cache_key : string)
    (attempt : Z) (c : ArxivClient) (response : NetOutcome)
  : M (list Paper) :=
  match response with
  | Response status content =>
      if status =? 200 then handle_ok cache_key content
      else if status >=? 500 then backoff attempt ;; retry
      else raise_for_status status ;; retry
  | NetTimeout =>
      if attempt <? max_retries c - 1 then backoff attempt ;; retry
      else raise (Exception (TimedOutMsg (max_retries c)) (Some Timeout))
  | NetConnectionError =>
      if attempt <? max_retries c - 1 then backoff attempt ;; retry
      else raise (Exception (ConnFailedMsg (max_retries c))
                    (Some ConnectionError))
  end.

(** The loop [for attempt in range(self.max_retries)] of
    [_make_request], with [todo] iterations left, and the [raise] that
    follows it. *)
Fixpoint attempts (params : Json.dict) (cache_key : string)
    (todo : nat) (attempt : Z) : M (list Paper) :=
  match todo with
  | O => c <- self ;; raise (Exception (FailedMsg (max_retries c)) None)
  | Datatypes.S todo' =>
      c <- self ;;
      _rate_limit ;;
      response <- from_world (requests_get params) ;;
      on_response (attempts params cache_key todo' (attempt + 1))
        cache_key attempt c response
  end.

(** [ArxivClient._make_request]. *)
Definition _make_request (params : Json.dict) : M (list Paper) :=
  let cache_key := _get_cache_key params in
  cached <- _get_cached cache_key ;;
  match cached with
  | Some papers => ret papers
  | None =>
      c <- self ;;
      attempts params cache_key (Z.to_nat (max_retries c)) 0
  end.

(** [ArxivClient.search]. *)
Definition search_params (query : string) (max_results : Z)
    (sort_by sort_order : string) (start : Z) : Json.dict :=
  [("search_query", Json.Str query);
   ("start", Json.Int start);
   ("max_results", Json.Int (Z.min max_results 2000));
   ("sortBy", Json.Str sort_by);
   ("sortOrder", Json.Str sort_order)].

Definition search (query : string) (max_results : Z)
    (sort_by sort_order : string) (start : Z) : M (list Paper) :=
  _make_request (search_params query max_results sort_by sort_order start).

(** [ArxivClient.get_paper] and [ArxivClient.get_papers]. *)
Definition get_paper (arxiv_id : string) : M (option Paper) :=
  let arxiv_id := _clean_arxiv_id arxiv_id in
  results <- _make_request [("id_list", Json.Str arxiv_id);
                            ("max_results", Json.Int 1)] ;;
  ret (List.head results).

Definition get_papers (arxiv_ids : list string) : M (list Paper) :=
  let clean_ids := List.map _clean_arxiv_id arxiv_ids in
  _make_request [("id_list", Json.Str (join "," clean_ids));
                 ("max_results", Json.Int (Z.of_nat (List.length clean_ids)))].

(** [xs[:n]] for an integer [n] of either sign. *)
Definition slice_to {A} (n : Z) (xs : list A) : list A :=
  if 0 <=? n then firstn (Z.to_nat n) xs
  else firstn (Z.to_nat (Z.of_nat (List.length xs) + n)) xs.

(** [if max_results and len(all_papers) >= max_results]: [None] and [0]
    are both falsy. *)
Definition reached (max_results : option Z) (count : nat) : bool :=
  match max_results with
  | Some m => negb (m =? 0) && (Z.of_nat count >=? m)
  | None => false
  end.

(** [ArxivClient.paginate_all]: the [while True] loop with [fuel]
    iterations allowed; [None] is returned when they are used up before
    the loop has ended. *)
Fixpoint paginate_loop (fuel : nat) (query : string)
    (max_results : option Z) (sort_by sort_order : string) (page_size : Z)
    (all_papers : list Paper) (start : Z) : M (option (list Paper)) :=
  match fuel with
  | O => ret None
  | Datatypes.S fuel' =>
      results <- search query page_size sort_by sort_order start ;;
      match results with
      | [] => ret (Some all_papers)
      | _ :: _ =>
          let all_papers := (all_papers ++ results)%list in
          if reached max_results (List.length all_papers)
          then ret (Some (slice_to (default 0 max_results) all_papers))
          else if Z.of_nat (List.length results) <? page_size
          then ret (Some all_papers)
          else paginate_loop fuel' query max_results sort_by sort_order
                 page_size all_papers (start + page_size)
      end
  end.

Definition paginate_all (fuel : nat) (query : string)
    (max_results : option Z) (sort_by sort_order : string) (page_size : Z)
  : M (option (list Paper)) :=
  paginate_loop fuel query max_results sort_by sort_order page_size [] 0.

End Methods.


(* ===================================================================== *)
(** ** Sample entries, feeds and worlds                                   *)
(* ===================================================================== *)

Module Samples.
Import Xml.

Definition leaf (tag text : string) : Element := Elem tag (Some text) ∅ [].

(** The entry of the end-to-end scenario. *)
Definition pdf_link : Element :=
  Elem "atom:link" None
    (<["title" := "pdf"]> (<["href" := "http://arxiv.org/pdf/2106.01234"]>
      (<["rel" := "related"]> (<["type" := "application/pdf"]> ∅)))) [].

Definition study_entry : Element :=
  Elem "atom:entry" None ∅
    [leaf "atom:id" "http://arxiv.org/abs/2106.01234";
     leaf "atom:published" "2021-06-02T17:59:59Z";
     Elem "atom:title" (Some (String " " (String " " (String "A"
       (String " " (String " " (String " " ("Study" +:+
         String PyStr.newline "of  X ")))))))) ∅ [];
     Elem "atom:author" None ∅ [leaf "atom:name" "Ada Lovelace"];
     Elem "atom:author" None ∅ [leaf "atom:name" "Alan Turing"];
     pdf_link].

(** An entry with nothing in it, one whose identifier has an empty last
    segment, and one with an empty title element. *)
Definition bare_entry : Element := Elem "atom:entry" None ∅ [].

Definition slash_entry : Element :=
  Elem "atom:entry" None ∅ [leaf "atom:id" "http://arxiv.org/abs/"].

Definition empty_title_entry : Element :=
  Elem "atom:entry" None ∅ [Elem "atom:title" None ∅ []].

(** The API's way of reporting a malformed query. *)
Definition error_feed : Element :=
  Elem "atom:feed" None ∅
    [Elem "atom:entry" None ∅
       [leaf "atom:id" "http://arxiv.org/api/errors#incorrect_id_format";
        leaf "atom:title" "Error";
        leaf "atom:summary" "incorrect id format for 1234"]].

(** Record number [i] of an upstream collection, and the page a request
    for [count] records from [start] gets out of [total] records. *)
Definition numbered_entry (i : nat) : Element :=
  Elem "atom:entry" None ∅
    [leaf "atom:id" ("http://arxiv.org/abs/" +:+ Json.encode_int (Z.of_nat i));
     leaf "atom:title" "A numbered record"].

Definition page (total start count : nat) : Element :=
  Elem "atom:feed" None ∅
    (List.map numbered_entry (seq start (Nat.min count (total - start)))).

Definition int_param (key : string) (params : Json.dict) : Z :=
  match Json.lookup key params with
  | Some (Json.Int z) => z
  | _ => 0
  end.

Definition upstream (total : nat) : nat -> Json.dict -> NetOutcome :=
  fun _ params =>
    Response 200 (Some (page total (Z.to_nat (int_param "start" params))
                          (Z.to_nat (int_param "max_results" params)))).

(** Networks that answer every request the same way. *)
Definition always (o : NetOutcome) : nat -> Json.dict -> NetOutcome :=
  fun _ _ => o.

(** A network that follows a script, then times out. *)
Definition scripted (script : list NetOutcome) : nat -> Json.dict -> NetOutcome :=
  fun i _ => nth i script NetTimeout.

(** Two failures, then a page of two records. *)
Definition flaky_script : list NetOutcome :=
  [NetTimeout; Response 503 None; Response 200 (Some (page 2 0 2))].

(** A world in which nothing takes time but sleeping. *)
Definition still_world (net : nat -> Json.dict -> NetOutcome) (now : Z) : World :=
  {| clock := now; ticks := 0; latency := fun _ => 0%N; sent := 0;
     network := net; files := ∅; trace := [] |}.

(** The client with the defaults of [__init__], without and with a cache. *)
Definition default_client : ArxivClient := init (3 * second) None 24 3 30.
Definition caching_client : ArxivClient :=
  init (3 * second) (Some ".cache") 24 3 30.

Definition epoch_2026 : Z := 1780000000 * second.

Definition demo_params (n : Z) : Json.dict :=
  [("search_query", Json.Str "cat:cs.LG"); ("start", Json.Int 0);
   ("max_results", Json.Int n); ("sortBy", Json.Str "relevance");
   ("sortOrder", Json.Str "descending")].

End Samples.


(* ===================================================================== *)
(** ** What a run of a method keeps and what it adds                      *)
(* ===================================================================== *)

(** Every sleep of a trace, of either kind. *)
Definition sleeps (tr : list Event) : list Z :=
  omap (fun ev => match ev with
                  | EvSleep _ d => Some d
                  | EvGet _ => None
                  end) tr.

(** A run from [st] to [st']: the configuration and the environment are
    the same, the clock did not go back, the trace grew by [evs] and the
    request counter by the requests among them. *)
Record moved (st st' : State) (evs : list Event) : Prop := Moved {
  same_retries : max_retries (fst st') = max_retries (fst st);
  same_dir : cache_dir (fst st') = cache_dir (fst st);
  same_ttl : cache_ttl (fst st') = cache_ttl (fst st);
  same_delay : rate_limit_delay (fst st') = rate_limit_delay (fst st);
  same_network : network (snd st') = network (snd st);
  same_latency : latency (snd st') = latency (snd st);
  more_sent : sent (snd st')
              = (sent (snd st) + List.length (requests_of evs))%nat;
  more_trace : trace (snd st') = (trace (snd st) ++ evs)%list;
  later : clock (snd st) <= clock (snd st')
}.

(** The cache entry that a successful request leaves, when there is a
    cache directory: the records under the key, stamped with a time of
    the run. *)
Definition stored (c : ArxivClient) (w w' : World) (key : string)
    (papers : list Paper) : Prop :=
  match cache_dir c with
  | None => files w' = files w
  | Some dir =>
      exists t, clock w <= t <= clock w'
        /\ files w' = <[cache_file dir key :=
                          JsonObject (Some (IsoTime t)) (Some papers)]> (files w)
  end.

(** What holds of a run of the retry loop, or of [_make_request], that
    was allowed [todo] attempts: [n] requests went out, all with the same
    parameters; no more backoff sleeps than requests; no sleep of zero or
    negative length; each request at least [rate_limit_delay] after the
    one before it; the cache written only by a run that returns records
    from the network. *)
Definition request_run (params : Json.dict) (key : string) (todo : nat)
    (st : State) (out : Result (list Paper) * State) : Prop :=
  exists (evs : list Event) (n : nat),
    moved st (snd out) evs
    /\ requests_of evs = repeat params n
    /\ (n <= todo)%nat
    /\ (List.length (sleeps_of Backoff evs) <= n)%nat
    /\ Forall (fun d => 0 < d) (sleeps evs)
    /\ (n = 0%nat
        \/ last_request_time (fst st) + Z.of_nat n * rate_limit_delay (fst st)
           <= clock (snd (snd out)))
    /\ Z.of_nat (n - 1) * rate_limit_delay (fst st)
       <= clock (snd (snd out)) - clock (snd st)
    /\ match fst out with
       | OK papers =>
           if (n =? 0)%nat then files (snd (snd out)) = files (snd st)
           else stored (fst st) (snd st) (snd (snd out)) key papers
       | Raise _ => files (snd (snd out)) = files (snd st)
       end.

(** A character of [0-9a-f]. *)
Definition ishex (c : ascii) : bool :=
  PyStr.isdigit c || ((97 <=? PyStr.code c) && (PyStr.code c <=? 102))%N.

(** The entry of the end-to-end scenario as the API serves it, with the
    version of the paper at the end of the identifier. *)
Definition versioned_entry : Xml.Element :=
  Xml.Elem "atom:entry" None ∅
    [Samples.leaf "atom:id" "http://arxiv.org/abs/2106.01234v3";
     Samples.leaf "atom:published" "2021-06-02T17:59:59Z";
     Xml.Elem "atom:title" (Some (String " " (String " " (String "A"
       (String " " (String " " (String " " ("Study" +:+
         String PyStr.newline "of  X ")))))))) ∅ [];
     Xml.Elem "atom:author" None ∅ [Samples.leaf "atom:name" "Ada Lovelace"];
     Xml.Elem "atom:author" None ∅ [Samples.leaf "atom:name" "Alan Turing"];
     Samples.pdf_link].
(* ===================================================================== *)
(** ** Facts about the string operations                                  *)
(* ===================================================================== *)

Module PyStrFacts.
Import PyStr.

Lemma append_nil_r (s : string) : s +:+ "" = s.
Proof. induction s as [|c s IH]; simpl; [reflexivity | now rewrite IH]. Qed.

Lemma append_assoc (s t u : string) : (s +:+ t) +:+ u = s +:+ (t +:+ u).
Proof. induction s as [|c s IH]; simpl; [reflexivity | now rewrite IH]. Qed.

Lemma isspace_space : isspace space = true.
Proof. reflexivity. Qed.

Lemma isspace_newline : isspace newline = true.
Proof. reflexivity. Qed.

(** Replacing newlines by spaces changes nothing for [re.sub(r'\s+')]. *)
Lemma collapse_replace_newline (b : bool) (s : string) :
  collapse_from b (replace newline space s) = collapse_from b s.
Proof.
  revert b; induction s as [|c s IH]; intros b; simpl; [reflexivity|].
  destruct (Ascii.eqb_spec c newline) as [->|_].
  - rewrite isspace_space, isspace_newline. now rewrite !IH.
  - now rewrite !IH.
Qed.

Lemma words_from_some_cons (w : string) (s : string) :
  exists w' rest, words_from (Some w) s = w' :: rest.
Proof.
  revert w; induction s as [|c s IH]; intros w; simpl.
  - now exists w, [].
  - destruct (isspace c); [now eexists _, _ | apply IH].
Qed.

Lemma join_spaces_cons (w : string) (ws : list string) :
  join_spaces (w :: ws) =
  match ws with [] => w | _ :: _ => w +:+ String space (join_spaces ws) end.
Proof. destruct ws; reflexivity. Qed.

(** The heart of whitespace normalisation: collapsing the right-stripped
    text gives the words joined by single spaces, both inside a word
    and inside a run of whitespace. *)
Lemma collapse_rstrip_words (s : string) :
  (forall w, join_spaces (words_from (Some w) s)
             = w +:+ collapse_from false (rstrip s))
  /\ join_spaces (words_from None s) = collapse_from true (rstrip s)
  /\ (words_from None s = [] <-> rstrip s = "").
Proof.
  induction s as [|c s (IHw & IHn & IHe)].
  - simpl. repeat split; intros; simpl; rewrite ?append_nil_r; reflexivity.
  - cbn [words_from rstrip]. cbv zeta.
    destruct (isspace c) eqn:Hc; cbn [andb].
    + destruct (rstrip s) as [|c' r] eqn:Hr; cbn [is_empty].
      * assert (Hnil : words_from None s = []) by now apply IHe.
        rewrite Hnil. simpl.
        repeat split; intros; rewrite ?append_nil_r; reflexivity.
      * assert (Hne : words_from None s <> []).
        { intros E. apply IHe in E. discriminate. }
        cbn [collapse_from]. rewrite Hc. repeat split.
        -- intros w. rewrite join_spaces_cons.
           destruct (words_from None s) as [|w1 ws] eqn:Hws; [congruence|].
           rewrite IHn. reflexivity.
        -- exact IHn.
        -- intros E; congruence.
        -- intros E; discriminate.
    + cbn [collapse_from]. rewrite Hc. repeat split.
      * intros w. rewrite IHw. now rewrite append_assoc.
      * rewrite IHw. reflexivity.
      * intros E. destruct (words_from_some_cons (String c "") s) as (w' & r & E').
        congruence.
      * intros E. discriminate.
Qed.

Lemma words_lstrip (s : string) : words (lstrip s) = words s.
Proof.
  unfold words. induction s as [|c s IH]; simpl; [reflexivity|].
  destruct (isspace c) eqn:Hc; [exact IH|]. simpl. now rewrite Hc.
Qed.

Lemma lstrip_head (s : string) :
  match lstrip s with
  | EmptyString => True
  | String c _ => isspace c = false
  end.
Proof.
  induction s as [|c s IH]; simpl; [exact I|].
  destruct (isspace c) eqn:Hc; [exact IH | exact Hc].
Qed.

Lemma rstrip_head (s : string) :
  match s with
  | EmptyString => True
  | String c _ => isspace c = false ->
      match rstrip s with
      | EmptyString => False
      | String c' _ => c' = c
      end
  end.
Proof. destruct s as [|c s]; simpl; [exact I|]. intros ->. reflexivity. Qed.

(** [re.sub(r'\s+', ' ', s.strip())] is [' '.join(s.split())]. *)
Theorem normalise_words (s : string) :
  re_sub_spaces (strip s) = join_spaces (words s).
Proof.
  rewrite <- words_lstrip. unfold strip, re_sub_spaces, words.
  pose proof (lstrip_head s) as Hh.
  destruct (lstrip s) as [|c t]; [reflexivity|].
  destruct (collapse_rstrip_words (String c t)) as (_ & Hn & _).
  rewrite Hn. simpl. rewrite Hh. simpl. now rewrite Hh.
Qed.

Theorem normalise_title_words (s : string) :
  re_sub_spaces (replace newline space (strip s)) = join_spaces (words s).
Proof.
  unfold re_sub_spaces. rewrite collapse_replace_newline.
  apply normalise_words.
Qed.

Lemma rstrip_idem (s : string) : rstrip (rstrip s) = rstrip s.
Proof.
  induction s as [|c s IH]; [reflexivity|].
  cbn [rstrip]. cbv zeta.
  destruct (isspace c && is_empty (rstrip s)) eqn:E; [reflexivity|].
  cbn [rstrip]. cbv zeta. now rewrite IH, E.
Qed.

Lemma collapse_tidy (r : string) (b : bool) :
  rstrip r = r -> r <> "" -> tidy_from b (collapse_from b r) = true.
Proof.
  revert b; induction r as [|c r IH]; intros b Hr Hne; [congruence|].
  cbn [rstrip] in Hr. cbv zeta in Hr.
  destruct (isspace c && is_empty (rstrip r)) eqn:E; [discriminate|].
  injection Hr as Hr. rewrite Hr in E.
  destruct r as [|c' r'].
  - rewrite andb_true_r in E. simpl. rewrite E. simpl. now rewrite E.
  - assert (IH' : forall b', tidy_from b' (collapse_from b' (String c' r')) = true).
    { intros b'. apply IH; [exact Hr | discriminate]. }
    cbn [collapse_from]. destruct (isspace c) eqn:Hc.
    + destruct b.
      * apply IH'.
      * cbn [tidy_from]. rewrite isspace_space. rewrite IH'. reflexivity.
    + cbn [tidy_from]. rewrite Hc. apply IH'.
Qed.

(** What [re.sub(r'\s+', ' ', s.strip())] returns is normalised. *)
Theorem normalise_tidy (s : string) : tidy (re_sub_spaces (strip s)) = true.
Proof.
  unfold strip, re_sub_spaces, tidy.
  pose proof (lstrip_head s) as Hh.
  destruct (lstrip s) as [|c t]; [reflexivity|].
  cbn [rstrip]. cbv zeta. rewrite Hh. cbn [andb collapse_from].
  rewrite Hh. cbn [is_empty orb tidy_from]. rewrite Hh.
  destruct (rstrip t) as [|c' r'] eqn:Hr; [reflexivity|].
  rewrite <- Hr. apply collapse_tidy; [apply rstrip_idem | congruence].
Qed.

Theorem normalise_title_tidy (s : string) :
  tidy (re_sub_spaces (replace newline space (strip s))) = true.
Proof.
  unfold re_sub_spaces. rewrite collapse_replace_newline.
  apply normalise_tidy.
Qed.

(** When stripping a version marker leaves nothing. *)
Lemma re_sub_version_empty (s : string) :
  re_sub_version s = "" <-> s = "" \/ version_at s = Some "".
Proof.
  destruct s as [|c s].
  - simpl. intuition.
  - cbn [re_sub_version].
    destruct (version_at (String c s)) as [rest|] eqn:E.
    + split; [intros ->; now right | intros [?|?]; congruence].
    + split; [discriminate | intros [?|?]; discriminate].
Qed.

(** What [\d*$] and [v\d+$] can match: digits up to the end of the string
    or up to one last newline. *)
Lemma digits_to_end_inv (s rest : string) :
  digits_to_end s = Some rest ->
  exists ds, all_chars isdigit ds = true /\ s = ds +:+ rest
             /\ (rest = "" \/ rest = String newline "").
Proof.
  induction s as [|c s IH]; cbn [digits_to_end].
  - intros [= <-]. exists "". repeat split. now left.
  - destruct (isdigit c) eqn:Hc.
    + intros Hs. destruct (IH Hs) as (ds & Hds & -> & Hrest).
      exists (String c ds). cbn [all_chars]. rewrite Hc, Hds.
      repeat split. exact Hrest.
    + destruct (Ascii.eqb_spec c newline) as [->|_]; cbn [andb];
        [|discriminate].
      destruct s; cbn [is_empty]; [|discriminate].
      intros [= <-]. exists "". repeat split. now right.
Qed.

Lemma version_at_inv (s rest : string) :
  version_at s = Some rest ->
  exists ds, ds <> "" /\ all_chars isdigit ds = true
             /\ s = String "v" (ds +:+ rest)
             /\ (rest = "" \/ rest = String newline "").
Proof.
  destruct s as [|c [|d s]]; cbn [version_at]; try discriminate.
  destruct (Ascii.eqb_spec c "v") as [->|_]; cbn [andb]; [|discriminate].
  destruct (isdigit d) eqn:Hd; [|discriminate].
  intros Hs. destruct (digits_to_end_inv s rest Hs) as (ds & Hds & -> & Hrest).
  exists (String d ds). cbn [all_chars]. rewrite Hd, Hds.
  repeat split; [discriminate | exact Hrest].
Qed.

Lemma digits_then_end (ds tail : string) :
  all_chars isdigit ds = true ->
  tail = "" \/ tail = String newline "" ->
  digits_to_end (ds +:+ tail) = Some tail.
Proof.
  intros Hds Htail. induction ds as [|d ds IH].
  - destruct Htail as [->| ->]; reflexivity.
  - cbn [all_chars] in Hds. apply andb_true_iff in Hds as [Hd Hds].
    simpl. rewrite Hd. now apply IH.
Qed.

(** A [v] further on stops the digits: no match ends before it. *)
Lemma digits_to_end_marker (u r : string) :
  digits_to_end (u +:+ String "v" r) = None.
Proof.
  induction u as [|c u IH]; [reflexivity|].
  simpl. destruct (isdigit c); [exact IH|].
  destruct (Ascii.eqb c newline); [|reflexivity].
  now destruct u.
Qed.

Lemma version_at_before (c : ascii) (stem r : string) :
  version_at (String c (stem +:+ String "v" r)) = None.
Proof.
  destruct stem as [|d stem]; simpl.
  - now rewrite andb_false_r.
  - destruct (Ascii.eqb c "v" && isdigit d); [|reflexivity].
    apply digits_to_end_marker.
Qed.

(** [re.sub(r'v\d+$', '', s)] removes a final [v] with digits, and leaves
    the newline that may end the string. *)
Lemma re_sub_version_suffix (stem ds tail : string) :
  ds <> "" -> all_chars isdigit ds = true ->
  tail = "" \/ tail = String newline "" ->
  re_sub_version (stem +:+ String "v" (ds +:+ tail)) = stem +:+ tail.
Proof.
  intros Hne Hds Htail.
  induction stem as [|c stem IH].
  - destruct ds as [|d ds]; [congruence|].
    cbn [all_chars] in Hds. apply andb_true_iff in Hds as [Hd Hds].
    simpl. rewrite Hd. cbn [andb].
    now rewrite (digits_then_end ds tail Hds Htail).
  - change (String c stem +:+ String "v" (ds +:+ tail))
      with (String c (stem +:+ String "v" (ds +:+ tail))).
    cbn [re_sub_version]. rewrite version_at_before, IH. reflexivity.
Qed.

(** Without such an ending it changes nothing. *)
Lemma re_sub_version_same (s : string) :
  (forall stem ds tail,
      ds <> "" -> all_chars isdigit ds = true ->
      tail = "" \/ tail = String newline "" ->
      s <> stem +:+ String "v" (ds +:+ tail)) ->
  re_sub_version s = s.
Proof.
  induction s as [|c s IH]; intros Hno; [reflexivity|].
  cbn [re_sub_version].
  destruct (version_at (String c s)) as [rest|] eqn:E.
  - exfalso. destruct (version_at_inv _ _ E) as (ds & Hne & Hds & Hs & Hrest).
    exact (Hno "" ds rest Hne Hds Hrest Hs).
  - f_equal. apply IH. intros stem ds tail Hne Hds Htail ->.
    exact (Hno (String c stem) ds tail Hne Hds Htail eq_refl).
Qed.

(** [s.split(sep)[-1]] is what follows the last separator. *)
Lemma split_no_sep (sep : ascii) (s : string) :
  has_char sep s = false -> split sep s = [s].
Proof.
  induction s as [|c s IH]; [reflexivity|].
  cbn [has_char split]. intros Hs. apply orb_false_iff in Hs as [Hc Hs].
  now rewrite Hc, (IH Hs).
Qed.

Lemma split_at_sep (sep : ascii) (pre seg : string) :
  exists head l,
    split sep (pre +:+ String sep seg) = (head :: l ++ split sep seg)%list.
Proof.
  induction pre as [|c pre (head & l & IH)].
  - exists "", []. simpl. now rewrite Ascii.eqb_refl.
  - simpl. rewrite IH. destruct (Ascii.eqb c sep).
    + exists "", (head :: l). reflexivity.
    + exists (String c head), l. reflexivity.
Qed.

Lemma last_item_app (l m : list string) :
  m <> [] -> last_item (l ++ m) = last_item m.
Proof.
  intros Hm. unfold last_item. induction l as [|x l IH]; [reflexivity|].
  cbn [app List.last]. rewrite IH.
  destruct (l ++ m)%list eqn:E; [|reflexivity].
  apply app_eq_nil in E as [_ ->]. congruence.
Qed.

Lemma last_split (sep : ascii) (pre seg : string) :
  has_char sep seg = false ->
  last_item (split sep (pre +:+ String sep seg)) = seg.
Proof.
  intros Hseg. destruct (split_at_sep sep pre seg) as (head & l & ->).
  change (head :: l ++ split sep seg)%list
    with ((head :: l) ++ split sep seg)%list.
  rewrite last_item_app; rewrite (split_no_sep sep seg Hseg);
    [reflexivity | discriminate].
Qed.

End PyStrFacts.


(* ===================================================================== *)
(** ** The response parser                                                *)
(* ===================================================================== *)

Section ParserFacts.
Context `{Datetime}.
Import PyStr Xml PyStrFacts.

(** Later links do not touch a key they do not use. *)
Lemma fold_add_link_other (after : list Element) (m : gmap string string)
    (k : string) :
  Forall (fun l => link_key l <> k) after ->
  fold_left add_link after m !! k = m !! k.
Proof.
  revert m; induction after as [|l after IH]; intros m Hall; [reflexivity|].
  inversion Hall as [|? ? Hl Hrest]; subst. simpl.
  rewrite IH by assumption. unfold add_link.
  now rewrite lookup_insert_ne.
Qed.

Lemma fold_add_link_last (before after : list Element) (link : Element) :
  Forall (fun l => link_key l <> link_key link) after ->
  fold_left add_link (before ++ link :: after)%list ∅ !! link_key link
  = Some (get_or "href" "" link).
Proof.
  intros Hall. rewrite fold_left_app. simpl.
  rewrite fold_add_link_other by assumption.
  unfold add_link at 1. apply lookup_insert_eq.
Qed.

(** What a successful parse computed, field by field. *)
Lemma parse_entry_inv (entry : Element) (p : Paper) :
  _parse_entry entry = OK p ->
  has_text "atom:title" entry /\ has_text "atom:summary" entry /\
  has_text "atom:published" entry /\ has_text "atom:updated" entry /\
  arxiv_id p = last_segment (raw_text "atom:id" entry) /\
  base_id p = re_sub_version (arxiv_id p) /\
  title p = re_sub_spaces (replace newline space
              (strip (raw_text "atom:title" entry))) /\
  abstract p = re_sub_spaces (strip (raw_text "atom:summary" entry)) /\
  links p = fold_left add_link (findall "atom:link" entry) ∅ /\
  arxiv_url p = "https://arxiv.org/abs/" +:+ base_id p /\
  pdf_url p = "https://arxiv.org/pdf/" +:+ base_id p +:+ ".pdf".
Proof.
  unfold _parse_entry, has_text, raw_text, parse_date, text_or.
  intros Hp.
  destruct (find "atom:title" entry) as [te|] eqn:Ht;
    [destruct (text te) as [tt|] eqn:Htt|];
    cbn [rbind on_str] in Hp; try discriminate;
  (destruct (find "atom:summary" entry) as [se|] eqn:Hs;
    [destruct (text se) as [st|] eqn:Hst|];
    cbn [rbind on_str] in Hp; try discriminate);
  (destruct (find "atom:published" entry) as [pe|] eqn:Hpu;
    [destruct (text pe) as [pt|] eqn:Hpt|];
    cbn [rbind on_str] in Hp; try discriminate);
  (destruct (find "atom:updated" entry) as [ue|] eqn:Hu;
    [destruct (text ue) as [ut|] eqn:Hut|];
    cbn [rbind on_str] in Hp; try discriminate);
  injection Hp as <-; cbn [arxiv_id base_id title abstract links arxiv_url
                             pdf_url mbind option_bind default];
  rewrite ?Htt, ?Hst;
  (repeat split; try (intros e [= <-]; congruence); try discriminate);
  try reflexivity;
  (destruct (find "atom:id" entry) as [ie|]; cbn [mbind option_bind default];
    [destruct (text ie) as [[|c u]|]|]; reflexivity).
Qed.

End ParserFacts.

Section ParserClaims.
Context `{Datetime}.
Import PyStr Xml PyStrFacts.

(** C7. After a successful parse, title and abstract are the words of the
    raw text joined by single spaces (whitespace runs, newlines included,
    collapsed, nothing at either end); a link whose type is
    application/pdf is stored under "pdf", one of another type whose
    relation is (or defaults to) "alternate" under "abstract", and the
    last link stored under a key is the one found there; the identifier
    is what follows the last slash of the identifier text (the whole text
    when it has no slash); the base identifier is the identifier without
    its final [v] and digits (a newline that ends the identifier stays),
    and the identifier itself when it has no such ending; both URLs are
    built from the base identifier alone. The entry of the end-to-end
    scenario parses to the stated values. *)
Theorem parse_entry_normalises (entry : Element) (p : Paper) :
  _parse_entry entry = OK p ->
  (title p = join_spaces (words (raw_text "atom:title" entry))
   /\ tidy (title p) = true) /\
  (abstract p = join_spaces (words (raw_text "atom:summary" entry))
   /\ tidy (abstract p) = true) /\
  (forall before link after,
      findall "atom:link" entry = (before ++ link :: after)%list ->
      Forall (fun l => link_key l <> link_key link) after ->
      (get "type" link = Some "application/pdf" -> link_key link = "pdf") /\
      (get "type" link <> Some "application/pdf" ->
       get_or "rel" "alternate" link = "alternate" ->
       link_key link = "abstract") /\
      links p !! link_key link = Some (get_or "href" "" link)) /\
  ((forall pre seg,
       has_char "/" seg = false ->
       raw_text "atom:id" entry = pre +:+ String "/" seg
       \/ raw_text "atom:id" entry = seg ->
       arxiv_id p = seg
       /\ (forall stem digits tail,
              digits <> "" -> all_chars isdigit digits = true ->
              tail = "" \/ tail = String newline "" ->
              seg = stem +:+ String "v" (digits +:+ tail) ->
              base_id p = stem +:+ tail)
       /\ ((forall stem digits tail,
               digits <> "" -> all_chars isdigit digits = true ->
               tail = "" \/ tail = String newline "" ->
               seg <> stem +:+ String "v" (digits +:+ tail)) ->
           base_id p = seg))
   /\ arxiv_url p = "https://arxiv.org" +:+ "/abs/" +:+ base_id p
   /\ pdf_url p = "https://arxiv.org" +:+ "/pdf/" +:+ base_id p +:+ ".pdf") /\
  (exists q, _parse_entry Samples.study_entry = OK q
     /\ base_id q = "2106.01234"
     /\ title q = "A Study of X"
     /\ authors q = [Some "Ada Lovelace"; Some "Alan Turing"]
     /\ arxiv_url q = "https://arxiv.org/abs/2106.01234"
     /\ pdf_url q = "https://arxiv.org/pdf/2106.01234.pdf"
     /\ links q !! "pdf" = Some "http://arxiv.org/pdf/2106.01234").
Proof.
  intros Hp.
  destruct (parse_entry_inv entry p Hp)
    as (_ & _ & _ & _ & Hid & Hbase & Htitle & Habs & Hlinks & Hurl & Hpdf).
  split; [|split; [|split; [|split]]].
  - rewrite Htitle. split;
      [apply normalise_title_words | apply normalise_title_tidy].
  - rewrite Habs. split; [apply normalise_words | apply normalise_tidy].
  - intros before link after Hfind Hall. split; [|split].
    + unfold link_key, get_or, get. intros ->. reflexivity.
    + unfold link_key, get_or, get. intros Hty Hrel.
      destruct (String.eqb_spec (default "" (attrib link !! "type"))
                  "application/pdf") as [E|_].
      * exfalso. apply Hty.
        destruct (attrib link !! "type"); [now rewrite <- E | discriminate].
      * now rewrite Hrel.
    + rewrite Hlinks, Hfind. now apply fold_add_link_last.
  - split; [|rewrite Hurl, Hpdf; split; reflexivity].
    intros pre seg Hseg Hraw.
    assert (Hlast : arxiv_id p = seg).
    { rewrite Hid. unfold last_segment. destruct Hraw as [-> | ->].
      - now apply last_split.
      - unfold last_item. now rewrite (split_no_sep "/" seg Hseg). }
    split; [exact Hlast|]. rewrite Hbase, Hlast. split.
    + intros stem digits tail Hne Hds Htail ->.
      now apply re_sub_version_suffix.
    + apply re_sub_version_same.
  - eexists. split; [reflexivity|]. repeat split; reflexivity.
Qed.

(** C6 (as amended). An entry whose title, summary, published and updated
    elements, where present, carry text is parsed without an exception;
    every field whose sub-element is missing gets its default (empty
    string, empty sequence or [None]), in particular an entry without an
    identifier gets empty identifiers; the identifier is the last path
    segment of the identifier text, and its version-stripped form is empty
    exactly when that segment is empty or is only a version marker. *)
Theorem parse_entry_defaults (entry : Element) :
  has_text "atom:title" entry -> has_text "atom:summary" entry ->
  has_text "atom:published" entry -> has_text "atom:updated" entry ->
  exists p, _parse_entry entry = OK p /\
    (find "atom:id" entry = None -> arxiv_id p = "" /\ base_id p = "") /\
    (find "atom:title" entry = None -> title p = "") /\
    (findall "atom:author" entry = [] ->
       authors p = [] /\ affiliations p = []) /\
    (find "atom:summary" entry = None -> abstract p = "") /\
    (find "atom:published" entry = None ->
       published p = "" /\ published_datetime p = None) /\
    (find "atom:updated" entry = None ->
       updated p = "" /\ updated_datetime p = None) /\
    (find "arxiv:primary_category" entry = None ->
       primary_category p = Some "") /\
    (findall "atom:category" entry = [] -> categories p = []) /\
    (findall "atom:link" entry = [] -> links p = ∅) /\
    (find "arxiv:doi" entry = None -> doi p = None) /\
    (find "arxiv:journal_ref" entry = None -> journal_ref p = None) /\
    (find "arxiv:comment" entry = None -> comment p = None) /\
    arxiv_id p = last_segment (raw_text "atom:id" entry) /\
    (base_id p = "" <->
     arxiv_id p = "" \/ version_at (arxiv_id p) = Some "").
Proof.
  intros Ht Hs Hpu Hu.
  assert (Hparse : exists p, _parse_entry entry = OK p).
  { unfold _parse_entry, parse_date, text_or.
    destruct (find "atom:title" entry) as [te|] eqn:Eti;
      [destruct (text te) eqn:Ett; [|exfalso; now apply (Ht te)]|];
    (destruct (find "atom:summary" entry) as [se|] eqn:Esu;
      [destruct (text se) eqn:Est; [|exfalso; now apply (Hs se)]|]);
    (destruct (find "atom:published" entry) as [pe|] eqn:Epu;
      [destruct (text pe) eqn:Ept; [|exfalso; now apply (Hpu pe)]|]);
    (destruct (find "atom:updated" entry) as [ue|] eqn:Eup;
      [destruct (text ue) eqn:Eut; [|exfalso; now apply (Hu ue)]|]);
    cbn [rbind on_str]; eexists; reflexivity. }
  destruct Hparse as (p & Hp). exists p. split; [exact Hp|].
  destruct (parse_entry_inv entry p Hp)
    as (_ & _ & _ & _ & Hid & Hbase & _).
  assert (Hfields :
    (find "atom:title" entry = None -> title p = "") /\
    (findall "atom:author" entry = [] ->
       authors p = [] /\ affiliations p = []) /\
    (find "atom:summary" entry = None -> abstract p = "") /\
    (find "atom:published" entry = None ->
       published p = "" /\ published_datetime p = None) /\
    (find "atom:updated" entry = None ->
       updated p = "" /\ updated_datetime p = None) /\
    (find "arxiv:primary_category" entry = None ->
       primary_category p = Some "") /\
    (findall "atom:category" entry = [] -> categories p = []) /\
    (findall "atom:link" entry = [] -> links p = ∅) /\
    (find "arxiv:doi" entry = None -> doi p = None) /\
    (find "arxiv:journal_ref" entry = None -> journal_ref p = None) /\
    (find "arxiv:comment" entry = None -> comment p = None)).
  { revert Hp. unfold _parse_entry, parse_date, text_or.
    destruct (find "atom:title" entry) as [te|];
      [destruct (text te)|]; cbn [rbind on_str]; try discriminate;
    (destruct (find "atom:summary" entry) as [se|];
      [destruct (text se)|]; cbn [rbind on_str]; try discriminate);
    (destruct (find "atom:published" entry) as [pe|];
      [destruct (text pe)|]; cbn [rbind on_str]; try discriminate);
    (destruct (find "atom:updated" entry) as [ue|];
      [destruct (text ue)|]; cbn [rbind on_str]; try discriminate);
    intros [= <-];
    cbn [title authors affiliations abstract published published_datetime
         updated updated_datetime primary_category categories links doi
         journal_ref comment];
    repeat match goal with |- _ /\ _ => split end;
    intros E; try discriminate E; rewrite ?E;
    cbn [replace_Z]; rewrite ?fromisoformat_empty; repeat split. }
  destruct Hfields as (F1 & F2 & F3 & F4 & F5 & F6 & F7 & F8 & F9 & F10 & F11).
  split.
  { intros Enone. rewrite Hbase, Hid. unfold raw_text. rewrite Enone.
    split; reflexivity. }
  do 11 (split; [assumption|]).
  split; [exact Hid | rewrite Hbase; apply re_sub_version_empty].
Qed.

End ParserClaims.

(** C7 at the entry of the end-to-end scenario, served with the version
    [v3] at the end of its identifier: the version is in [arxiv_id] and in
    neither the base identifier nor the URLs. *)
Lemma parse_entry_normalises_witness :
  exists p, @_parse_entry utc_seconds versioned_entry = OK p
    /\ title p = "A Study of X"
    /\ PyStr.tidy (title p) = true
    /\ arxiv_id p = "2106.01234v3"
    /\ base_id p = "2106.01234"
    /\ arxiv_url p = "https://arxiv.org/abs/2106.01234"
    /\ pdf_url p = "https://arxiv.org/pdf/2106.01234.pdf".
Proof.
  eexists. split; [reflexivity|].
  pose proof (@parse_entry_normalises utc_seconds versioned_entry _ eq_refl)
    as ((_ & Htidy) & _ & _ & (Hid & Hurl & Hpdf) & _).
  destruct (Hid "http://arxiv.org/abs" "2106.01234v3" eq_refl
              (or_introl eq_refl)) as (Hlast & Hstrip & _).
  pose proof (Hstrip "2106.01234" "3" "" ltac:(discriminate) eq_refl
                (or_introl eq_refl) eq_refl) as Hbase.
  split; [reflexivity|]. split; [exact Htidy|]. split; [exact Hlast|].
  split; [exact Hbase|].
  split; [rewrite Hurl, Hbase | rewrite Hpdf, Hbase]; reflexivity.
Defined.

(** C6 at an entry with no sub-element at all. *)
Lemma parse_entry_defaults_witness :
  has_text "atom:title" Samples.bare_entry /\
  has_text "atom:summary" Samples.bare_entry /\
  has_text "atom:published" Samples.bare_entry /\
  has_text "atom:updated" Samples.bare_entry /\
  exists p, @_parse_entry utc_seconds Samples.bare_entry = OK p
    /\ arxiv_id p = "" /\ title p = "" /\ authors p = [] /\ doi p = None.
Proof.
  assert (Hno : forall tag, has_text tag Samples.bare_entry).
  { intros tag e He. discriminate He. }
  repeat (split; [apply Hno|]).
  destruct (@parse_entry_defaults utc_seconds Samples.bare_entry
              (Hno _) (Hno _) (Hno _) (Hno _))
    as (p & Hp & Hid & Hti & Hau & _ & _ & _ & _ & _ & _ & Hdoi & _).
  exists p. split; [exact Hp|].
  split; [apply Hid; reflexivity|].
  split; [apply Hti; reflexivity|].
  split; [apply Hau; reflexivity | apply Hdoi; reflexivity].
Defined.

(** C6 as stated fails: an identifier element is present, with text, yet
    both identifiers come out empty. *)
Lemma parse_entry_id_counterexample :
  Xml.find "atom:id" Samples.slash_entry
    = Some (Samples.leaf "atom:id" "http://arxiv.org/abs/")
  /\ exists p, @_parse_entry utc_seconds Samples.slash_entry = OK p
       /\ arxiv_id p = "" /\ base_id p = "".
Proof.
  split; [reflexivity|].
  eexists. split; [reflexivity|]. split; reflexivity.
Qed.

(* ===================================================================== *)
(** ** The rate limiter                                                   *)
(* ===================================================================== *)

Section RateLimiter.

Lemma advance_clock (extra : Z) (w : World) :
  clock w + extra <= clock (advance extra w).
Proof.
  unfold advance; simpl. pose proof (N2Z.is_nonneg (latency w (ticks w))). lia.
Qed.

(** One call: where the clock and the recorded time stand afterwards. *)
Lemma rate_limit_step (c : ArxivClient) (w : World) :
  exists w', _rate_limit (c, w) = (OK tt, (set_last_request_time (clock w') c, w'))
    /\ last_request_time c + rate_limit_delay c <= clock w'
    /\ clock w <= clock w'
    /\ network w' = network w /\ latency w' = latency w
    /\ sent w' = sent w /\ files w' = files w
    /\ sleeps_of Backoff (trace w') = sleeps_of Backoff (trace w)
    /\ requests_of (trace w') = requests_of (trace w).
Proof.
  unfold _rate_limit, time_time.
  set (w1 := advance 0 w).
  pose proof (advance_clock 0 w) as H1. fold w1 in H1.
  destruct (clock w1 - last_request_time c <? rate_limit_delay c) eqn:E.
  - set (w2 := time_sleep RateLimitWait
                 (rate_limit_delay c - (clock w1 - last_request_time c)) w1).
    exists (advance 0 w2). split; [reflexivity|].
    pose proof (advance_clock 0 w2) as H3.
    pose proof (advance_clock
                  (rate_limit_delay c - (clock w1 - last_request_time c)) w1) as H2.
    assert (Hc2 : clock w2 = clock (advance
              (rate_limit_delay c - (clock w1 - last_request_time c)) w1))
      by reflexivity.
    apply Z.ltb_lt in E.
    repeat split; try reflexivity; try lia.
    + simpl. unfold sleeps_of. rewrite omap_app. simpl. now rewrite app_nil_r.
    + simpl. unfold requests_of. rewrite omap_app. simpl. now rewrite app_nil_r.
  - exists (advance 0 w1). split; [reflexivity|].
    pose proof (advance_clock 0 w1) as H3.
    apply Z.ltb_ge in E.
    repeat split; try reflexivity; lia.
Qed.

Lemma acquire_times_spacing (n : nat) (c : ArxivClient) (w : World) :
  exists c' w', acquire_times (Datatypes.S n) (c, w) = (OK tt, (c', w'))
    /\ rate_limit_delay c' = rate_limit_delay c
    /\ last_request_time c' = clock w'
    /\ clock w + Z.of_nat n * rate_limit_delay c <= clock w'
    /\ last_request_time c + (Z.of_nat n + 1) * rate_limit_delay c <= clock w'.
Proof.
  revert c w; induction n as [|n IH]; intros c w.
  - destruct (rate_limit_step c w) as (w' & Hrun & Hgap & Hmono & _).
    exists (set_last_request_time (clock w') c), w'.
    cbn [acquire_times]. unfold bind. rewrite Hrun.
    repeat split; simpl; lia.
  - destruct (rate_limit_step c w) as (w1 & Hrun & Hgap & Hmono & _).
    set (c1 := set_last_request_time (clock w1) c) in *.
    destruct (IH c1 w1) as (c' & w' & Hrest & Hdelay & Hlast & Hclock & Hsince).
    exists c', w'.
    change (acquire_times (Datatypes.S (Datatypes.S n)))
      with (bind _rate_limit (fun _ => acquire_times (Datatypes.S n))).
    unfold bind at 1. rewrite Hrun. rewrite Hrest.
    change (rate_limit_delay c1) with (rate_limit_delay c) in *.
    change (last_request_time c1) with (clock w1) in *.
    repeat split; try assumption; lia.
Qed.

End RateLimiter.

(** C3. A call of [_rate_limit] never fails; when it returns, at least
    [rate_limit_delay] has passed since the time recorded by the call before
    it, and the time of the return is recorded as the new last request time
    (so the delay is always measured from the most recent call). Hence [n]
    calls in a row take at least [(n - 1) * rate_limit_delay]. *)
Theorem rate_limit_min_delay (c : ArxivClient) (w : World) (n : nat) :
  (exists w1,
      _rate_limit (c, w) = (OK tt, (set_last_request_time (clock w1) c, w1))
      /\ last_request_time (set_last_request_time (clock w1) c) = clock w1
      /\ last_request_time c + rate_limit_delay c <= clock w1
      /\ clock w <= clock w1)
  /\ (exists c' w',
      acquire_times n (c, w) = (OK tt, (c', w'))
      /\ Z.of_nat (Nat.pred n) * rate_limit_delay c <= clock w' - clock w).
Proof.
  split.
  - destruct (rate_limit_step c w) as (w1 & Hrun & Hgap & Hmono & _).
    exists w1. repeat split; assumption.
  - destruct n as [|n].
    + exists c, w. split; [reflexivity | simpl; lia].
    + destruct (acquire_times_spacing n c w)
        as (c' & w' & Hrun & _ & _ & Hclock & _).
      exists c', w'. split; [exact Hrun | simpl Nat.pred; lia].
Qed.

(* ===================================================================== *)
(** ** The cache                                                          *)
(* ===================================================================== *)

(** C4. With a cache directory, [_get_cached] returns records exactly when
    the file holds a well-formed entry whose age at the time of the reading
    is below the TTL; a missing file gives [None]; after [_set_cached], a
    reading at an age below the TTL returns exactly the records stored, and
    one at an age of the TTL or more gives [None] like a missing file.
    Without a cache directory, reading gives [None] and storing changes
    nothing. *)
Theorem cache_get_put (c : ArxivClient) (w : World) (key : string)
    (rs : list Paper) :
  match cache_dir c with
  | Some dir =>
      (forall found,
          fst (_get_cached key (c, w)) = OK (Some found) <->
          exists t,
            files w !! cache_file dir key
              = Some (JsonObject (Some (IsoTime t)) (Some found))
            /\ fst (datetime_now w) - t < cache_ttl c)
      /\ (files w !! cache_file dir key = None ->
          _get_cached key (c, w) = (OK None, (c, w)))
      /\ (exists w1,
            _set_cached key rs (c, w) = (OK tt, (c, w1))
            /\ forall w2, files w2 = files w1 ->
               let age := fst (datetime_now w2) - fst (datetime_now w) in
               (age < cache_ttl c ->
                fst (_get_cached key (c, w2)) = OK (Some rs))
               /\ (cache_ttl c <= age ->
                   fst (_get_cached key (c, w2)) = OK None))
  | None =>
      _get_cached key (c, w) = (OK None, (c, w))
      /\ _set_cached key rs (c, w) = (OK tt, (c, w))
  end.
Proof.
  destruct (cache_dir c) as [dir|] eqn:Hdir.
  - split; [|split].
    + intros found. unfold _get_cached. rewrite Hdir.
      destruct (files w !! cache_file dir key) as [[| |[[|t]|] results]|] eqn:Hf;
        simpl; try (split; [discriminate | intros (t' & [=] & _)]).
      * destruct (clock w + Z.of_N (latency w (ticks w)) + 0 - t <? cache_ttl c)
          eqn:E; simpl.
        -- apply Z.ltb_lt in E. split.
           ++ intros [= ->]. exists t. split; [reflexivity | exact E].
           ++ intros (t' & [= -> ->] & _). reflexivity.
        -- apply Z.ltb_ge in E. split; [discriminate|].
           intros (t' & [= -> ->] & Hlt). lia.
    + intros Hnone. unfold _get_cached. now rewrite Hdir, Hnone.
    + unfold _set_cached. rewrite Hdir.
      eexists. split; [reflexivity|].
      intros w2 Hfiles. cbv zeta. unfold _get_cached. rewrite Hdir, Hfiles.
      cbn [files write_file]. rewrite lookup_insert_eq. simpl.
      split; intros Hage.
      * apply Z.ltb_lt in Hage. now rewrite Hage.
      * apply Z.ltb_ge in Hage. now rewrite Hage.
  - unfold _get_cached, _set_cached. rewrite Hdir. split; reflexivity.
Qed.

(** C4 in a world where nothing takes time: what was just stored is read
    back under the default TTL of 24 hours. *)
Lemma cache_get_put_witness :
  let st := (Samples.caching_client,
             Samples.still_world (Samples.always NetTimeout) Samples.epoch_2026) in
  exists w1, _set_cached "k" [] st = (OK tt, (Samples.caching_client, w1))
    /\ fst (datetime_now w1) - fst (datetime_now (snd st))
       < cache_ttl Samples.caching_client
    /\ fst (_get_cached "k" (Samples.caching_client, w1)) = OK (Some []).
Proof.
  intros st.
  pose proof (cache_get_put Samples.caching_client (snd st) "k" []) as Hc.
  simpl cache_dir in Hc. destruct Hc as (_ & _ & w1 & Hput & Hget).
  exists w1. split; [exact Hput|].
  injection Hput as <-.
  assert (Hage : fst (datetime_now
                        (write_file (cache_file ".cache" "k")
                           (JsonObject (Some (IsoTime (fst (datetime_now (snd st)))))
                              (Some [])) (snd (datetime_now (snd st)))))
                 - fst (datetime_now (snd st))
                 < cache_ttl Samples.caching_client) by (vm_compute; reflexivity).
  split; [exact Hage|].
  exact (proj1 (Hget _ eq_refl) Hage).
Defined.

(* ===================================================================== *)
(** ** The retry loop                                                     *)
(* ===================================================================== *)

Section Retry.
Context `{Datetime}.
Import Xml.

Lemma extends_refl (st : State) : extends st st [] [].
Proof.
  destruct st as [c w]. unfold extends.
  rewrite !app_nil_r, Nat.add_0_r. repeat split; reflexivity.
Qed.

Lemma extends_trans (st1 st2 st3 : State) (r1 r2 : list Json.dict)
    (n1 n2 : list Z) :
  extends st1 st2 r1 n1 -> extends st2 st3 r2 n2 ->
  extends st1 st3 (r1 ++ r2) (n1 ++ n2).
Proof.
  destruct st1 as [c1 w1], st2 as [c2 w2], st3 as [c3 w3]. unfold extends.
  intros (A1 & A2 & A3 & A4 & A5 & A6 & A7 & A8 & A9)
         (B1 & B2 & B3 & B4 & B5 & B6 & B7 & B8 & B9).
  rewrite length_app, !app_assoc.
  repeat split; try congruence; try lia.
Qed.

(** Rate limiting and sending: one more request in the trace. *)
Lemma send_step (params : Json.dict) (c : ArxivClient) (w : World) :
  exists c1 w1,
    _rate_limit (c, w) = (OK tt, (c1, w1))
    /\ extends (c, w) (c1, snd (requests_get params w1)) [params] []
    /\ fst (requests_get params w1) = network w (sent w) params
    /\ files (snd (requests_get params w1)) = files w.
Proof.
  destruct (rate_limit_step c w)
    as (w1 & Hrun & _ & _ & Hnet & Hlat & Hsent & Hfiles & Hnaps & Hreqs).
  exists (set_last_request_time (clock w1) c), w1.
  split; [exact Hrun|]. split; [|split].
  - unfold extends. simpl.
    unfold requests_of, sleeps_of in *. rewrite !omap_app. simpl.
    rewrite !app_nil_r, Hreqs, Hnaps, Hsent.
    repeat split; try assumption; lia.
  - simpl. now rewrite Hnet, Hsent.
  - simpl. exact Hfiles.
Qed.

(** Sleeping for the backoff: one more sleep in the trace. *)
Lemma backoff_step (attempt : Z) (c : ArxivClient) (w : World) :
  exists w', backoff attempt (c, w) = (OK tt, (c, w'))
    /\ extends (c, w) (c, w') [] [2 ^ attempt * second]
    /\ files w' = files w.
Proof.
  eexists. split; [reflexivity|]. split; [|reflexivity].
  unfold extends. simpl.
  unfold requests_of, sleeps_of. rewrite !omap_app. simpl.
  rewrite !app_nil_r, Nat.add_0_r. repeat split; reflexivity.
Qed.

(** Reading the cache leaves the trace and the network alone. *)
Lemma get_cached_frame (key : string) (c : ArxivClient) (w : World) :
  exists w', snd (_get_cached key (c, w)) = (c, w')
    /\ extends (c, w) (c, w') [] [] /\ files w' = files w.
Proof.
  unfold _get_cached.
  destruct (cache_dir c) as [dir|];
    [destruct (files w !! cache_file dir key) as [[| |[[|t]|] results]|]|];
    try (exists w; split; [reflexivity|];
         split; [apply extends_refl | reflexivity]).
  simpl.
  destruct (clock w + Z.of_N (latency w (ticks w)) + 0 - t <? cache_ttl c);
    (eexists; split; [reflexivity|]; split; [|reflexivity];
     unfold extends; simpl; rewrite !app_nil_r, Nat.add_0_r;
     repeat split; reflexivity).
Qed.

(** Storing in the cache leaves the trace and the network alone. *)
Lemma set_cached_frame (key : string) (rs : list Paper) (c : ArxivClient)
    (w : World) :
  exists w', _set_cached key rs (c, w) = (OK tt, (c, w'))
    /\ extends (c, w) (c, w') [] [].
Proof.
  unfold _set_cached.
  destruct (cache_dir c) as [dir|].
  - eexists; split; [reflexivity|].
    unfold extends; simpl; rewrite !app_nil_r, Nat.add_0_r;
      repeat split; reflexivity.
  - exists w. split; [reflexivity | apply extends_refl].
Qed.

Lemma backoffs_S (first : Z) (n : nat) :
  backoffs first (Datatypes.S n)
  = (2 ^ first * second) :: backoffs (first + 1) n.
Proof.
  unfold backoffs. cbn [seq List.map]. rewrite Z.add_0_r. f_equal.
  rewrite <- seq_shift, List.map_map. apply List.map_ext.
  intros i. do 2 f_equal. lia.
Qed.

(** One iteration, up to the outcome of the request. *)
Lemma attempts_S (params : Json.dict) (key : string) (todo : nat)
    (attempt : Z) (c : ArxivClient) (w : World) :
  exists st1,
    attempts params key (Datatypes.S todo) attempt (c, w)
    = on_response (attempts params key todo (attempt + 1)) key attempt c
        (network w (sent w) params) st1
    /\ extends (c, w) st1 [params] []
    /\ files (snd st1) = files w.
Proof.
  destruct (send_step params c w) as (c1 & w1 & Hrun & Hext & Hout & Hfiles).
  exists (c1, snd (requests_get params w1)).
  split; [|split; assumption].
  cbn [attempts]. unfold bind at 1, self. unfold bind at 1. rewrite Hrun.
  unfold bind at 1, from_world.
  destruct (requests_get params w1) as [o w2] eqn:Hget.
  simpl in Hout. now rewrite Hout.
Qed.

(** A transient failure that is not the last attempt's timeout or
    connection error: sleep, then go on. *)
Lemma on_response_backoff (retry : M (list Paper)) (key : string)
    (attempt : Z) (c : ArxivClient) (o : NetOutcome) (st : State) :
  transient o = true ->
  (final_cause o = None) \/ (attempt < max_retries c - 1) ->
  exists st', on_response retry key attempt c o st = retry st'
    /\ extends st st' [] [2 ^ attempt * second]
    /\ files (snd st') = files (snd st).
Proof.
  intros Htr Hmore. destruct st as [c1 w1].
  destruct (backoff_step attempt c1 w1) as (w' & Hrun & Hext & Hfiles).
  exists (c1, w'). split; [|split; assumption].
  assert (Hgo : bind (backoff attempt) (fun _ => retry) (c1, w') = retry (c1, w')
                -> True) by trivial.
  destruct o as [| |status content]; cbn [on_response transient final_cause] in *.
  - destruct Hmore as [?|Hlt]; [discriminate|].
    apply Z.ltb_lt in Hlt. rewrite Hlt. unfold bind. now rewrite Hrun.
  - destruct Hmore as [?|Hlt]; [discriminate|].
    apply Z.ltb_lt in Hlt. rewrite Hlt. unfold bind. now rewrite Hrun.
  - rewrite Htr.
    assert (E : (status =? 200) = false) by lia. rewrite E.
    unfold bind. now rewrite Hrun.
Qed.

(** An accepted response: parse, store, return. *)
Lemma on_response_good (retry : M (list Paper)) (key : string)
    (attempt : Z) (c : ArxivClient) (o : NetOutcome) (papers : list Paper)
    (st : State) :
  good_response o papers ->
  exists st', on_response retry key attempt c o st = (OK papers, st')
    /\ extends st st' [] [].
Proof.
  intros (root & -> & Hnoerr & Hparse). destruct st as [c1 w1].
  destruct (set_cached_frame key papers c1 w1) as (w' & Hset & Hext).
  exists (c1, w'). split; [|exact Hext].
  cbn [on_response]. rewrite Z.eqb_refl. unfold handle_ok.
  rewrite Hnoerr, Hparse. unfold bind, lift, ret. now rewrite Hset.
Qed.

(** [k] transient failures, then an accepted response. *)
Lemma attempts_success (params : Json.dict) (key : string)
    (papers : list Paper) (k : nat) :
  forall (todo : nat) (attempt : Z) (c : ArxivClient) (w : World),
    (k < todo)%nat ->
    attempt + Z.of_nat todo = max_retries c ->
    (forall i, (i < k)%nat ->
               transient (network w (sent w + i)%nat params) = true) ->
    good_response (network w (sent w + k)%nat params) papers ->
    exists st', attempts params key todo attempt (c, w) = (OK papers, st')
      /\ extends (c, w) st' (repeat params (Datatypes.S k)) (backoffs attempt k).
Proof.
  induction k as [|k IH]; intros todo attempt c w Hk Hmax Htr Hgood;
    (destruct todo as [|todo]; [lia|]);
    destruct (attempts_S params key todo attempt c w)
      as (st1 & Hrun & Hext1 & _); rewrite Hrun.
  - rewrite Nat.add_0_r in Hgood.
    destruct (on_response_good (attempts params key todo (attempt + 1)) key
                attempt c _ papers st1 Hgood) as (st' & Hok & Hext2).
    exists st'. split; [exact Hok|].
    exact (extends_trans _ _ _ _ _ _ _ Hext1 Hext2).
  - destruct (on_response_backoff (attempts params key todo (attempt + 1)) key
                attempt c (network w (sent w) params) st1) as (st2 & Hgo & Hext2 & _).
    { specialize (Htr 0%nat). rewrite Nat.add_0_r in Htr. apply Htr. lia. }
    { right. lia. }
    rewrite Hgo.
    pose proof (extends_trans _ _ _ _ _ _ _ Hext1 Hext2) as Hext12.
    destruct st2 as [c2 w2].
    pose proof Hext12 as (Emax & _ & _ & _ & Enet & _ & Esent & _).
    cbn [List.length app] in Esent.
    destruct (IH todo (attempt + 1) c2 w2) as (st' & Hok & Hext3).
    + lia.
    + rewrite Emax. lia.
    + intros i Hi. rewrite Enet, Esent.
      replace (sent w + 1 + i)%nat with (sent w + Datatypes.S i)%nat by lia.
      apply Htr. lia.
    + rewrite Enet, Esent.
      replace (sent w + 1 + k)%nat with (sent w + Datatypes.S k)%nat by lia.
      exact Hgood.
    + exists st'. split; [exact Hok|].
      rewrite backoffs_S.
      exact (extends_trans _ _ _ _ _ _ _ Hext12 Hext3).
Qed.

(** Nothing but transient failures until the attempts are used up. *)
Lemma attempts_exhausted (params : Json.dict) (key : string) (n : nat) :
  forall (attempt : Z) (c : ArxivClient) (w : World),
    attempt + Z.of_nat (Datatypes.S n) = max_retries c ->
    (forall i, (i <= n)%nat ->
               transient (network w (sent w + i)%nat params) = true) ->
    let last := network w (sent w + n)%nat params in
    exists e st',
      attempts params key (Datatypes.S n) attempt (c, w) = (Raise e, st')
      /\ retry_count e = Some (max_retries c)
      /\ cause_of e = final_cause last
      /\ extends (c, w) st' (repeat params (Datatypes.S n))
           (backoffs attempt n ++ final_backoff (attempt + Z.of_nat n) last).
Proof.
  induction n as [|n IH]; intros attempt c w Hmax Htr last;
    [destruct (attempts_S params key 0 attempt c w)
       as (st1 & Hrun & Hext1 & _)
    |destruct (attempts_S params key (Datatypes.S n) attempt c w)
       as (st1 & Hrun & Hext1 & _)]; rewrite Hrun.
  - subst last. rewrite Nat.add_0_r, Z.add_0_r.
    specialize (Htr 0%nat). rewrite Nat.add_0_r in Htr.
    specialize (Htr (Nat.le_refl _)).
    destruct (network w (sent w) params) as [| |status content] eqn:Hout;
      cbn [on_response final_cause final_backoff backoffs seq List.map app].
    + assert (E : (attempt <? max_retries c - 1) = false) by lia. rewrite E.
      eexists _, st1. split; [reflexivity|].
      split; [reflexivity|]. split; [reflexivity | exact Hext1].
    + assert (E : (attempt <? max_retries c - 1) = false) by lia. rewrite E.
      eexists _, st1. split; [reflexivity|].
      split; [reflexivity|]. split; [reflexivity | exact Hext1].
    + destruct (on_response_backoff (attempts params key 0 (attempt + 1)) key
                  attempt c (Response status content) st1)
        as (st2 & Hgo & Hext2 & _); [exact Htr | now left |].
      cbn [on_response] in Hgo. rewrite Hgo.
      destruct st2 as [c2 w2]. cbn [attempts]. unfold bind, self, raise.
      pose proof (extends_trans _ _ _ _ _ _ _ Hext1 Hext2) as Hext12.
      pose proof Hext12 as (Emax & _).
      eexists _, (c2, w2). split; [reflexivity|].
      cbn [retry_count cause_of]. rewrite Emax.
      split; [reflexivity|]. split; [reflexivity | exact Hext12].
  - destruct (on_response_backoff
                (attempts params key (Datatypes.S n) (attempt + 1)) key
                attempt c (network w (sent w) params) st1)
      as (st2 & Hgo & Hext2 & _).
    { specialize (Htr 0%nat). rewrite Nat.add_0_r in Htr. apply Htr. lia. }
    { right. lia. }
    rewrite Hgo.
    pose proof (extends_trans _ _ _ _ _ _ _ Hext1 Hext2) as Hext12.
    destruct st2 as [c2 w2].
    pose proof Hext12 as (Emax & _ & _ & _ & Enet & _ & Esent & _).
    cbn [List.length app] in Esent.
    destruct (IH (attempt + 1) c2 w2) as (e & st' & Hfail & Hcount & Hcause & Hext3).
    + rewrite Emax. lia.
    + intros i Hi. rewrite Enet, Esent.
      replace (sent w + 1 + i)%nat with (sent w + Datatypes.S i)%nat by lia.
      apply Htr. lia.
    + rewrite Enet, Esent in Hcause, Hext3.
      replace (sent w + 1 + n)%nat with (sent w + Datatypes.S n)%nat
        in Hcause, Hext3 by lia.
      replace (attempt + 1 + Z.of_nat n) with (attempt + Z.of_nat (Datatypes.S n))
        in Hext3 by lia.
      exists e, st'. split; [exact Hfail|].
      split; [now rewrite <- Emax|]. split; [exact Hcause|].
      rewrite backoffs_S.
      exact (extends_trans _ _ _ _ _ _ _ Hext12 Hext3).
Qed.

End Retry.

Section RetryClaims.
Context `{Datetime}.

Lemma make_request_miss (params : Json.dict) (c : ArxivClient) (w : World) :
  fst (_get_cached (_get_cache_key params) (c, w)) = OK None ->
  exists w0,
    _make_request params (c, w)
    = attempts params (_get_cache_key params) (Z.to_nat (max_retries c)) 0 (c, w0)
    /\ extends (c, w) (c, w0) [] [].
Proof.
  intros Hmiss.
  destruct (get_cached_frame (_get_cache_key params) c w) as (w0 & Hst & Hext & _).
  exists w0. split; [|exact Hext].
  unfold _make_request. unfold bind at 1.
  destruct (_get_cached (_get_cache_key params) (c, w)) as [r st] eqn:Hget.
  simpl in Hmiss, Hst. subst r st. reflexivity.
Qed.

(** The retry schedule. After a cache miss: [k] transient failures
    (timeout, connection error, status of 500 or more) followed by an
    accepted response, with [k] below [max_retries], make [_make_request]
    return the records of that response after [k + 1] requests and
    exactly the backoff sleeps of 1, 2, ..., 2^(k-1) seconds; and when all
    [max_retries] attempts fail transiently it raises an error that
    carries the retry count, with the cause that [final_cause] gives for
    the last attempt, after sleeping 1, 2, ..., 2^(max_retries-2) seconds
    between the attempts and for [tail] after the last one. *)
Theorem make_request_retries (c : ArxivClient) (w : World)
    (params : Json.dict) :
  fst (_get_cached (_get_cache_key params) (c, w)) = OK None ->
  (forall (k : nat) (papers : list Paper),
      Z.of_nat k < max_retries c ->
      (forall i, (i < k)%nat ->
                 transient (network w (sent w + i)%nat params) = true) ->
      good_response (network w (sent w + k)%nat params) papers ->
      exists c' w',
        _make_request params (c, w) = (OK papers, (c', w'))
        /\ requests_of (trace w')
           = (requests_of (trace w) ++ repeat params (Datatypes.S k))%list
        /\ sleeps_of Backoff (trace w')
           = (sleeps_of Backoff (trace w) ++ backoffs 0 k)%list)
  /\ (forall n : nat,
      Z.of_nat (Datatypes.S n) = max_retries c ->
      (forall i, (i <= n)%nat ->
                 transient (network w (sent w + i)%nat params) = true) ->
      exists e c' w' tail,
        _make_request params (c, w) = (Raise e, (c', w'))
        /\ retry_count e = Some (max_retries c)
        /\ cause_of e = final_cause (network w (sent w + n)%nat params)
        /\ requests_of (trace w')
           = (requests_of (trace w) ++ repeat params (Datatypes.S n))%list
        /\ sleeps_of Backoff (trace w')
           = (sleeps_of Backoff (trace w) ++ backoffs 0 n ++ tail)%list).
Proof.
  intros Hmiss.
  destruct (make_request_miss params c w Hmiss) as (w0 & Hrun & Hext0).
  pose proof Hext0 as (_ & _ & _ & _ & Enet & _ & Esent & _).
  cbn [List.length] in Esent. rewrite Nat.add_0_r in Esent.
  split.
  - intros k papers Hk Htr Hgood.
    destruct (attempts_success params (_get_cache_key params) papers k
                (Z.to_nat (max_retries c)) 0 c w0) as ([c' w'] & Hok & Hext).
    + lia.
    + lia.
    + intros i Hi. rewrite Enet, Esent. now apply Htr.
    + now rewrite Enet, Esent.
    + exists c', w'. rewrite Hrun. split; [exact Hok|].
      pose proof (extends_trans _ _ _ _ _ _ _ Hext0 Hext)
        as (_ & _ & _ & _ & _ & _ & _ & Hreqs & Hnaps).
      split; assumption.
  - intros n Hn Htr.
    destruct (attempts_exhausted params (_get_cache_key params) n 0 c w0)
      as (e & [c' w'] & Hfail & Hcount & Hcause & Hext).
    + lia.
    + intros i Hi. rewrite Enet, Esent. now apply Htr.
    + exists e, c', w', (final_backoff (0 + Z.of_nat n)
                           (network w0 (sent w0 + n)%nat params)).
      rewrite Hrun. replace (Z.to_nat (max_retries c)) with (Datatypes.S n) by lia.
      split; [exact Hfail|]. split; [exact Hcount|].
      split; [now rewrite Hcause, Enet, Esent|].
      pose proof (extends_trans _ _ _ _ _ _ _ Hext0 Hext)
        as (_ & _ & _ & _ & _ & _ & _ & Hreqs & Hnaps).
      split; assumption.
Qed.

(** Failures that are not retried: a status from 400 to 499, a body that
    is not XML, a single entry whose title contains "Error". The first
    attempt raises after one request and without a backoff sleep. *)
Lemma make_request_fatal (c : ArxivClient) (w : World) (params : Json.dict)
    (e : PyExc) :
  fst (_get_cached (_get_cache_key params) (c, w)) = OK None ->
  0 < max_retries c ->
  match network w (sent w) params with
  | Response status content =>
      if status =? 200 then
        match content with
        | None => e = Exception ParseFailedMsg (Some ParseError)
        | Some root =>
            exists t, error_title (Xml.findall "atom:entry" root) = Some t
                      /\ e = Exception (ApiErrorMsg t) None
        end
      else 400 <= status < 500 /\ e = HTTPError status
  | _ => False
  end ->
  exists c' w',
    _make_request params (c, w) = (Raise e, (c', w'))
    /\ requests_of (trace w') = (requests_of (trace w) ++ [params])%list
    /\ sleeps_of Backoff (trace w') = sleeps_of Backoff (trace w).
Proof.
  intros Hmiss Hmax Hout.
  destruct (make_request_miss params c w Hmiss) as (w0 & Hrun & Hext0).
  pose proof Hext0 as (_ & _ & _ & _ & Enet & _ & Esent & _).
  cbn [List.length] in Esent. rewrite Nat.add_0_r in Esent.
  rewrite Hrun.
  destruct (Z.to_nat (max_retries c)) as [|todo] eqn:Htodo; [lia|].
  destruct (attempts_S params (_get_cache_key params) todo 0 c w0)
    as ([c1 w1] & Hstep & Hext1 & _).
  rewrite Hstep, Enet, Esent.
  pose proof (extends_trans _ _ _ _ _ _ _ Hext0 Hext1)
    as (_ & _ & _ & _ & _ & _ & _ & Hreqs & Hnaps).
  rewrite app_nil_r in Hnaps. cbn [app] in Hreqs.
  exists c1, w1. split; [|split; assumption].
  destruct (network w (sent w) params) as [| |status content];
    [contradiction | contradiction |].
  cbn [on_response].
  destruct (status =? 200) eqn:E200.
  - destruct content as [root|].
    + destruct Hout as (t & Herr & ->). unfold handle_ok. now rewrite Herr.
    + subst e. reflexivity.
  - destruct Hout as (Hrange & ->).
    assert (E500 : (status >=? 500) = false) by lia. rewrite E500.
    unfold bind, raise_for_status.
    assert (E4 : (400 <=? status) && (status <? 600) = true) by lia.
    now rewrite E4.
Qed.

End RetryClaims.

(** The schedule on a network that times out, answers 503, then answers
    with a page of two records: the records come back after sleeps of one
    and two seconds. *)
Lemma make_request_retries_witness :
  let c := Samples.default_client in
  let w := Samples.still_world (Samples.scripted Samples.flaky_script)
             Samples.epoch_2026 in
  let params := Samples.demo_params 10 in
  fst (_get_cached (_get_cache_key params) (c, w)) = OK None /\
  exists papers c' w',
    @_make_request utc_seconds params (c, w) = (OK papers, (c', w'))
    /\ List.length papers = 2%nat
    /\ sleeps_of Backoff (trace w') = [1 * second; 2 * second].
Proof.
  intros c w params. split; [reflexivity|].
  destruct (@make_request_retries utc_seconds c w params eq_refl) as (Hok & _).
  destruct (Hok 2%nat
              (match @parse_entries utc_seconds
                       (Xml.findall "atom:entry" (Samples.page 2 0 2)) with
               | OK ps => ps
               | Raise _ => []
               end))
    as (c' & w' & Hrun & _ & Hnaps).
  - reflexivity.
  - intros [|[|i]] Hi; [reflexivity | reflexivity | lia].
  - exists (Samples.page 2 0 2). repeat split; reflexivity.
  - eexists _, c', w'. split; [exact Hrun|]. split; [reflexivity | exact Hnaps].
Defined.

(** C1 at three answers with status 503, [max_retries] being 3: the
    branch for a status of 500 or more sleeps after every attempt, the
    last one included, so the call sleeps for four seconds after its last
    request, for a retry that never comes, and then raises the error that
    follows the loop, which names the retry count and no cause. The
    handlers of a timeout and of a connection error test for the last
    attempt: three of those raise at once after the third request, with
    backoff sleeps of one and two seconds only, and the error raised is
    chained to the failure caught. *)
Theorem make_request_server_errors_exhausted :
  let run o := @_make_request utc_seconds (Samples.demo_params 10)
                 (Samples.default_client,
                  Samples.still_world (Samples.always o) Samples.epoch_2026) in
  let naps o := sleeps_of Backoff (trace (snd (snd (run o)))) in
  let sent_by o := requests_of (trace (snd (snd (run o)))) in
  max_retries Samples.default_client = 3
  /\ transient (Response 503 None) = true
  /\ fst (run (Response 503 None)) = Raise (Exception (FailedMsg 3) None)
  /\ (forall e, fst (run (Response 503 None)) = Raise e -> cause_of e = None)
  /\ sent_by (Response 503 None) = repeat (Samples.demo_params 10) 3
  /\ naps (Response 503 None) = [1 * second; 2 * second; 4 * second]
  /\ trace (snd (snd (run (Response 503 None))))
     = [EvGet (Samples.demo_params 10);
        EvSleep Backoff (1 * second); EvSleep RateLimitWait (2 * second);
        EvGet (Samples.demo_params 10);
        EvSleep Backoff (2 * second); EvSleep RateLimitWait (1 * second);
        EvGet (Samples.demo_params 10);
        EvSleep Backoff (4 * second)]
  /\ fst (run NetTimeout) = Raise (Exception (TimedOutMsg 3) (Some Timeout))
  /\ sent_by NetTimeout = repeat (Samples.demo_params 10) 3
  /\ naps NetTimeout = [1 * second; 2 * second]
  /\ fst (run NetConnectionError)
     = Raise (Exception (ConnFailedMsg 3) (Some ConnectionError))
  /\ sent_by NetConnectionError = repeat (Samples.demo_params 10) 3
  /\ naps NetConnectionError = [1 * second; 2 * second].
Proof.
  vm_compute. repeat split; try reflexivity.
  intros e [= <-]. reflexivity.
Qed.

(** The failures that are fatal at once, each on a network that always
    answers the same way: a status of 404, a body that is not XML, and the
    API's error entry. One request is sent and nothing is slept. *)
Lemma make_request_fatal_examples :
  let run o := @_make_request utc_seconds (Samples.demo_params 10)
                 (Samples.default_client,
                  Samples.still_world (Samples.always o) Samples.epoch_2026) in
  let quiet o := (List.length (requests_of (trace (snd (snd (run o))))),
                  sleeps_of Backoff (trace (snd (snd (run o))))) in
  fst (run (Response 404 None)) = Raise (HTTPError 404)
  /\ quiet (Response 404 None) = (1%nat, [])
  /\ fst (run (Response 200 None))
     = Raise (Exception ParseFailedMsg (Some ParseError))
  /\ quiet (Response 200 None) = (1%nat, [])
  /\ fst (run (Response 200 (Some Samples.error_feed)))
     = Raise (Exception (ApiErrorMsg "Error") None)
  /\ quiet (Response 200 (Some Samples.error_feed)) = (1%nat, []).
Proof. vm_compute. repeat split; reflexivity. Qed.

(** C2 at a response with status 204: nothing is raised by
    [raise_for_status], so the loop goes on at once; three requests are
    sent, without any backoff sleep, and the error raised is the one for
    used-up attempts. *)
Theorem make_request_status_204 :
  let run := @_make_request utc_seconds (Samples.demo_params 10)
               (Samples.default_client,
                Samples.still_world (Samples.always (Response 204 None))
                  Samples.epoch_2026) in
  fst run = Raise (Exception (FailedMsg 3) None)
  /\ requests_of (trace (snd (snd run)))
     = repeat (Samples.demo_params 10) 3
  /\ sleeps_of Backoff (trace (snd (snd run))) = [].
Proof. vm_compute. repeat split; reflexivity. Qed.

(* ===================================================================== *)
(** ** Pagination                                                         *)
(* ===================================================================== *)

Section Pagination.
Context `{Datetime}.
Variables (query sort_by sort_order : string) (page_size : Z).

(** One turn of the loop, given what the search returned. *)
Lemma paginate_loop_step (fuel : nat) (max_results : option Z)
    (acc : list Paper) (start : Z) (st st' : State) (results : list Paper) :
  search query page_size sort_by sort_order start st = (OK results, st') ->
  paginate_loop (Datatypes.S fuel) query max_results sort_by sort_order
    page_size acc start st
  = match results with
    | [] => (OK (Some acc), st')
    | _ :: _ =>
        if reached max_results (List.length (acc ++ results)%list)
        then (OK (Some (slice_to (default 0 max_results) (acc ++ results)%list)), st')
        else if Z.of_nat (List.length results) <? page_size
        then (OK (Some (acc ++ results)%list), st')
        else paginate_loop fuel query max_results sort_by sort_order page_size
               (acc ++ results)%list (start + page_size) st'
    end.
Proof.
  intros Hsearch. cbn [paginate_loop]. unfold bind at 1. rewrite Hsearch.
  destruct results as [|r results]; [reflexivity|].
  destruct (reached max_results _); [reflexivity|].
  destruct (_ <? page_size); reflexivity.
Qed.

(** A failing search ends the pagination with its exception. *)
Lemma paginate_loop_raise (fuel : nat) (max_results : option Z)
    (acc : list Paper) (start : Z) (st st' : State) (e : PyExc) :
  search query page_size sort_by sort_order start st = (Raise e, st') ->
  paginate_loop (Datatypes.S fuel) query max_results sort_by sort_order
    page_size acc start st = (Raise e, st').
Proof.
  intros Hsearch. cbn [paginate_loop]. unfold bind at 1. now rewrite Hsearch.
Qed.

Lemma slice_to_length {A} (m : Z) (xs : list A) :
  0 <= m <= Z.of_nat (List.length xs) ->
  Z.of_nat (List.length (slice_to m xs)) = m.
Proof.
  intros Hm. unfold slice_to.
  destruct (Z.leb_spec 0 m) as [_|]; [|lia].
  rewrite length_firstn. lia.
Qed.

(** With a positive limit, what comes back never has more records than the
    limit, and has exactly as many once the count has reached it. *)
Lemma paginate_loop_at_most (m : Z) (fuel : nat) :
  0 < m ->
  forall (acc : list Paper) (start : Z) (st st' : State) (papers : list Paper),
    Z.of_nat (List.length acc) < m ->
    paginate_loop fuel query (Some m) sort_by sort_order page_size acc start st
    = (OK (Some papers), st') ->
    Z.of_nat (List.length papers) <= m.
Proof.
  intros Hm. induction fuel as [|fuel IH]; intros acc start st st' papers Hacc Hrun.
  - discriminate Hrun.
  - destruct (search query page_size sort_by sort_order start st)
      as [[results|e] st1] eqn:Hsearch.
    + rewrite (paginate_loop_step fuel (Some m) acc start st st1 results Hsearch)
        in Hrun.
      destruct results as [|r results]; [injection Hrun as <- _; lia|].
      unfold reached in Hrun.
      destruct (Z.eqb_spec m 0) as [|_]; [lia|]. cbn [negb andb] in Hrun.
      destruct (Z.geb_spec (Z.of_nat (List.length (acc ++ r :: results)%list)) m)
        as [Hge|Hlt].
      * injection Hrun as <- _. cbn [default]. rewrite slice_to_length; lia.
      * destruct (_ <? page_size).
        -- injection Hrun as <- _. lia.
        -- eapply IH; [|exact Hrun]. lia.
    + rewrite (paginate_loop_raise fuel (Some m) acc start st st1 e Hsearch) in Hrun.
      discriminate Hrun.
Qed.

End Pagination.

(** The two scenarios of the specification, against an upstream that holds
    247 records: without a limit the three pages (100, 100, 47) come back
    after requests at offsets 0, 100 and 200; with a limit of 150 exactly
    150 records come back and no third request is made. *)
Lemma paginate_all_scenarios :
  let st := (Samples.default_client,
             Samples.still_world (Samples.upstream 247) Samples.epoch_2026) in
  let all := @paginate_all utc_seconds 10 "cat:cs.LG" None
               "submittedDate" "descending" 100 st in
  let capped := @paginate_all utc_seconds 10 "cat:cs.LG" (Some 150)
                  "submittedDate" "descending" 100 st in
  (exists papers, fst all = OK (Some papers) /\ List.length papers = 247%nat)
  /\ List.map (Samples.int_param "start") (requests_of (trace (snd (snd all))))
     = [0; 100; 200]
  /\ List.map (Samples.int_param "max_results")
       (requests_of (trace (snd (snd all)))) = [100; 100; 100]
  /\ (exists papers, fst capped = OK (Some papers)
                     /\ List.length papers = 150%nat)
  /\ List.map (Samples.int_param "start")
       (requests_of (trace (snd (snd capped)))) = [0; 100].
Proof.
  vm_compute.
  split; [eexists; split; reflexivity|].
  split; [reflexivity|]. split; [reflexivity|].
  split; [eexists; split; reflexivity | reflexivity].
Qed.

(** C8 at [max_results = 0]: the test [if max_results and ...] takes 0 for
    "no limit", so the 247 records of the three pages all come back although
    the limit given is 0. *)
Theorem paginate_all_zero_limit :
  let run := @paginate_all utc_seconds 10 "cat:cs.LG" (Some 0)
               "submittedDate" "descending" 100
               (Samples.default_client,
                Samples.still_world (Samples.upstream 247) Samples.epoch_2026) in
  (exists papers, fst run = OK (Some papers) /\ List.length papers = 247%nat)
  /\ List.map (Samples.int_param "start") (requests_of (trace (snd (snd run))))
     = [0; 100; 200].
Proof.
  vm_compute. split; [eexists; split; reflexivity | reflexivity].
Qed.

(** C10. An entry whose title element, or whose summary element, is
    present but has no text makes [_parse_entry] raise (an
    [AttributeError], from calling [strip] on [None]) instead of returning
    a record; the element read is the first one with that tag. *)
Theorem parse_entry_empty_text `{Datetime} (entry : Xml.Element)
    (e : Xml.Element) :
  Xml.find "atom:title" entry = Some e \/ Xml.find "atom:summary" entry = Some e ->
  Xml.text e = None ->
  _parse_entry entry = Raise AttributeError
  /\ forall p, _parse_entry entry <> OK p.
Proof.
  intros Hfind Hnone.
  assert (Hraise : _parse_entry entry = Raise AttributeError).
  { unfold _parse_entry. destruct Hfind as [Ht|Hs].
    - rewrite Ht, Hnone. reflexivity.
    - rewrite Hs, Hnone.
      destruct (Xml.find "atom:title" entry) as [te|];
        [destruct (Xml.text te)|]; reflexivity. }
  split; [exact Hraise|]. intros p Hp. rewrite Hraise in Hp. discriminate.
Qed.

(** C10 at an entry that holds only an empty title element. *)
Lemma parse_entry_empty_text_witness :
  Xml.find "atom:title" Samples.empty_title_entry
    = Some (Xml.Elem "atom:title" None ∅ [])
  /\ Xml.text (Xml.Elem "atom:title" None ∅ []) = None
  /\ @_parse_entry utc_seconds Samples.empty_title_entry = Raise AttributeError.
Proof.
  split; [reflexivity|]. split; [reflexivity|].
  exact (proj1 (@parse_entry_empty_text utc_seconds Samples.empty_title_entry
                  (Xml.Elem "atom:title" None ∅ []) (or_introl eq_refl) eq_refl)).
Defined.

(* ===================================================================== *)
(** ** Identifier cleaning                                                *)
(* ===================================================================== *)

Module IdFacts.
Import PyStr PyStrFacts.

Lemma lower_not_digit (c : ascii) : islower_or_dash c = true -> isdigit c = false.
Proof.
  unfold islower_or_dash, isdigit. intros Hl.
  destruct (48 <=? code c)%N eqn:E1; [|reflexivity].
  destruct (code c <=? 57)%N eqn:E2; [|reflexivity]. exfalso.
  apply N.leb_le in E1, E2.
  apply orb_true_iff in Hl as [Hl|Hl].
  - apply andb_true_iff in Hl as [Hl _]. apply N.leb_le in Hl. lia.
  - apply N.eqb_eq in Hl. lia.
Qed.

Lemma lower_not_slash (c : ascii) : islower_or_dash c = true -> Ascii.eqb c "/" = false.
Proof.
  intros Hl. destruct (Ascii.eqb_spec c "/") as [->|]; [discriminate | reflexivity].
Qed.

Lemma digit_not_slash (c : ascii) : isdigit c = true -> Ascii.eqb c "/" = false.
Proof.
  intros Hl. destruct (Ascii.eqb_spec c "/") as [->|]; [discriminate | reflexivity].
Qed.

(** A shape made of [d] only is matched by as many digits. *)
Lemma has_shape_digits (shape s : string) :
  all_chars (fun p => Ascii.eqb p "d") shape = true ->
  has_shape shape s = true ->
  all_chars isdigit s = true /\ String.length s = String.length shape.
Proof.
  revert s; induction shape as [|p shape IH]; intros [|c s] Hd Hs;
    simpl in *; try discriminate; [split; reflexivity|].
  apply andb_true_iff in Hd as [Hp Hd]. rewrite Hp in Hs.
  apply andb_true_iff in Hs as [Hc Hs].
  destruct (IH s Hd Hs) as [Hall Hlen]. rewrite Hc, Hall, Hlen. split; reflexivity.
Qed.

Lemma take_digits_S (n : nat) (c : ascii) (s : string) :
  take_digits (Datatypes.S n) (String c s)
  = if isdigit c
    then match take_digits n s with
         | Some (ds, rest) => Some (String c ds, rest)
         | None => None
         end
    else None.
Proof. reflexivity. Qed.

Lemma take_digits_all (n : nat) (s r : string) :
  all_chars isdigit s = true -> String.length s = n ->
  take_digits n (s +:+ r) = Some (s, r).
Proof.
  revert n; induction s as [|c s IH]; intros n Hall Hlen; simpl in *; subst n.
  - reflexivity.
  - apply andb_true_iff in Hall as [Hc Hall]. simpl. rewrite Hc.
    now rewrite (IH _ Hall eq_refl).
Qed.

Lemma take_digits_nondigit (n : nat) (s : string) :
  starts_with_digit s = false -> take_digits (Datatypes.S n) s = None.
Proof. destruct s as [|c s]; simpl; [reflexivity | now intros ->]. Qed.

Lemma take_digits_short (n : nat) (s r : string) :
  all_chars isdigit s = true -> String.length s = n ->
  starts_with_digit r = false ->
  take_digits (Datatypes.S n) (s +:+ r) = None.
Proof.
  revert n; induction s as [|c s IH]; intros n Hall Hlen Hr; simpl in Hlen; subst n.
  - now apply take_digits_nondigit.
  - simpl in Hall. apply andb_true_iff in Hall as [Hc Hall].
    change (String c s +:+ r) with (String c (s +:+ r)).
    rewrite take_digits_S, Hc. now rewrite (IH _ Hall eq_refl Hr).
Qed.

Lemma all_chars_app (p : ascii -> bool) (a b : string) :
  all_chars p (a +:+ b) = all_chars p a && all_chars p b.
Proof.
  induction a as [|c a IH]; simpl; [reflexivity|]. now rewrite IH, andb_assoc.
Qed.

Lemma has_char_app (c : ascii) (a b : string) :
  has_char c (a +:+ b) = has_char c a || has_char c b.
Proof.
  induction a as [|c' a IH]; simpl; [reflexivity|]. now rewrite IH, orb_assoc.
Qed.

Lemma all_chars_no_char (p : ascii -> bool) (c : ascii) (s : string) :
  all_chars p s = true -> p c = false -> has_char c s = false.
Proof.
  intros Hall Hc. induction s as [|c' s IH]; simpl in *; [reflexivity|].
  apply andb_true_iff in Hall as [Hc' Hall]. rewrite (IH Hall), orb_false_r.
  destruct (Ascii.eqb_spec c' c) as [->|]; [congruence | reflexivity].
Qed.

(** A substring brings its characters along. *)
Lemma prefix_has_char (c : ascii) (sub s : string) :
  String.prefix sub s = true -> has_char c sub = true -> has_char c s = true.
Proof.
  revert s; induction sub as [|a sub IH]; intros [|b s] Hp Hc;
    simpl in *; try discriminate.
  destruct (ascii_dec a b) as [->|]; [|discriminate].
  apply orb_true_iff in Hc as [Hc|Hc]; [now rewrite Hc|].
  rewrite (IH s Hp Hc). apply orb_true_r.
Qed.

Lemma contains_has_char (c : ascii) (sub s : string) :
  contains sub s = true -> has_char c sub = true -> has_char c s = true.
Proof.
  intros Hin Hc. induction s as [|b s IH]; cbn [contains] in Hin.
  - rewrite orb_false_r in Hin. exact (prefix_has_char c sub _ Hin Hc).
  - apply orb_true_iff in Hin as [Hp|Hin].
    + exact (prefix_has_char c sub _ Hp Hc).
    + simpl. rewrite (IH Hin). apply orb_true_r.
Qed.

Lemma contains_without_char (c : ascii) (sub s : string) :
  has_char c sub = true -> has_char c s = false -> contains sub s = false.
Proof.
  intros Hc Hs. destruct (contains sub s) eqn:E; [|reflexivity].
  rewrite (contains_has_char c sub s E Hc) in Hs. discriminate.
Qed.

Lemma prefix_app (sub a b : string) :
  String.prefix sub a = true -> String.prefix sub (a +:+ b) = true.
Proof.
  revert a; induction sub as [|x sub IH]; intros [|y a] Hp; simpl in *;
    try discriminate; try reflexivity.
  - destruct b; reflexivity.
  - destruct (ascii_dec x y); [now apply IH | discriminate].
Qed.

Lemma contains_app (sub a b : string) :
  contains sub a = true -> contains sub (a +:+ b) = true.
Proof.
  induction a as [|y a IH]; cbn [contains]; intros Hin.
  - rewrite orb_false_r in Hin. destruct sub; [|discriminate].
    destruct b; reflexivity.
  - apply orb_true_iff in Hin as [Hp|Hin].
    + change (String y a +:+ b) with (String y (a +:+ b)). cbn [contains].
      change (String y (a +:+ b)) with (String y a +:+ b).
      now rewrite (prefix_app _ _ b Hp).
    + change (String y a +:+ b) with (String y (a +:+ b)). cbn [contains].
      rewrite (IH Hin). apply orb_true_r.
Qed.

Lemma search_unfold (match_at : string -> option string) (s : string) :
  search match_at s
  = match match_at s with
    | Some group => Some group
    | None => match s with
              | EmptyString => None
              | String _ s' => search match_at s'
              end
    end.
Proof. destruct s; reflexivity. Qed.

(** No new-style match where the next character is no digit. *)
Lemma new_id_at_miss (c : ascii) (t : string) :
  Ascii.eqb c "/" && starts_with_digit t = false ->
  new_id_at (String c t) = None.
Proof.
  unfold new_id_at. destruct (Ascii.eqb c "/"); [|reflexivity].
  intros Ht. cbn [andb] in Ht. now rewrite (take_digits_nondigit 3 t Ht).
Qed.

Lemma starts_with_digit_app (a b : string) :
  starts_with_digit (a +:+ b)
  = if is_empty a then starts_with_digit b else starts_with_digit a.
Proof. destruct a; reflexivity. Qed.

(** What follows a character of a prefix without slash-digit pairs. *)
Lemma no_slash_digit_next (b : bool) (c : ascii) (pre rest : string) :
  no_slash_digit b (String c pre) = true ->
  starts_with_digit rest = false ->
  Ascii.eqb c "/" && starts_with_digit (pre +:+ rest) = false
  /\ no_slash_digit (Ascii.eqb c "/") pre = true.
Proof.
  cbn [no_slash_digit]. intros Hpre Hrest.
  apply andb_true_iff in Hpre as [_ Hpre]. split; [|exact Hpre].
  destruct (Ascii.eqb c "/"); [|reflexivity]. simpl.
  destruct pre as [|d pre]; [exact Hrest|].
  cbn [no_slash_digit] in Hpre. apply andb_true_iff in Hpre as [Hd _].
  simpl in *. now destruct (isdigit d).
Qed.

Lemma search_new_skip (pre rest : string) (b : bool) :
  no_slash_digit b pre = true -> starts_with_digit rest = false ->
  search new_id_at (pre +:+ rest) = search new_id_at rest.
Proof.
  revert b; induction pre as [|c pre IH]; intros b Hpre Hrest; [reflexivity|].
  destruct (no_slash_digit_next b c pre rest Hpre Hrest) as [Hmiss Hnext].
  change (String c pre +:+ rest) with (String c (pre +:+ rest)).
  rewrite search_unfold, (new_id_at_miss _ _ Hmiss).
  exact (IH _ Hnext Hrest).
Qed.

(** A string without a slash holds no match of either pattern. *)
Lemma search_no_slash (match_at : string -> option string) (s : string) :
  (forall c t, Ascii.eqb c "/" = false -> match_at (String c t) = None) ->
  match_at EmptyString = None ->
  has_char "/" s = false -> search match_at s = None.
Proof.
  intros Hmiss Hnil. induction s as [|c s IH]; intros Hs.
  - simpl. now rewrite Hnil.
  - simpl in Hs. apply orb_false_iff in Hs as [Hc Hs].
    rewrite search_unfold, (Hmiss _ _ Hc). exact (IH Hs).
Qed.

Lemma new_id_at_not_slash (c : ascii) (t : string) :
  Ascii.eqb c "/" = false -> new_id_at (String c t) = None.
Proof. intros Hc. apply new_id_at_miss. now rewrite Hc. Qed.

Lemma old_id_at_not_slash (c : ascii) (t : string) :
  Ascii.eqb c "/" = false -> old_id_at (String c t) = None.
Proof. unfold old_id_at. now intros ->. Qed.

(** The new-style pattern matches a new-style identifier after a slash,
    whatever follows, unless a digit follows a four-digit number. *)
Lemma new_id_at_match (yymm num rest : string) :
  all_chars isdigit yymm = true -> String.length yymm = 4%nat ->
  all_chars isdigit num = true ->
  (String.length num = 5%nat
   \/ (String.length num = 4%nat /\ starts_with_digit rest = false)) ->
  new_id_at (String "/" (yymm +:+ String "." (num +:+ rest)))
  = Some (yymm +:+ String "." num).
Proof.
  intros Hy Hylen Hn Hnlen. unfold new_id_at.
  change (Ascii.eqb "/" "/") with true. cbv iota.
  rewrite (take_digits_all 4 yymm _ Hy Hylen).
  change (Ascii.eqb "." ".") with true. cbv iota.
  destruct Hnlen as [H5|[H4 Hrest]].
  - now rewrite (take_digits_all 5 num rest Hn H5).
  - rewrite (take_digits_short 4 num rest Hn H4 Hrest).
    now rewrite (take_digits_all 4 num rest Hn H4).
Qed.

Lemma span_lower_all (run rest : string) :
  all_chars islower_or_dash run = true ->
  match rest with
  | EmptyString => True
  | String c _ => islower_or_dash c = false
  end ->
  span_lower (run +:+ rest) = (run, rest).
Proof.
  intros Hrun Hrest. induction run as [|c run IH]; simpl in *.
  - destruct rest as [|c rest]; [reflexivity | simpl; now rewrite Hrest].
  - apply andb_true_iff in Hrun as [Hc Hrun]. now rewrite Hc, (IH Hrun).
Qed.

(** The old-style pattern matches an old-style identifier after a slash. *)
Lemma old_id_at_match (cat num rest : string) :
  is_empty cat = false -> all_chars islower_or_dash cat = true ->
  all_chars isdigit num = true -> String.length num = 7%nat ->
  old_id_at (String "/" (cat +:+ String "/" (num +:+ rest)))
  = Some (cat +:+ String "/" num).
Proof.
  intros Hne Hcat Hnum Hlen. unfold old_id_at.
  change (Ascii.eqb "/" "/") with true. cbv iota.
  rewrite (span_lower_all cat (String "/" (num +:+ rest)) Hcat eq_refl).
  destruct cat as [|c cat]; [discriminate|].
  change (Ascii.eqb "/" "/") with true. cbv iota.
  now rewrite (take_digits_all 7 num rest Hnum Hlen).
Qed.

(** After a prefix without slash-digit pairs and a slash that no digit
    follows, what the run of [[a-z-]] stops at is no slash before a digit. *)
Lemma span_lower_stop (pre tail : string) (b : bool) :
  no_slash_digit b pre = true -> starts_with_digit tail = false ->
  match snd (span_lower (pre +:+ String "/" tail)) with
  | EmptyString => True
  | String c s2 => Ascii.eqb c "/" && starts_with_digit s2 = false
  end.
Proof.
  revert b; induction pre as [|c pre IH]; intros b Hpre Htail.
  - simpl. exact Htail.
  - change (String c pre +:+ String "/" tail)
      with (String c (pre +:+ String "/" tail)).
    destruct (no_slash_digit_next b c pre (String "/" tail) Hpre eq_refl)
      as [Hmiss Hnext].
    cbn [span_lower]. destruct (islower_or_dash c).
    + specialize (IH _ Hnext Htail).
      destruct (span_lower (pre +:+ String "/" tail)) as [run stop].
      exact IH.
    + exact Hmiss.
Qed.

Lemma old_id_at_miss (c : ascii) (pre tail : string) :
  no_slash_digit (Ascii.eqb c "/") pre = true ->
  starts_with_digit tail = false ->
  old_id_at (String c (pre +:+ String "/" tail)) = None.
Proof.
  intros Hpre Htail. unfold old_id_at.
  destruct (Ascii.eqb c "/"); [|reflexivity].
  pose proof (span_lower_stop pre tail true Hpre Htail) as Hstop.
  destruct (span_lower (pre +:+ String "/" tail)) as [[|c1 run] [|c2 s2]];
    try reflexivity.
  simpl in Hstop. destruct (Ascii.eqb c2 "/"); [|reflexivity].
  simpl in Hstop. now rewrite (take_digits_nondigit 6 s2 Hstop).
Qed.

Lemma search_old_skip (pre tail : string) (b : bool) :
  no_slash_digit b pre = true -> starts_with_digit tail = false ->
  search old_id_at (pre +:+ String "/" tail)
  = search old_id_at (String "/" tail).
Proof.
  revert b; induction pre as [|c pre IH]; intros b Hpre Htail; [reflexivity|].
  destruct (no_slash_digit_next b c pre (String "/" tail) Hpre eq_refl)
    as [_ Hnext].
  change (String c pre +:+ String "/" tail)
    with (String c (pre +:+ String "/" tail)).
  rewrite search_unfold, (old_id_at_miss c pre tail Hnext Htail).
  exact (IH _ Hnext Htail).
Qed.

Lemma lower_no_slash_digit (b : bool) (cat : string) :
  all_chars islower_or_dash cat = true -> no_slash_digit b cat = true.
Proof.
  revert b; induction cat as [|c cat IH]; intros b Hcat; [reflexivity|].
  simpl in Hcat. apply andb_true_iff in Hcat as [Hc Hcat].
  cbn [no_slash_digit]. rewrite (lower_not_digit c Hc), andb_false_r.
  simpl. now apply IH.
Qed.

(** Version markers: what [re.sub(r'v\d+$', '', ...)] does with them. *)
Lemma digits_to_end_all (ds : string) :
  all_chars isdigit ds = true -> digits_to_end ds = Some EmptyString.
Proof.
  induction ds as [|d ds IH]; simpl; [reflexivity|].
  intros Hall. apply andb_true_iff in Hall as [Hd Hall]. now rewrite Hd, IH.
Qed.

Lemma version_marker_start (v : string) :
  version_marker v = true -> starts_with_digit v = false.
Proof.
  destruct v as [|c ds]; [reflexivity|]. simpl. intros Hv.
  apply andb_true_iff in Hv as [Hv _]. apply andb_true_iff in Hv as [Hc _].
  apply Ascii.eqb_eq in Hc. now subst c.
Qed.

Lemma version_marker_chars (v : string) :
  version_marker v = true ->
  has_char "/" v = false /\ has_char "." v = false /\ has_char "a" v = false.
Proof.
  destruct v as [|c ds]; [repeat split|]. simpl. intros Hv.
  apply andb_true_iff in Hv as [Hv Hds]. apply andb_true_iff in Hv as [Hc _].
  apply Ascii.eqb_eq in Hc. subst c. simpl.
  repeat split; now apply (all_chars_no_char isdigit).
Qed.

Lemma re_sub_version_marker (v : string) :
  version_marker v = true -> re_sub_version v = EmptyString.
Proof.
  destruct v as [|c ds]; [reflexivity|]. simpl version_marker. intros Hv.
  apply andb_true_iff in Hv as [Hv Hds]. apply andb_true_iff in Hv as [Hc Hne].
  destruct ds as [|d ds]; [discriminate|].
  simpl in Hds. apply andb_true_iff in Hds as [Hd Hds].
  cbn [re_sub_version version_at]. rewrite Hc, Hd. cbn [andb].
  now rewrite (digits_to_end_all ds Hds).
Qed.

Lemma re_sub_version_skip (s rest : string) :
  no_version_in s rest = true ->
  re_sub_version (s +:+ rest) = s +:+ re_sub_version rest.
Proof.
  induction s as [|c s IH]; intros Hs; [reflexivity|].
  cbn [no_version_in] in Hs. apply andb_true_iff in Hs as [Hc Hs].
  change (String c s +:+ rest) with (String c (s +:+ rest)).
  assert (Hmiss : version_at (String c (s +:+ rest)) = None).
  { unfold version_at. destruct (s +:+ rest) as [|d t]; [reflexivity|].
    simpl in Hc. destruct (Ascii.eqb c "v" && isdigit d); [discriminate|].
    reflexivity. }
  cbn [re_sub_version]. rewrite Hmiss. simpl. now rewrite (IH Hs).
Qed.

Lemma no_version_in_app (a b rest : string) :
  no_version_in (a +:+ b) rest
  = no_version_in a (b +:+ rest) && no_version_in b rest.
Proof.
  induction a as [|c a IH]; [reflexivity|].
  change (String c a +:+ b) with (String c (a +:+ b)).
  cbn [no_version_in]. now rewrite IH, append_assoc, andb_assoc.
Qed.

Lemma no_version_in_digits (s rest : string) :
  all_chars (fun c => isdigit c || Ascii.eqb c "." || Ascii.eqb c "/") s = true ->
  no_version_in s rest = true.
Proof.
  induction s as [|c s IH]; [reflexivity|]. simpl. intros Hs.
  apply andb_true_iff in Hs as [Hc Hs]. rewrite (IH Hs), andb_true_r.
  destruct (Ascii.eqb_spec c "v") as [->|]; [discriminate | reflexivity].
Qed.

Lemma no_version_in_lower (cat rest : string) :
  all_chars islower_or_dash cat = true -> starts_with_digit rest = false ->
  no_version_in cat rest = true.
Proof.
  intros Hcat Hrest. induction cat as [|c cat IH]; [reflexivity|].
  simpl in Hcat. apply andb_true_iff in Hcat as [Hc Hcat].
  cbn [no_version_in]. rewrite (IH Hcat), andb_true_r.
  destruct cat as [|d cat]; simpl.
  - now rewrite Hrest, andb_false_r.
  - simpl in Hcat. apply andb_true_iff in Hcat as [Hd _].
    now rewrite (lower_not_digit d Hd), andb_false_r.
Qed.

Lemma all_chars_weaken (p q : ascii -> bool) (s : string) :
  (forall c, p c = true -> q c = true) ->
  all_chars p s = true -> all_chars q s = true.
Proof.
  intros Hpq. induction s as [|c s IH]; [reflexivity|]. simpl. intros Hs.
  apply andb_true_iff in Hs as [Hc Hs]. now rewrite (Hpq c Hc), (IH Hs).
Qed.

Ltac split_andb :=
  repeat match goal with
         | H : _ && _ = true |- _ => apply andb_true_iff in H as [? H]
         end.

Lemma has_shape_app (sh1 sh2 s : string) :
  has_shape (sh1 +:+ sh2) s = true ->
  exists s1 s2, s = s1 +:+ s2
    /\ has_shape sh1 s1 = true /\ has_shape sh2 s2 = true.
Proof.
  revert s; induction sh1 as [|p sh1 IH]; intros s Hs.
  - exists EmptyString, s. repeat split. exact Hs.
  - change (String p sh1 +:+ sh2) with (String p (sh1 +:+ sh2)) in Hs.
    destruct s as [|c s]; [discriminate|]. cbn [has_shape] in Hs.
    apply andb_true_iff in Hs as [Hc Hs].
    destruct (IH s Hs) as (s1 & s2 & -> & H1 & H2).
    exists (String c s1), s2. repeat split; [|exact H2].
    cbn [has_shape]. now rewrite Hc, H1.
Qed.

(** A new-style identifier is four digits, a dot, and four or five digits. *)
Lemma new_style_parts (id : string) :
  new_style id = true ->
  exists yymm num,
    id = yymm +:+ String "." num
    /\ all_chars isdigit yymm = true /\ String.length yymm = 4%nat
    /\ all_chars isdigit num = true
    /\ (String.length num = 4%nat \/ String.length num = 5%nat).
Proof.
  unfold new_style. intros Hid.
  assert (Hparts : exists yymm num rest,
             id = yymm +:+ String "." num
             /\ has_shape "dddd" yymm = true
             /\ has_shape rest num = true
             /\ (rest = "dddd" \/ rest = "ddddd")).
  { apply orb_true_iff in Hid as [Hid|Hid].
    - change "dddd.dddd" with ("dddd" +:+ String "." "dddd") in Hid.
      destruct (has_shape_app _ _ _ Hid) as (yymm & [|c num] & -> & Hy & Hn);
        [discriminate|].
      cbn [has_shape] in Hn. apply andb_true_iff in Hn as [Hc Hn].
      apply Ascii.eqb_eq in Hc. subst c.
      exists yymm, num, "dddd". repeat split; try assumption. now left.
    - change "dddd.ddddd" with ("dddd" +:+ String "." "ddddd") in Hid.
      destruct (has_shape_app _ _ _ Hid) as (yymm & [|c num] & -> & Hy & Hn);
        [discriminate|].
      cbn [has_shape] in Hn. apply andb_true_iff in Hn as [Hc Hn].
      apply Ascii.eqb_eq in Hc. subst c.
      exists yymm, num, "ddddd". repeat split; try assumption. now right. }
  destruct Hparts as (yymm & num & rest & -> & Hy & Hn & Hrest).
  exists yymm, num. split; [reflexivity|].
  destruct (has_shape_digits "dddd" yymm eq_refl Hy) as [Hyd Hyl].
  split; [exact Hyd|]. split; [exact Hyl|].
  destruct Hrest as [-> | ->];
    [destruct (has_shape_digits "dddd" num eq_refl Hn) as [Hnd Hnl]
    |destruct (has_shape_digits "ddddd" num eq_refl Hn) as [Hnd Hnl]];
    (split; [exact Hnd|]); [left | right]; exact Hnl.
Qed.

Lemma digit_not_dot (c : ascii) : isdigit c = true -> Ascii.eqb c "." = false.
Proof.
  intros Hl. destruct (Ascii.eqb_spec c ".") as [->|]; [discriminate | reflexivity].
Qed.

(** The new-style pattern does not match at a slash before seven digits. *)
Lemma new_id_at_seven (num rest : string) :
  all_chars isdigit num = true -> String.length num = 7%nat ->
  new_id_at (String "/" (num +:+ rest)) = None.
Proof.
  intros Hnum Hlen.
  destruct num as [|d1 [|d2 [|d3 [|d4 [|d5 num]]]]]; try discriminate Hlen.
  simpl in Hnum. split_andb.
  unfold new_id_at. change (Ascii.eqb "/" "/") with true. cbv iota.
  change (take_digits 4
            (String d1 (String d2 (String d3 (String d4 (String d5 num))))
             +:+ rest))
    with (take_digits 4
            (String d1 (String d2 (String d3 (String d4 EmptyString)))
             +:+ String d5 (num +:+ rest))).
  rewrite (take_digits_all 4); [|simpl; now rewrite H, H0, H1, H2 | reflexivity].
  now rewrite (digit_not_dot d5 H3).
Qed.

Section Cleaning.
Variables (ver pre : string).
Hypothesis Hver : version_marker ver = true.

Lemma clean_new_bare (id : string) :
  new_style id = true -> _clean_arxiv_id (id +:+ ver) = id.
Proof.
  intros Hid.
  destruct (new_style_parts id Hid) as (yymm & num & -> & Hy & _ & Hn & _).
  destruct (version_marker_chars ver Hver) as (_ & _ & Ha).
  unfold _clean_arxiv_id.
  rewrite (contains_without_char "a" "arxiv.org"); [|reflexivity|].
  - rewrite re_sub_version_skip, (re_sub_version_marker ver Hver).
    + apply append_nil_r.
    + apply no_version_in_digits. rewrite all_chars_app. cbn [all_chars].
      assert (Hweak : forall c, isdigit c = true ->
                isdigit c || Ascii.eqb c "." || Ascii.eqb c "/" = true)
        by (intros c ->; reflexivity).
      rewrite (all_chars_weaken isdigit _ yymm Hweak Hy).
      rewrite (all_chars_weaken isdigit _ num Hweak Hn). reflexivity.
  - rewrite !has_char_app. simpl. rewrite Ha.
    now rewrite (all_chars_no_char isdigit "a" yymm Hy),
                (all_chars_no_char isdigit "a" num Hn).
Qed.

Lemma clean_old_bare (cat num : string) :
  old_style cat num = true ->
  _clean_arxiv_id ((cat +:+ String "/" num) +:+ ver) = cat +:+ String "/" num.
Proof.
  unfold old_style. intros Hid. split_andb. rename H0 into Hne, H into Hcat.
  destruct (has_shape_digits "ddddddd" num eq_refl Hid) as [Hnum _].
  destruct (version_marker_chars ver Hver) as (_ & Hdot & _).
  unfold _clean_arxiv_id.
  rewrite (contains_without_char "." "arxiv.org"); [|reflexivity|].
  - rewrite re_sub_version_skip, (re_sub_version_marker ver Hver).
    + apply append_nil_r.
    + rewrite no_version_in_app.
      rewrite (no_version_in_lower cat (String "/" num +:+ ver) Hcat eq_refl).
      apply no_version_in_digits. simpl.
      apply (all_chars_weaken isdigit); [intros c ->; reflexivity | exact Hnum].
  - rewrite !has_char_app. simpl. rewrite Hdot.
    now rewrite (all_chars_no_char islower_or_dash "." cat Hcat),
                (all_chars_no_char isdigit "." num Hnum).
Qed.

Hypothesis Hpre : url_prefix pre = true.

Lemma clean_new_url (id : string) :
  new_style id = true ->
  _clean_arxiv_id (pre +:+ String "/" (id +:+ ver)) = id.
Proof.
  intros Hid.
  destruct (new_style_parts id Hid) as (yymm & num & -> & Hy & Hylen & Hn & Hnlen).
  unfold url_prefix in Hpre. apply andb_true_iff in Hpre as [Hhost Hslash].
  unfold _clean_arxiv_id. rewrite (contains_app _ _ _ Hhost).
  rewrite (search_new_skip pre (String "/" _) false Hslash eq_refl).
  rewrite search_unfold, append_assoc.
  change (String "." num +:+ ver) with (String "." (num +:+ ver)).
  rewrite new_id_at_match; try assumption; [reflexivity|].
  destruct Hnlen as [H4|H5]; [right | now left].
  split; [exact H4 | exact (version_marker_start ver Hver)].
Qed.

Lemma clean_old_url (cat num : string) :
  old_style cat num = true ->
  _clean_arxiv_id (pre +:+ String "/" ((cat +:+ String "/" num) +:+ ver))
  = cat +:+ String "/" num.
Proof.
  unfold old_style. intros Hid. split_andb. rename H0 into Hne, H into Hcat.
  apply negb_true_iff in Hne.
  destruct (has_shape_digits "ddddddd" num eq_refl Hid) as [Hnum Hlen].
  destruct (version_marker_chars ver Hver) as (Hvslash & _ & _).
  unfold url_prefix in Hpre. apply andb_true_iff in Hpre as [Hhost Hslash].
  assert (Hstart : starts_with_digit (cat +:+ String "/" (num +:+ ver)) = false).
  { destruct cat as [|c cat]; [discriminate|]. simpl in *.
    apply andb_true_iff in Hcat as [Hc _]. now apply lower_not_digit. }
  unfold _clean_arxiv_id. rewrite (contains_app _ _ _ Hhost).
  rewrite append_assoc.
  change (String "/" num +:+ ver) with (String "/" (num +:+ ver)).
  (* no new-style match anywhere *)
  rewrite (search_new_skip pre (String "/" _) false Hslash eq_refl).
  change (String "/" (cat +:+ String "/" (num +:+ ver)))
    with (String "/" cat +:+ String "/" (num +:+ ver)) at 1.
  rewrite (search_new_skip (String "/" cat) _ false);
    [|cbn [no_slash_digit]; now rewrite (lower_no_slash_digit _ cat Hcat)
     |reflexivity].
  rewrite search_unfold, (new_id_at_seven num ver Hnum Hlen).
  rewrite (search_no_slash new_id_at);
    [|exact new_id_at_not_slash | reflexivity
     |rewrite has_char_app, Hvslash;
      now rewrite (all_chars_no_char isdigit "/" num Hnum)].
  (* the old-style match *)
  rewrite (search_old_skip pre _ false Hslash Hstart).
  rewrite search_unfold.
  now rewrite (old_id_at_match cat num ver Hne Hcat Hnum).
Qed.

End Cleaning.

End IdFacts.

(** The documented forms. [_clean_arxiv_id] returns the bare identifier,
    without version, for a new-style ([4digits.4-5digits]) or old-style
    identifier (a category of lower-case letters and hyphens, a slash and
    seven digits) followed by an optional version marker, whether it comes
    bare or at the end of a URL of the host; [get_paper] and [get_papers]
    clean their arguments before they build the request, so they behave as
    on the bare identifiers. The two examples of the specification are
    instances. *)
Theorem clean_arxiv_id_bare `{Datetime} (id ver pre : string) :
  version_marker ver = true ->
  (new_style id = true
   \/ exists cat num, id = cat +:+ String "/" num /\ old_style cat num = true) ->
  _clean_arxiv_id (id +:+ ver) = id
  /\ (url_prefix pre = true ->
      _clean_arxiv_id (pre +:+ String "/" (id +:+ ver)) = id
      /\ get_paper (pre +:+ String "/" (id +:+ ver)) = get_paper id
      /\ get_papers [pre +:+ String "/" (id +:+ ver); id +:+ ver]
         = get_papers [id; id])
  /\ get_paper (id +:+ ver) = get_paper id
  /\ (forall x,
        get_paper x
        = bind (_make_request [("id_list", Json.Str (_clean_arxiv_id x));
                               ("max_results", Json.Int 1)])
            (fun results => ret (List.head results)))
  /\ (forall xs,
        get_papers xs
        = _make_request
            [("id_list", Json.Str (PyStr.join "," (List.map _clean_arxiv_id xs)));
             ("max_results",
              Json.Int (Z.of_nat (List.length (List.map _clean_arxiv_id xs))))])
  /\ _clean_arxiv_id "https://arxiv.org/abs/2301.12345v2" = "2301.12345"
  /\ _clean_arxiv_id "quant-ph/0201082v1" = "quant-ph/0201082".
Proof.
  intros Hver Hid.
  assert (Hbare : forall v, version_marker v = true ->
                            _clean_arxiv_id (id +:+ v) = id).
  { intros v Hv. destruct Hid as [Hnew | (cat & num & -> & Hold)].
    - now apply IdFacts.clean_new_bare.
    - now apply IdFacts.clean_old_bare. }
  assert (Hself : _clean_arxiv_id id = id).
  { rewrite <- (PyStrFacts.append_nil_r id) at 1. now apply Hbare. }
  assert (Hurl : url_prefix pre = true ->
                 _clean_arxiv_id (pre +:+ String "/" (id +:+ ver)) = id).
  { intros Hpre. destruct Hid as [Hnew | (cat & num & -> & Hold)].
    - now apply IdFacts.clean_new_url.
    - now apply IdFacts.clean_old_url. }
  split; [now apply Hbare|]. split; [|split; [|split; [|split; [|split]]]].
  - intros Hpre. split; [now apply Hurl|]. split.
    + unfold get_paper. now rewrite (Hurl Hpre), Hself.
    + unfold get_papers. cbn [List.map].
      now rewrite (Hurl Hpre), (Hbare ver Hver), Hself.
  - unfold get_paper. now rewrite (Hbare ver Hver), Hself.
  - reflexivity.
  - reflexivity.
  - reflexivity.
  - reflexivity.
Qed.

(** The new-style identifier of the specification's example. *)
Lemma clean_arxiv_id_bare_witness :
  version_marker "v2" = true
  /\ new_style "2301.12345" = true
  /\ url_prefix "https://arxiv.org/abs" = true
  /\ _clean_arxiv_id ("2301.12345" +:+ "v2") = "2301.12345"
  /\ _clean_arxiv_id ("https://arxiv.org/abs" +:+ String "/" ("2301.12345" +:+ "v2"))
     = "2301.12345".
Proof.
  split; [reflexivity|]. split; [reflexivity|]. split; [reflexivity|].
  destruct (@clean_arxiv_id_bare utc_seconds "2301.12345" "v2"
              "https://arxiv.org/abs" eq_refl (or_introl eq_refl))
    as (Hbare & Hurl & _).
  split; [exact Hbare | exact (proj1 (Hurl eq_refl))].
Defined.

(* ===================================================================== *)
(** ** The cache key                                                      *)
(* ===================================================================== *)

Module KeyFacts.
Import Json.

Lemma leb_trans (a b c : string) :
  String.leb a b = true -> String.leb b c = true -> String.leb a c = true.
Proof.
  intros Hab Hbc. apply Is_true_true.
  change (String.le a c). transitivity b; apply Is_true_true; assumption.
Qed.

Lemma leb_flip (a b : string) :
  a <> b -> String.leb a b = negb (String.leb b a).
Proof.
  intros Hne.
  destruct (String.leb a b) eqn:Eab, (String.leb b a) eqn:Eba; try reflexivity.
  - exfalso. apply Hne. now apply String.leb_antisym.
  - destruct (String.leb_total a b); congruence.
Qed.

(** Two insertions with different keys commute. *)
Lemma insert_item_comm (x y : string * value) (l : dict) :
  fst x <> fst y ->
  insert_item x (insert_item y l) = insert_item y (insert_item x l).
Proof.
  intros Hne. induction l as [|z l IH]; simpl.
  - rewrite (leb_flip _ _ Hne).
    destruct (String.leb (fst y) (fst x)); reflexivity.
  - destruct (String.leb (fst y) (fst z)) eqn:Eyz,
             (String.leb (fst x) (fst z)) eqn:Exz; simpl.
    + rewrite (leb_flip _ _ Hne).
      destruct (String.leb (fst y) (fst x)) eqn:Eyx; simpl;
        now rewrite ?Eyz, ?Exz.
    + rewrite Eyz.
      destruct (String.leb (fst x) (fst y)) eqn:Exy.
      * rewrite (leb_trans _ _ _ Exy Eyz) in Exz. discriminate.
      * simpl. now rewrite Exz.
    + rewrite Exz.
      destruct (String.leb (fst y) (fst x)) eqn:Eyx.
      * rewrite (leb_trans _ _ _ Eyx Exz) in Eyz. discriminate.
      * simpl. now rewrite Eyz.
    + now rewrite Exz, Eyz, IH.
Qed.

(** Sorting forgets the insertion order of a dictionary. *)
Lemma sorted_items_perm (d1 d2 : dict) :
  Permutation d1 d2 -> List.NoDup (List.map fst d1) ->
  sorted_items d1 = sorted_items d2.
Proof.
  induction 1 as [|x l l' Hperm IH|x y l|l l' l'' H1 IH1 H2 IH2]; intros Hnd.
  - reflexivity.
  - simpl. rewrite IH; [reflexivity|]. now inversion Hnd.
  - simpl. apply insert_item_comm.
    simpl in Hnd. inversion Hnd as [|? ? Hnotin _]; subst.
    intros E. apply Hnotin. rewrite E. now left.
  - rewrite IH1 by assumption. apply IH2.
    eapply Permutation.Permutation_NoDup; [|exact Hnd].
    now apply Permutation.Permutation_map.
Qed.

(** The digest has 128 bits. *)
Lemma digest_bound (msg : list Z) :
  0 <= MD5.digest msg < 2 ^ 128.
Proof.
  unfold MD5.digest. destruct (MD5.run msg) as [[[a b] c] d]. unfold MD5.w32.
  pose proof (Z.mod_pos_bound a 4294967296 eq_refl).
  pose proof (Z.mod_pos_bound b 4294967296 eq_refl).
  pose proof (Z.mod_pos_bound c 4294967296 eq_refl).
  pose proof (Z.mod_pos_bound d 4294967296 eq_refl).
  change (2 ^ 32) with 4294967296.
  change (2 ^ 64) with 18446744073709551616.
  change (2 ^ 96) with 79228162514264337593543950336.
  change (2 ^ 128) with 340282366920938463463374607431768211456.
  lia.
Qed.

(** No function sends the [n + 1] integers from 0 to [n] to different
    values among the [n] integers below [n]. *)
Lemma pigeonhole (n : Z) :
  0 <= n ->
  forall f : Z -> Z,
    (forall x, 0 <= x <= n -> 0 <= f x < n) ->
    (forall x y, 0 <= x <= n -> 0 <= y <= n -> f x = f y -> x = y) ->
    False.
Proof.
  intros Hn. pattern n. apply natlike_ind; [| |exact Hn]; clear n Hn.
  - intros f Hrange _. specialize (Hrange 0). lia.
  - intros m Hm IH f Hrange Hinj.
    apply (IH (fun x => if f x =? m then f (m + 1) else f x)).
    + intros x Hx. pose proof (Hrange x) as Rx. pose proof (Hrange (m + 1)) as Rm.
      destruct (Z.eqb_spec (f x) m) as [E|E]; [|lia].
      assert (f (m + 1) <> m); [|lia].
      intros E'. assert (m + 1 = x); [|lia]. apply Hinj; lia.
    + intros x y Hx Hy.
      destruct (Z.eqb_spec (f x) m) as [Ex|Ex], (Z.eqb_spec (f y) m) as [Ey|Ey];
        intros E.
      * apply Hinj; lia.
      * assert (m + 1 = y); [apply Hinj; lia | lia].
      * assert (x = m + 1); [apply Hinj; lia | lia].
      * apply Hinj; lia.
Qed.

Lemma leb_refl (k : string) : String.leb k k = true.
Proof. destruct (String.leb_total k k); assumption. Qed.

(** Sorting does not change what a key is bound to. *)
Lemma lookup_insert_item (k : string) (x : string * value) (l : dict) :
  lookup k (insert_item x l) = lookup k (x :: l).
Proof.
  induction l as [|z l IH]; [reflexivity|].
  cbn [insert_item]. destruct (String.leb (fst x) (fst z)) eqn:Exz; [reflexivity|].
  unfold lookup in *. cbn [List.find] in *.
  destruct (String.eqb_spec (fst z) k) as [Ez|Ez].
  - destruct (String.eqb_spec (fst x) k) as [Ex|Ex]; [|reflexivity].
    rewrite Ez, Ex, leb_refl in Exz. discriminate.
  - rewrite IH. reflexivity.
Qed.

Lemma lookup_sorted_items (k : string) (d : dict) :
  lookup k (sorted_items d) = lookup k d.
Proof.
  induction d as [|x d IH]; [reflexivity|].
  cbn [sorted_items]. rewrite lookup_insert_item.
  unfold lookup in *. cbn [List.find].
  destruct (String.eqb (fst x) k); [reflexivity | exact IH].
Qed.

(** The escape of a character can be read back, whatever follows it. *)
Lemma unescape_escape (c : ascii) (r : string) :
  unescape_char (escape_char c +:+ r) = Some (c, r).
Proof. destruct c as [[] [] [] [] [] [] [] []]; reflexivity. Qed.

Lemma escape_inj (s1 s2 r1 r2 : string) :
  escape s1 +:+ String dquote r1 = escape s2 +:+ String dquote r2 ->
  s1 = s2 /\ r1 = r2.
Proof.
  revert s2; induction s1 as [|c1 s1 IH]; intros [|c2 s2] E; cbn [escape] in E.
  - simpl in E. injection E as ->. now split.
  - exfalso. rewrite PyStrFacts.append_assoc in E.
    apply (f_equal unescape_char) in E. rewrite unescape_escape in E.
    discriminate E.
  - exfalso. rewrite PyStrFacts.append_assoc in E.
    apply (f_equal unescape_char) in E. rewrite unescape_escape in E.
    discriminate E.
  - rewrite !PyStrFacts.append_assoc in E.
    apply (f_equal unescape_char) in E. rewrite !unescape_escape in E.
    injection E as -> E. destruct (IH s2 E) as [-> ->]. now split.
Qed.

Lemma encode_str_app (s r : string) :
  encode_str s +:+ r = String dquote (escape s +:+ String dquote r).
Proof.
  unfold encode_str. cbn [String.append]. now rewrite PyStrFacts.append_assoc.
Qed.

Lemma encode_str_inj (s1 s2 r1 r2 : string) :
  encode_str s1 +:+ r1 = encode_str s2 +:+ r2 -> s1 = s2 /\ r1 = r2.
Proof.
  rewrite !encode_str_app. intros [= E]. now apply escape_inj.
Qed.

(** Decimal digits can be told apart from what follows them, when that
    does not start with a digit. *)
Lemma uint_inj (u1 u2 : Decimal.uint) (r1 r2 : string) :
  PyStr.starts_with_digit r1 = false -> PyStr.starts_with_digit r2 = false ->
  NilEmpty.string_of_uint u1 +:+ r1 = NilEmpty.string_of_uint u2 +:+ r2 ->
  u1 = u2 /\ r1 = r2.
Proof.
  intros H1 H2. revert u2; induction u1 as [|u1 IH|u1 IH|u1 IH|u1 IH|u1 IH
                                            |u1 IH|u1 IH|u1 IH|u1 IH|u1 IH];
    intros [|u2|u2|u2|u2|u2|u2|u2|u2|u2|u2] E; cbn in E;
    try discriminate E;
    try (injection E as E; destruct (IH _ E) as [-> ->]; now split);
    try (now split);
    exfalso;
    first [rewrite E in H1; discriminate H1 | rewrite <- E in H2; discriminate H2].
Qed.

Lemma uint_starts (u : Decimal.uint) (r : string) :
  u <> Decimal.Nil ->
  PyStr.starts_with_digit (NilEmpty.string_of_uint u +:+ r) = true.
Proof. destruct u; intros Hu; [congruence | reflexivity ..]. Qed.

Lemma nilzero_uint (u : Decimal.uint) :
  u <> Decimal.Nil -> NilZero.string_of_uint u = NilEmpty.string_of_uint u.
Proof. destruct u; intros Hu; [congruence | reflexivity ..]. Qed.

Lemma to_int_parts (z : Z) :
  exists u, u <> Decimal.Nil
    /\ (Z.to_int z = Decimal.Pos u \/ Z.to_int z = Decimal.Neg u).
Proof.
  destruct z as [|p|p]; simpl.
  - exists (Decimal.D0 Decimal.Nil). split; [discriminate | now left].
  - exists (Pos.to_uint p). split; [apply DecimalPos.Unsigned.to_uint_nonnil | now left].
  - exists (Pos.to_uint p). split; [apply DecimalPos.Unsigned.to_uint_nonnil | now right].
Qed.

Lemma encode_int_inj (z1 z2 : Z) (r1 r2 : string) :
  PyStr.starts_with_digit r1 = false -> PyStr.starts_with_digit r2 = false ->
  encode_int z1 +:+ r1 = encode_int z2 +:+ r2 -> z1 = z2 /\ r1 = r2.
Proof.
  intros H1 H2 E. unfold encode_int in E.
  destruct (to_int_parts z1) as (u1 & Hu1 & Ez1).
  destruct (to_int_parts z2) as (u2 & Hu2 & Ez2).
  assert (Hsame : Z.to_int z1 = Z.to_int z2 /\ r1 = r2).
  { destruct Ez1 as [Ez1|Ez1], Ez2 as [Ez2|Ez2]; rewrite Ez1, Ez2 in *;
      cbn [NilZero.string_of_int] in E;
      rewrite (nilzero_uint u1 Hu1), (nilzero_uint u2 Hu2) in E.
    - destruct (uint_inj u1 u2 r1 r2 H1 H2 E) as [-> ->]. now split.
    - exfalso. apply (f_equal PyStr.starts_with_digit) in E.
      rewrite (uint_starts u1 r1 Hu1) in E. discriminate E.
    - exfalso. apply (f_equal PyStr.starts_with_digit) in E.
      rewrite (uint_starts u2 r2 Hu2) in E. discriminate E.
    - injection E as E.
      destruct (uint_inj u1 u2 r1 r2 H1 H2 E) as [-> ->]. now split. }
  destruct Hsame as [Hint ->]. split; [|reflexivity].
  rewrite <- (DecimalZ.of_to z1), <- (DecimalZ.of_to z2). now rewrite Hint.
Qed.

Lemma encode_int_first (z : Z) (r : string) :
  exists c t, encode_int z +:+ r = String c t /\ Ascii.eqb c dquote = false.
Proof.
  unfold encode_int. destruct (to_int_parts z) as (u & Hu & [Ez|Ez]);
    rewrite Ez; cbn [NilZero.string_of_int]; rewrite (nilzero_uint u Hu).
  - pose proof (uint_starts u r Hu) as Hs.
    destruct (NilEmpty.string_of_uint u +:+ r) as [|c t]; [discriminate|].
    exists c, t. split; [reflexivity|].
    destruct (Ascii.eqb_spec c dquote) as [->|]; [discriminate | reflexivity].
  - eexists _, _. split; reflexivity.
Qed.

Lemma encode_value_inj (v1 v2 : value) (r1 r2 : string) :
  PyStr.starts_with_digit r1 = false -> PyStr.starts_with_digit r2 = false ->
  encode_value v1 +:+ r1 = encode_value v2 +:+ r2 -> v1 = v2 /\ r1 = r2.
Proof.
  intros H1 H2 E. destruct v1 as [s1|z1], v2 as [s2|z2]; cbn [encode_value] in E.
  - destruct (encode_str_inj _ _ _ _ E) as [-> ->]. now split.
  - exfalso. destruct (encode_int_first z2 r2) as (c & t & Ec & Hc).
    rewrite Ec, encode_str_app in E. injection E as E _. subst c.
    discriminate Hc.
  - exfalso. destruct (encode_int_first z1 r1) as (c & t & Ec & Hc).
    rewrite Ec, encode_str_app in E. injection E as E _. subst c.
    discriminate Hc.
  - destruct (encode_int_inj _ _ _ _ H1 H2 E) as [-> ->]. now split.
Qed.

Lemma encode_item_inj (x y : string * value) (r1 r2 : string) :
  PyStr.starts_with_digit r1 = false -> PyStr.starts_with_digit r2 = false ->
  encode_item x +:+ r1 = encode_item y +:+ r2 -> x = y /\ r1 = r2.
Proof.
  intros H1 H2 E. destruct x as [k1 v1], y as [k2 v2].
  unfold encode_item in E. cbn [fst snd] in E.
  rewrite !PyStrFacts.append_assoc in E.
  destruct (encode_str_inj _ _ _ _ E) as [-> E'].
  cbn [String.append] in E'. injection E' as E'.
  destruct (encode_value_inj _ _ _ _ H1 H2 E') as [-> ->]. now split.
Qed.

Lemma join_items_cons (x : string) (xs : list string) :
  join_items (x :: xs)
  = x +:+ match xs with [] => EmptyString | _ :: _ => ", " +:+ join_items xs end.
Proof. destruct xs; simpl; [now rewrite PyStrFacts.append_nil_r | reflexivity]. Qed.

(** The items of an object can be read off its encoding. *)
Lemma join_items_inj (l1 l2 : dict) (r1 r2 : string) :
  join_items (List.map encode_item l1) +:+ String "}" r1
  = join_items (List.map encode_item l2) +:+ String "}" r2 ->
  l1 = l2 /\ r1 = r2.
Proof.
  revert l2; induction l1 as [|x l1 IH]; intros [|y l2] E.
  - injection E as ->. now split.
  - exfalso. cbn [List.map] in E. rewrite join_items_cons in E.
    unfold encode_item at 1 in E.
    rewrite !PyStrFacts.append_assoc, encode_str_app in E. discriminate E.
  - exfalso. cbn [List.map] in E. rewrite join_items_cons in E.
    unfold encode_item at 1 in E.
    rewrite !PyStrFacts.append_assoc, encode_str_app in E. discriminate E.
  - cbn [List.map] in E. rewrite !join_items_cons, !PyStrFacts.append_assoc in E.
    apply encode_item_inj in E.
    + destruct E as [-> E]. destruct l1 as [|x1 l1], l2 as [|y2 l2].
      * injection E as ->. now split.
      * discriminate E.
      * discriminate E.
      * cbn [List.map String.append] in E. injection E as E.
        destruct (IH (y2 :: l2) E) as [-> ->]. now split.
    + destruct (List.map encode_item l1); reflexivity.
    + destruct (List.map encode_item l2); reflexivity.
Qed.

Lemma dumps_sorted_inj (d1 d2 : dict) :
  dumps_sorted d1 = dumps_sorted d2 -> sorted_items d1 = sorted_items d2.
Proof.
  unfold dumps_sorted. cbn [String.append]. intros [= E].
  now destruct (join_items_inj _ _ _ _ E).
Qed.

(** UTF-8 loses nothing. *)
Lemma utf8_inj (s1 s2 : string) : utf8 s1 = utf8 s2 -> s1 = s2.
Proof.
  assert (Hcode : forall c1 c2, Z.of_N (PyStr.code c1) = Z.of_N (PyStr.code c2)
                                -> c1 = c2).
  { intros c1 c2 E. apply N2Z.inj in E. unfold PyStr.code in E.
    rewrite <- (ascii_N_embedding c1), <- (ascii_N_embedding c2). now rewrite E. }
  revert s2; induction s1 as [|c1 s1 IH]; intros [|c2 s2] E; cbn [utf8] in E.
  - reflexivity.
  - destruct (Z.of_N (PyStr.code c2) <? 128); discriminate E.
  - destruct (Z.of_N (PyStr.code c1) <? 128); discriminate E.
  - pose proof (N2Z.is_nonneg (PyStr.code c1)) as P1.
    pose proof (N2Z.is_nonneg (PyStr.code c2)) as P2.
    destruct (Z.ltb_spec (Z.of_N (PyStr.code c1)) 128) as [L1|L1],
             (Z.ltb_spec (Z.of_N (PyStr.code c2)) 128) as [L2|L2].
    + injection E as Ec E. now rewrite (Hcode _ _ Ec), (IH _ E).
    + exfalso. injection E as Ec _.
      pose proof (Z.div_pos (Z.of_N (PyStr.code c2)) 64 P2 eq_refl). lia.
    + exfalso. injection E as Ec _.
      pose proof (Z.div_pos (Z.of_N (PyStr.code c1)) 64 P1 eq_refl). lia.
    + injection E as Ed Em E.
      assert (Ec : Z.of_N (PyStr.code c1) = Z.of_N (PyStr.code c2)).
      { rewrite (Z.div_mod (Z.of_N (PyStr.code c1)) 64),
                (Z.div_mod (Z.of_N (PyStr.code c2)) 64) by lia. lia. }
      now rewrite (Hcode _ _ Ec), (IH _ E).
Qed.

(** Parameter sets that bind [max_results] differently are serialised to
    different byte strings. *)
Lemma serialised_differ (d1 d2 : dict) (v1 v2 : value) :
  lookup "max_results" d1 = Some v1 -> lookup "max_results" d2 = Some v2 ->
  v1 <> v2 ->
  utf8 (dumps_sorted d1) <> utf8 (dumps_sorted d2).
Proof.
  intros L1 L2 Hne E. apply utf8_inj, dumps_sorted_inj in E.
  rewrite <- (lookup_sorted_items "max_results" d1) in L1.
  rewrite <- (lookup_sorted_items "max_results" d2) in L2.
  rewrite E in L1. congruence.
Qed.

End KeyFacts.

(** C5 as stated fails: were the cache keys of any two parameter sets with
    different [max_results] different, the 2^128 + 1 sets
    [{"max_results": n}], for [n] from 0 to 2^128, would have as many
    different MD5 digests, which have 128 bits. *)
Lemma cache_key_collision_counterexample :
  ~ (forall (d1 d2 : Json.dict) (v1 v2 : Json.value),
        Json.lookup "max_results" d1 = Some v1 ->
        Json.lookup "max_results" d2 = Some v2 ->
        v1 <> v2 ->
        _get_cache_key d1 <> _get_cache_key d2).
Proof.
  intros Hclaim.
  apply (KeyFacts.pigeonhole (2 ^ 128) ltac:(lia)
           (fun n => MD5.digest
                       (Json.utf8 (Json.dumps_sorted [("max_results", Json.Int n)])))).
  - intros x _. apply KeyFacts.digest_bound.
  - intros x y _ _ E. destruct (Z.eq_dec x y) as [|Hne]; [assumption|].
    exfalso.
    apply (Hclaim [("max_results", Json.Int x)] [("max_results", Json.Int y)]
             (Json.Int x) (Json.Int y) eq_refl eq_refl).
    + intros [= ?]. contradiction.
    + unfold _get_cache_key, MD5.hexdigest. now rewrite E.
Qed.

(** C5 (as amended). The cache key does not depend on the order in which
    the parameters were inserted: two dictionaries with the same items get
    the same key. Two parameter sets that differ in the value of
    [max_results] are serialised to different byte strings, so their keys
    differ unless MD5 maps these two strings to one digest; the keys for
    [max_results] 10 and 20 of an otherwise equal search differ. *)
Theorem cache_key_order_independent (d1 d2 : Json.dict) :
  List.NoDup (List.map fst d1) -> Permutation d1 d2 ->
  _get_cache_key d1 = _get_cache_key d2
  /\ (forall (d3 : Json.dict) (v1 v3 : Json.value),
        Json.lookup "max_results" d1 = Some v1 ->
        Json.lookup "max_results" d3 = Some v3 ->
        v1 <> v3 ->
        Json.utf8 (Json.dumps_sorted d1) <> Json.utf8 (Json.dumps_sorted d3))
  /\ _get_cache_key (Samples.demo_params 10)
     <> _get_cache_key (Samples.demo_params 20).
Proof.
  intros Hnd Hperm. split; [|split].
  - unfold _get_cache_key, Json.dumps_sorted.
    now rewrite (KeyFacts.sorted_items_perm d1 d2 Hperm Hnd).
  - intros d3 v1 v3. apply KeyFacts.serialised_differ.
  - vm_compute. discriminate.
Qed.

(** C5 at the parameters of a search, with the first two swapped. *)
Lemma cache_key_order_independent_witness :
  let d1 := Samples.demo_params 10 in
  let d2 := [("start", Json.Int 0); ("search_query", Json.Str "cat:cs.LG");
             ("max_results", Json.Int 10); ("sortBy", Json.Str "relevance");
             ("sortOrder", Json.Str "descending")] in
  List.NoDup (List.map fst d1) /\ Permutation d1 d2
  /\ _get_cache_key d1 = _get_cache_key d2.
Proof.
  intros d1 d2.
  assert (Hnd : List.NoDup (List.map fst d1)).
  { repeat (constructor;
            [simpl; intros Hin;
             repeat (destruct Hin as [Hin|Hin]; [discriminate Hin|]);
             exact Hin|]).
    constructor. }
  assert (Hperm : Permutation d1 d2) by apply perm_swap.
  split; [exact Hnd|]. split; [exact Hperm|].
  exact (proj1 (cache_key_order_independent d1 d2 Hnd Hperm)).
Defined.

(** C9 at an old-style URL whose category has a subject class: neither
    pattern matches, so only the version marker is removed and the request
    is made with the URL; the same identifier given bare is reduced. *)
Theorem clean_arxiv_id_dotted_category :
  _clean_arxiv_id "https://arxiv.org/abs/math.GT/0309136v1"
  = "https://arxiv.org/abs/math.GT/0309136"
  /\ _clean_arxiv_id "math.GT/0309136v1" = "math.GT/0309136"
  /\ @get_paper utc_seconds "https://arxiv.org/abs/math.GT/0309136v1"
     = bind (@_make_request utc_seconds
               [("id_list", Json.Str "https://arxiv.org/abs/math.GT/0309136");
                ("max_results", Json.Int 1)])
         (fun results => ret (List.head results)).
Proof. repeat split; reflexivity. Qed.

(* ===================================================================== *)
(** ** Runs of the request loop, whatever the network does                *)
(* ===================================================================== *)

Section Runs.
Context `{Datetime}.
Import Xml.

Lemma moved_refl (st : State) : moved st st [].
Proof.
  constructor; cbn; try reflexivity; try lia. now rewrite app_nil_r.
Qed.

Lemma requests_of_app (a b : list Event) :
  requests_of (a ++ b) = (requests_of a ++ requests_of b)%list.
Proof. apply omap_app. Qed.

Lemma sleeps_of_app (kind : SleepKind) (a b : list Event) :
  sleeps_of kind (a ++ b) = (sleeps_of kind a ++ sleeps_of kind b)%list.
Proof. apply omap_app. Qed.

Lemma sleeps_app (a b : list Event) :
  sleeps (a ++ b) = (sleeps a ++ sleeps b)%list.
Proof. apply omap_app. Qed.

Lemma moved_trans (st1 st2 st3 : State) (e1 e2 : list Event) :
  moved st1 st2 e1 -> moved st2 st3 e2 -> moved st1 st3 (e1 ++ e2).
Proof.
  intros [A1 A2 A3 A4 A5 A6 A7 A8 A9] [B1 B2 B3 B4 B5 B6 B7 B8 B9].
  constructor; try congruence.
  - rewrite requests_of_app, length_app. lia.
  - now rewrite B8, A8, app_assoc.
  - lia.
Qed.

(** Waiting for the rate limit: at most one sleep, of positive length. *)
Lemma rate_limit_moved (c : ArxivClient) (w : World) :
  exists w' evs,
    _rate_limit (c, w) = (OK tt, (set_last_request_time (clock w') c, w'))
    /\ moved (c, w) (set_last_request_time (clock w') c, w') evs
    /\ requests_of evs = []
    /\ sleeps_of Backoff evs = []
    /\ Forall (fun d => 0 < d) (sleeps evs)
    /\ last_request_time c + rate_limit_delay c <= clock w'
    /\ files w' = files w.
Proof.
  unfold _rate_limit, time_time.
  set (w1 := advance 0 w).
  pose proof (advance_clock 0 w) as H1. fold w1 in H1.
  destruct (clock w1 - last_request_time c <? rate_limit_delay c) eqn:E.
  - apply Z.ltb_lt in E.
    set (d := rate_limit_delay c - (clock w1 - last_request_time c)) in *.
    set (w2 := time_sleep RateLimitWait d w1).
    pose proof (advance_clock d w1) as H2.
    pose proof (advance_clock 0 w2) as H3.
    assert (Hc2 : clock w2 = clock (advance d w1)) by reflexivity.
    exists (advance 0 w2), [EvSleep RateLimitWait d].
    split; [reflexivity|].
    split; [constructor; cbn; try reflexivity; lia|].
    split; [reflexivity|]. split; [reflexivity|].
    split; [repeat constructor; lia|].
    split; [lia | reflexivity].
  - apply Z.ltb_ge in E.
    pose proof (advance_clock 0 w1) as H3.
    exists (advance 0 w1), [].
    split; [reflexivity|].
    split; [constructor; cbn; try reflexivity; try lia; now rewrite app_nil_r|].
    split; [reflexivity|]. split; [reflexivity|].
    split; [constructor|]. split; [lia | reflexivity].
Qed.

Lemma requests_get_moved (params : Json.dict) (c : ArxivClient) (w : World) :
  moved (c, w) (c, snd (requests_get params w)) [EvGet params]
  /\ fst (requests_get params w) = network w (sent w) params
  /\ files (snd (requests_get params w)) = files w.
Proof.
  pose proof (advance_clock 0 w) as H1.
  split; [|split; reflexivity].
  constructor; cbn in *; try reflexivity; lia.
Qed.

Lemma backoff_moved (attempt : Z) (c : ArxivClient) (w : World) :
  exists w', backoff attempt (c, w) = (OK tt, (c, w'))
    /\ moved (c, w) (c, w') [EvSleep Backoff (2 ^ attempt * second)]
    /\ files w' = files w.
Proof.
  eexists. split; [reflexivity|]. split; [|reflexivity].
  pose proof (advance_clock (2 ^ attempt * second) w) as H1.
  assert (0 <= 2 ^ attempt) by (apply Z.pow_nonneg; lia).
  assert (0 <= 2 ^ attempt * second) by (unfold second; lia).
  constructor; cbn in *; try reflexivity; lia.
Qed.

(** Reading the cache: no request, no sleep, no file written. *)
Lemma get_cached_moved (key : string) (c : ArxivClient) (w : World) :
  exists w', snd (_get_cached key (c, w)) = (c, w')
    /\ moved (c, w) (c, w') [] /\ files w' = files w.
Proof.
  unfold _get_cached.
  destruct (cache_dir c) as [dir|];
    [destruct (files w !! cache_file dir key) as [[| |[[|t]|] results]|]|];
    try (exists w; split; [reflexivity|];
         split; [apply moved_refl | reflexivity]).
  pose proof (advance_clock 0 w) as H1.
  unfold datetime_now, time_time.
  destruct (clock (advance 0 w) - t <? cache_ttl c);
    (exists (advance 0 w); split; [reflexivity|]; split; [|reflexivity];
     constructor; cbn in *; try reflexivity; try lia; now rewrite app_nil_r).
Qed.

(** Storing in the cache: no request, no sleep, one file written. *)
Lemma set_cached_moved (key : string) (rs : list Paper) (c : ArxivClient)
    (w : World) :
  exists w', _set_cached key rs (c, w) = (OK tt, (c, w'))
    /\ moved (c, w) (c, w') [] /\ stored c w w' key rs.
Proof.
  unfold _set_cached, stored.
  destruct (cache_dir c) as [dir|].
  - pose proof (advance_clock 0 w) as H1.
    eexists. split; [reflexivity|]. split.
    + constructor; cbn in *; try reflexivity; try lia. now rewrite app_nil_r.
    + exists (clock (advance 0 w)). split; [cbn in *; lia | reflexivity].
  - exists w. split; [reflexivity|]. split; [apply moved_refl | reflexivity].
Qed.

(** One iteration after the request: either the loop goes on, after at
    most one backoff sleep, or the call ends there. *)
Lemma on_response_run (retry : M (list Paper)) (key : string) (attempt : Z)
    (c c1 : ArxivClient) (o : NetOutcome) (w : World) :
  0 <= attempt ->
  (exists w' evs,
      on_response retry key attempt c o (c1, w) = retry (c1, w')
      /\ moved (c1, w) (c1, w') evs
      /\ requests_of evs = []
      /\ (List.length (sleeps_of Backoff evs) <= 1)%nat
      /\ Forall (fun d => 0 < d) (sleeps evs)
      /\ files w' = files w)
  \/ (exists r w',
      on_response retry key attempt c o (c1, w) = (r, (c1, w'))
      /\ moved (c1, w) (c1, w') []
      /\ match r with
         | OK papers => stored c1 w w' key papers
         | Raise _ => files w' = files w
         end).
Proof.
  intros Hatt.
  assert (Hpos : 0 < 2 ^ attempt * second).
  { assert (0 < 2 ^ attempt) by (apply Z.pow_pos_nonneg; lia).
    unfold second. lia. }
  assert (Hsleep : exists w' evs,
             bind (backoff attempt) (fun _ => retry) (c1, w) = retry (c1, w')
             /\ moved (c1, w) (c1, w') evs
             /\ requests_of evs = []
             /\ (List.length (sleeps_of Backoff evs) <= 1)%nat
             /\ Forall (fun d => 0 < d) (sleeps evs)
             /\ files w' = files w).
  { destruct (backoff_moved attempt c1 w) as (w' & Hrun & Hmv & Hfiles).
    exists w', [EvSleep Backoff (2 ^ attempt * second)].
    split; [unfold bind; now rewrite Hrun|].
    split; [exact Hmv|]. split; [reflexivity|]. split; [cbn; lia|].
    split; [repeat constructor; exact Hpos | exact Hfiles]. }
  assert (Hstop : forall e,
             exists r w', (Raise e : Result (list Paper), (c1, w)) = (r, (c1, w'))
               /\ moved (c1, w) (c1, w') []
               /\ match r with
                  | OK papers => stored c1 w w' key papers
                  | Raise _ => files w' = files w
                  end).
  { intros e. exists (Raise e), w. split; [reflexivity|].
    split; [apply moved_refl | reflexivity]. }
  destruct o as [| |status content]; cbn [on_response].
  - destruct (attempt <? max_retries c - 1); [left; exact Hsleep|].
    right. apply Hstop.
  - destruct (attempt <? max_retries c - 1); [left; exact Hsleep|].
    right. apply Hstop.
  - destruct (status =? 200).
    + right. unfold handle_ok.
      destruct content as [root|]; [|apply Hstop].
      destruct (error_title (findall "atom:entry" root)); [apply Hstop|].
      unfold bind at 1, lift.
      destruct (parse_entries (findall "atom:entry" root)) as [papers|e];
        [|apply Hstop].
      destruct (set_cached_moved key papers c1 w) as (w' & Hset & Hmv & Hst).
      exists (OK papers), w'. unfold bind, ret. rewrite Hset.
      split; [reflexivity|]. split; assumption.
    + destruct (status >=? 500); [left; exact Hsleep|].
      unfold raise_for_status.
      destruct ((400 <=? status) && (status <? 600)).
      * right. apply Hstop.
      * left. exists w, []. split; [reflexivity|].
        split; [apply moved_refl|]. split; [reflexivity|].
        split; [cbn; lia|]. split; [constructor | reflexivity].
Qed.


(** The retry loop, for every behaviour of the network and of the clock. *)
Lemma attempts_run (params : Json.dict) (key : string) (todo : nat) :
  forall (attempt : Z) (c : ArxivClient) (w : World),
    0 <= attempt ->
    request_run params key todo (c, w) (attempts params key todo attempt (c, w))
    /\ forall papers,
         fst (attempts params key todo attempt (c, w)) = OK papers ->
         sent (snd (snd (attempts params key todo attempt (c, w)))) <> sent w.
Proof.
  induction todo as [|todo IH]; intros attempt c w Hatt.
  - split; [|discriminate].
    exists [], 0%nat. cbn.
    split; [apply (moved_refl (c, w))|].
    repeat match goal with |- _ /\ _ => split end;
      try reflexivity; try lia; try constructor.
  - destruct (rate_limit_moved c w)
      as (w1 & evs1 & Hlimit & Hmv1 & Hreq1 & Hnap1 & Hpos1 & Hgap & Hfiles1).
    set (c1 := set_last_request_time (clock w1) c) in *.
    destruct (requests_get_moved params c1 w1) as (Hmv2 & Hout & Hfiles2).
    set (w2 := snd (requests_get params w1)) in *.
    assert (Hstep : attempts params key (Datatypes.S todo) attempt (c, w)
                    = on_response (attempts params key todo (attempt + 1)) key
                        attempt c (network w (sent w) params) (c1, w2)).
    { cbn [attempts]. unfold bind at 1, self. unfold bind at 1.
      rewrite Hlimit. unfold bind at 1, from_world. subst w2.
      destruct (requests_get params w1) as [o w2] eqn:Hget.
      cbn [fst snd] in *. rewrite Hout.
      pose proof (same_network _ _ _ Hmv1) as Enet.
      pose proof (more_sent _ _ _ Hmv1) as Esent.
      cbn [fst snd] in Enet, Esent. rewrite Hreq1 in Esent. cbn in Esent.
      rewrite Enet, Esent, Nat.add_0_r. reflexivity. }
    rewrite Hstep.
    pose proof (moved_trans _ _ _ _ _ Hmv1 Hmv2) as Hmv12.
    pose proof (later _ _ _ Hmv1) as L1. pose proof (later _ _ _ Hmv2) as L2.
    cbn [fst snd] in L1, L2.
    destruct (on_response_run (attempts params key todo (attempt + 1)) key
                attempt c c1 (network w (sent w) params) w2 Hatt)
      as [(w3 & evs3 & Hgo & Hmv3 & Hreq3 & Hnap3 & Hpos3 & Hfiles3)
         |(r & w3 & Hend & Hmv3 & Hpost)].
    + rewrite Hgo.
      destruct (IH (attempt + 1) c1 w3 ltac:(lia)) as [Hrun Hsent].
      pose proof (moved_trans _ _ _ _ _ Hmv12 Hmv3) as Hmv123.
      pose proof (later _ _ _ Hmv3) as L3. cbn [fst snd] in L3.
      destruct (attempts params key todo (attempt + 1) (c1, w3))
        as [r [c' w']] eqn:Hrest.
      destruct Hrun as (evs & n & Hmv & Hreq & Hn & Hnap & Hpos & Hsp & Hdur & Hpost).
      cbn [fst snd] in *.
      pose proof (later _ _ _ Hmv) as L4. cbn [fst snd] in L4.
      split.
      * exists (((evs1 ++ [EvGet params]) ++ evs3) ++ evs)%list, (Datatypes.S n).
        cbn [fst snd].
        split; [exact (moved_trans _ _ _ _ _ Hmv123 Hmv)|].
        split; [rewrite !requests_of_app, Hreq1, Hreq3, Hreq; reflexivity|].
        split; [lia|].
        split; [rewrite !sleeps_of_app, Hnap1, !length_app; cbn; lia|].
        split; [rewrite !sleeps_app; repeat apply Forall_app_2;
                try assumption; constructor|].
        change (rate_limit_delay c1) with (rate_limit_delay c) in *.
        change (last_request_time c1) with (clock w1) in *.
        split; [right; destruct Hsp as [->|Hsp]; cbn; lia|].
        split.
        { replace (Datatypes.S n - 1)%nat with n by lia.
          destruct Hsp as [->|Hsp]; cbn; lia. }
        destruct r as [papers|e].
        -- assert (Hn0 : n <> 0%nat).
           { intros ->. apply (Hsent papers eq_refl).
             pose proof (more_sent _ _ _ Hmv) as Es. cbn [fst snd] in Es.
             rewrite Hreq in Es. cbn in Es. lia. }
           apply Nat.eqb_neq in Hn0. rewrite Hn0 in Hpost.
           cbn [Nat.eqb]. unfold stored in *.
           change (cache_dir c1) with (cache_dir c) in Hpost.
           destruct (cache_dir c) as [dir|].
           ++ destruct Hpost as (t & Ht & Hf). exists t.
              split; [lia|]. now rewrite Hf, Hfiles3, Hfiles2, Hfiles1.
           ++ now rewrite Hpost, Hfiles3, Hfiles2, Hfiles1.
        -- now rewrite Hpost, Hfiles3, Hfiles2, Hfiles1.
      * intros papers _. cbn [fst snd].
        pose proof (more_sent _ _ _ (moved_trans _ _ _ _ _ Hmv123 Hmv)) as Es.
        cbn [fst snd] in Es.
        rewrite !requests_of_app, !length_app, Hreq1 in Es. cbn in Es. lia.
    + rewrite Hend. cbn [fst snd].
      pose proof (moved_trans _ _ _ _ _ Hmv12 Hmv3) as Hmv123.
      pose proof (later _ _ _ Hmv3) as L3. cbn [fst snd] in L3.
      split.
      * exists ((evs1 ++ [EvGet params]) ++ [])%list, 1%nat. cbn [fst snd].
        split; [exact Hmv123|].
        split; [rewrite !requests_of_app, Hreq1; reflexivity|].
        split; [lia|].
        split; [rewrite !sleeps_of_app, Hnap1; cbn; lia|].
        split; [rewrite !sleeps_app; repeat apply Forall_app_2;
                try assumption; constructor|].
        split; [right; lia|]. split; [cbn; lia|].
        destruct r as [papers|e].
        -- cbn [Nat.eqb]. unfold stored in *.
           change (cache_dir c1) with (cache_dir c) in Hpost.
           destruct (cache_dir c) as [dir|].
           ++ destruct Hpost as (t & Ht & Hf). exists t.
              split; [lia|]. now rewrite Hf, Hfiles2, Hfiles1.
           ++ now rewrite Hpost, Hfiles2, Hfiles1.
        -- now rewrite Hpost, Hfiles2, Hfiles1.
      * intros papers _.
        pose proof (more_sent _ _ _ Hmv123) as Es. cbn [fst snd] in Es.
        rewrite !requests_of_app, !length_app, Hreq1 in Es. cbn in Es. lia.
Qed.

(** [_make_request], for every behaviour of the network, of the clock and
    of the cache directory. *)
Lemma make_request_run (params : Json.dict) (c : ArxivClient) (w : World) :
  request_run params (_get_cache_key params) (Z.to_nat (max_retries c))
    (c, w) (_make_request params (c, w)).
Proof.
  destruct (get_cached_moved (_get_cache_key params) c w)
    as (w0 & Hst & Hmv0 & Hfiles0).
  pose proof (later _ _ _ Hmv0) as L0. cbn [fst snd] in L0.
  unfold _make_request. unfold bind at 1.
  destruct (_get_cached (_get_cache_key params) (c, w)) as [r st] eqn:Hget.
  cbn [snd] in Hst. subst st.
  assert (Hquiet : forall out : Result (list Paper),
             request_run params (_get_cache_key params)
               (Z.to_nat (max_retries c)) (c, w) (out, (c, w0))).
  { intros out. exists [], 0%nat. cbn [fst snd].
    split; [exact Hmv0|].
    repeat match goal with |- _ /\ _ => split end;
      try reflexivity; try lia; try constructor; try (now left).
    destruct out; cbn; exact Hfiles0. }
  destruct r as [[papers|]|e]; [apply Hquiet| |apply Hquiet].
  unfold bind at 1, self.
  destruct (attempts_run params (_get_cache_key params)
              (Z.to_nat (max_retries c)) 0 c w0 (Z.le_refl 0)) as [Hrun _].
  destruct (attempts params (_get_cache_key params)
              (Z.to_nat (max_retries c)) 0 (c, w0)) as [r [c' w']].
  destruct Hrun as (evs & n & Hmv & Hreq & Hn & Hnap & Hpos & Hsp & Hdur & Hpost).
  cbn [fst snd] in *.
  exists evs, n. cbn [fst snd].
  split; [exact (moved_trans _ _ _ _ _ Hmv0 Hmv)|].
  repeat match goal with |- _ /\ _ => split end; try assumption; try lia.
  destruct r as [papers|e]; [|now rewrite Hpost].
  destruct (n =? 0)%nat; [now rewrite Hpost|].
  unfold stored in *. destruct (cache_dir c) as [dir|].
  - destruct Hpost as (t & Ht & Hf). exists t. split; [lia|].
    now rewrite Hf, Hfiles0.
  - now rewrite Hpost.
Qed.

End Runs.

(** X1. Whatever the network, the clock and the cache do, one call of
    [_make_request] sends at most [max_retries] requests (none when
    [max_retries] is zero or negative), every one of them with exactly the
    parameters it was given; it sleeps for a backoff at most once per
    request sent; and no sleep it asks for, backoff or rate limit, has a
    zero or negative duration. *)
Theorem make_request_budget `{Datetime} (c : ArxivClient) (w : World)
    (params : Json.dict) :
  let w' := snd (snd (_make_request params (c, w))) in
  exists (evs : list Event) (n : nat),
    trace w' = (trace w ++ evs)%list
    /\ requests_of evs = repeat params n
    /\ Z.of_nat n <= Z.max 0 (max_retries c)
    /\ (List.length (sleeps_of Backoff evs) <= n)%nat
    /\ Forall (fun d => 0 < d) (sleeps evs).
Proof.
  intros w'.
  destruct (make_request_run params c w)
    as (evs & n & Hmv & Hreq & Hn & Hnap & Hpos & _).
  exists evs, n.
  split; [exact (more_trace _ _ _ Hmv)|]. split; [exact Hreq|].
  split; [lia|]. split; assumption.
Qed.

(** X2. The requests of the client are spaced by the rate limit, across
    calls and within one: a call of [_make_request] that sends [n]
    requests, [n >= 1], returns no earlier than [n * rate_limit_delay]
    after the last request time recorded before it, and takes at least
    [(n - 1) * rate_limit_delay]; the clock never goes back. *)
Theorem make_request_spacing `{Datetime} (c : ArxivClient) (w : World)
    (params : Json.dict) :
  let w' := snd (snd (_make_request params (c, w))) in
  let n := (sent w' - sent w)%nat in
  clock w <= clock w'
  /\ Z.of_nat (n - 1) * rate_limit_delay c <= clock w' - clock w
  /\ (n = 0%nat
      \/ last_request_time c + Z.of_nat n * rate_limit_delay c <= clock w').
Proof.
  intros w' n.
  destruct (make_request_run params c w)
    as (evs & k & Hmv & Hreq & _ & _ & _ & Hsp & Hdur & _).
  pose proof (more_sent _ _ _ Hmv) as Es. pose proof (later _ _ _ Hmv) as L.
  cbn [fst snd] in *. rewrite Hreq, repeat_length in Es.
  assert (Hn : n = k) by (subst n w'; lia). rewrite Hn.
  split; [exact L|]. split; assumption.
Qed.

(** X3. The only file a call of [_make_request] can change is the cache
    entry of its own parameters. A call that raises, a call answered from
    the cache (one that sends no request) and a call of a client without
    cache directory leave every file as it was: in particular a failed
    request is never cached. *)
Theorem make_request_writes_own_entry `{Datetime} (c : ArxivClient)
    (w : World) (params : Json.dict) :
  let out := _make_request params (c, w) in
  let w' := snd (snd out) in
  (forall path,
      (forall dir, cache_dir c = Some dir ->
                   path <> cache_file dir (_get_cache_key params)) ->
      files w' !! path = files w !! path)
  /\ match fst out with
     | Raise _ => files w' = files w
     | OK _ => sent w' = sent w -> files w' = files w
     end
  /\ (cache_dir c = None -> files w' = files w).
Proof.
  intros out w'.
  destruct (make_request_run params c w)
    as (evs & n & Hmv & Hreq & _ & _ & _ & _ & _ & Hpost).
  pose proof (more_sent _ _ _ Hmv) as Es.
  cbn [fst snd] in *. rewrite Hreq, repeat_length in Es.
  fold out in Hpost, Es. fold w' in Hpost, Es.
  assert (Hcases : files w' = files w
                   \/ exists papers, fst out = OK papers /\ n <> 0%nat
                        /\ stored c w w' (_get_cache_key params) papers).
  { destruct (fst out) as [papers|e]; [|now left].
    destruct (Nat.eqb_spec n 0) as [_|Hn]; [now left|].
    right. exists papers. repeat split; assumption. }
  split; [|split].
  - intros path Hpath.
    destruct Hcases as [->|(papers & _ & _ & Hst)]; [reflexivity|].
    unfold stored in Hst. destruct (cache_dir c) as [dir|].
    + destruct Hst as (t & _ & ->).
      apply lookup_insert_ne. intros E. now apply (Hpath dir eq_refl).
    + now rewrite Hst.
  - destruct Hcases as [E|(papers & Eout & Hn & _)].
    + destruct (fst out); [intros _|]; exact E.
    + rewrite Eout. intros Hsent. lia.
  - intros Hdir.
    destruct Hcases as [E|(papers & _ & _ & Hst)]; [exact E|].
    unfold stored in Hst. now rewrite Hdir in Hst.
Qed.

(** X4. What [_make_request] fetched from the network it serves from the
    cache afterwards: with a cache directory, once a call has returned
    records after sending a request, a later call with the same
    parameters, given in any order, made less than the TTL after the
    first call began and with the cache files untouched in between,
    returns the same records; it reads the clock and does nothing else:
    no request, no sleep, and the client's last request time stays. *)
Theorem make_request_repeat_cached `{Datetime} (c c1 c2 : ArxivClient)
    (w w1 w2 : World) (params params2 : Json.dict) (papers : list Paper)
    (dir : string) :
  cache_dir c = Some dir ->
  _make_request params (c, w) = (OK papers, (c1, w1)) ->
  sent w1 <> sent w ->
  Permutation params params2 ->
  List.NoDup (List.map fst params) ->
  cache_dir c2 = Some dir ->
  cache_ttl c2 = cache_ttl c ->
  files w2 = files w1 ->
  fst (datetime_now w2) - clock w < cache_ttl c ->
  _make_request params2 (c2, w2) = (OK papers, (c2, snd (datetime_now w2)))
  /\ trace (snd (datetime_now w2)) = trace w2
  /\ sent (snd (datetime_now w2)) = sent w2.
Proof.
  intros Hdir Hfirst Hsent Hperm Hnd Hdir2 Httl Hfiles Hage.
  split; [|split; reflexivity].
  destruct (make_request_run params c w)
    as (evs & n & Hmv & Hreq & _ & _ & _ & _ & _ & Hpost).
  rewrite Hfirst in Hmv, Hpost.
  pose proof (more_sent _ _ _ Hmv) as Es.
  cbn [fst snd] in *. rewrite Hreq, repeat_length in Es.
  destruct (Nat.eqb_spec n 0) as [->|_]; [lia|].
  unfold stored in Hpost. rewrite Hdir in Hpost.
  destruct Hpost as (t & Ht & Hf).
  assert (Hkey : _get_cache_key params2 = _get_cache_key params).
  { unfold _get_cache_key, Json.dumps_sorted.
    now rewrite (KeyFacts.sorted_items_perm params params2 Hperm Hnd). }
  unfold _make_request. rewrite Hkey. unfold bind at 1, _get_cached.
  rewrite Hdir2, Hfiles, Hf, lookup_insert_eq.
  destruct (datetime_now w2) as [now w3] eqn:Hnow. cbn [fst snd] in *.
  assert (E : (now - t <? cache_ttl c2) = true) by lia.
  now rewrite E.
Qed.

(** X4 on a client with the cache directory [.cache] and an upstream that
    answers with a page of two records: the same search, its parameters
    given in another order, gets the two records back without a second
    request. *)
Lemma make_request_repeat_cached_witness :
  let c := Samples.caching_client in
  let w := Samples.still_world
             (Samples.always (Response 200 (Some (Samples.page 2 0 2))))
             Samples.epoch_2026 in
  let params2 := [("start", Json.Int 0); ("search_query", Json.Str "cat:cs.LG");
                  ("max_results", Json.Int 2); ("sortBy", Json.Str "relevance");
                  ("sortOrder", Json.Str "descending")] in
  let first := @_make_request utc_seconds (Samples.demo_params 2) (c, w) in
  let again := @_make_request utc_seconds params2 (c, snd (snd first)) in
  (exists papers, fst first = OK papers /\ fst again = OK papers
                  /\ List.length papers = 2%nat)
  /\ requests_of (trace (snd (snd again))) = [Samples.demo_params 2].
Proof.
  intros c w params2 first again.
  set (papers := match fst first with OK ps => ps | Raise _ => [] end).
  assert (Hfirst : @_make_request utc_seconds (Samples.demo_params 2) (c, w)
                   = (OK papers, (fst (snd first), snd (snd first))))
    by (vm_compute; reflexivity).
  assert (Hnd : List.NoDup (List.map fst (Samples.demo_params 2))).
  { repeat (constructor;
            [simpl; intros Hin;
             repeat (destruct Hin as [Hin|Hin]; [discriminate Hin|]);
             exact Hin|]).
    constructor. }
  assert (Hsent : sent (snd (snd first)) <> sent w)
    by (vm_compute; discriminate).
  assert (Hage : fst (datetime_now (snd (snd first))) - clock w < cache_ttl c)
    by (vm_compute; reflexivity).
  pose proof (@make_request_repeat_cached utc_seconds c (fst (snd first)) c
                w (snd (snd first)) (snd (snd first))
                (Samples.demo_params 2) params2 papers ".cache"
                eq_refl Hfirst Hsent (perm_swap _ _ _) Hnd eq_refl eq_refl
                eq_refl Hage) as (Hagain & _).
  split; [|vm_compute; reflexivity].
  exists papers. split; [vm_compute; reflexivity|].
  split; [exact (f_equal fst Hagain) | vm_compute; reflexivity].
Defined.

(** X5. [paginate_all] asks for whole pages only: every request that the
    loop sends, in a run of at most [fuel] turns from the offset [start],
    is the search for the query with the given sort order, [max_results]
    set to the page size cut at 2000, and [start] set to the first offset
    plus a multiple of the page size; retries repeat a page, no offset in
    between is ever asked for. *)
Theorem paginate_requests `{Datetime} (query sort_by sort_order : string)
    (max_results : option Z) (page_size : Z) (fuel : nat) :
  forall (acc : list Paper) (start : Z) (c : ArxivClient) (w : World),
    let w' := snd (snd (paginate_loop fuel query max_results sort_by
                          sort_order page_size acc start (c, w))) in
    exists evs : list Event,
      trace w' = (trace w ++ evs)%list
      /\ Forall (fun p => exists i : nat,
                   (i < fuel)%nat
                   /\ p = [("search_query", Json.Str query);
                           ("start", Json.Int (start + Z.of_nat i * page_size));
                           ("max_results", Json.Int (Z.min page_size 2000));
                           ("sortBy", Json.Str sort_by);
                           ("sortOrder", Json.Str sort_order)])
           (requests_of evs).
Proof.
  induction fuel as [|fuel IH]; intros acc start c w w'.
  - exists []. split; [subst w'; cbn; now rewrite app_nil_r | constructor].
  - subst w'. cbn [paginate_loop]. unfold bind at 1, search.
    set (params := search_params query page_size sort_by sort_order start).
    destruct (make_request_run params c w)
      as (evs1 & n & Hmv & Hreq & _).
    pose proof (more_trace _ _ _ Hmv) as Htr. cbn [fst snd] in Htr.
    assert (Hfirst : Forall (fun p => exists i : nat,
                        (i < Datatypes.S fuel)%nat
                        /\ p = [("search_query", Json.Str query);
                                ("start", Json.Int (start + Z.of_nat i * page_size));
                                ("max_results", Json.Int (Z.min page_size 2000));
                                ("sortBy", Json.Str sort_by);
                                ("sortOrder", Json.Str sort_order)])
                      (requests_of evs1)).
    { rewrite Hreq. apply List.Forall_forall. intros p Hin.
      apply repeat_spec in Hin. subst p. exists 0%nat.
      split; [lia|]. unfold params, search_params.
      now rewrite Z.mul_0_l, Z.add_0_r. }
    destruct (_make_request params (c, w)) as [[results|e] [c1 w1]];
      cbn [fst snd] in *; [|exists evs1; split; assumption].
    destruct results as [|r results]; [exists evs1; split; assumption|].
    destruct (reached max_results _); [exists evs1; split; assumption|].
    destruct (_ <? page_size); [exists evs1; split; assumption|].
    destruct (IH (acc ++ r :: results)%list (start + page_size) c1 w1)
      as (evs2 & Htr2 & Hrest).
    exists (evs1 ++ evs2)%list.
    split; [now rewrite Htr2, Htr, app_assoc|].
    rewrite requests_of_app. apply Forall_app_2; [exact Hfirst|].
    eapply List.Forall_impl; [|exact Hrest].
    intros p (i & Hi & ->). exists (Datatypes.S i). split; [lia|].
    do 2 f_equal. f_equal. f_equal. lia.
Qed.

(** X6. With a positive [max_results], what [paginate_all] returns never
    has more records than that, whatever the page size and whatever the
    pages hold. *)
Theorem paginate_all_at_most `{Datetime} (fuel : nat)
    (query sort_by sort_order : string) (m page_size : Z) (st st' : State)
    (papers : list Paper) :
  0 < m ->
  paginate_all fuel query (Some m) sort_by sort_order page_size st
  = (OK (Some papers), st') ->
  Z.of_nat (List.length papers) <= m.
Proof.
  intros Hm Hrun. unfold paginate_all in Hrun.
  eapply (paginate_loop_at_most query sort_by sort_order page_size m fuel Hm
            [] 0 st st' papers); [cbn; lia | exact Hrun].
Qed.

(** X6 against an upstream of 247 records, read in pages of 100 with a
    limit of 150. *)
Lemma paginate_all_at_most_witness :
  let st := (Samples.default_client,
             Samples.still_world (Samples.upstream 247) Samples.epoch_2026) in
  let run := @paginate_all utc_seconds 10 "cat:cs.LG" (Some 150)
               "submittedDate" "descending" 100 st in
  exists papers, fst run = OK (Some papers)
                 /\ Z.of_nat (List.length papers) <= 150.
Proof.
  intros st run.
  set (papers := match fst run with OK (Some ps) => ps | _ => [] end).
  assert (Hrun : run = (OK (Some papers), snd run))
    by (vm_compute; reflexivity).
  exists papers. split; [exact (f_equal fst Hrun)|].
  exact (@paginate_all_at_most utc_seconds 10 "cat:cs.LG" "submittedDate"
           "descending" 150 100 st (snd run) papers eq_refl Hrun).
Defined.

(* ===================================================================== *)
(** ** Cache files and cache keys                                         *)
(* ===================================================================== *)

Module CacheFacts.
Import PyStr.

Lemma append_length (a b : string) :
  String.length (a +:+ b) = (String.length a + String.length b)%nat.
Proof. induction a as [|c a IH]; cbn; [reflexivity | now rewrite IH]. Qed.

Lemma append_inv_tail (a b s : string) : a +:+ s = b +:+ s -> a = b.
Proof.
  revert b; induction a as [|c a IH]; intros [|d b] E; cbn in E.
  - reflexivity.
  - apply (f_equal String.length) in E. cbn in E.
    rewrite append_length in E. lia.
  - apply (f_equal String.length) in E. cbn in E.
    rewrite append_length in E. lia.
  - injection E as -> E. f_equal. now apply IH.
Qed.

(** [cache_file] gives different keys different names. For keys that are
    plain file names, as hex digests are, the name is the path that
    [pathlib] builds. *)
Lemma cache_file_inj (dir k1 k2 : string) :
  cache_file dir k1 = cache_file dir k2 -> k1 = k2.
Proof.
  unfold cache_file. intros E.
  apply String.app_inj in E. cbn in E. injection E as E.
  now apply append_inv_tail in E.
Qed.

Lemma hex_digit_ok (n : N) : (n < 16)%N -> ishex (Json.hex_digit n) = true.
Proof.
  intros Hn.
  assert (E : n = N.of_nat (N.to_nat n)) by lia. rewrite E.
  assert (Hm : (N.to_nat n < 16)%nat) by lia.
  generalize dependent (N.to_nat n). intros m _ Hm.
  do 16 (destruct m as [|m]; [reflexivity|]). lia.
Qed.

Lemma hex_bytes_ok (bs : list Z) :
  List.Forall (fun b => 0 <= b < 256) bs ->
  String.length (fold_right (fun b acc => MD5.hex_byte b +:+ acc) EmptyString bs)
  = (2 * List.length bs)%nat
  /\ all_chars ishex
       (fold_right (fun b acc => MD5.hex_byte b +:+ acc) EmptyString bs) = true.
Proof.
  induction 1 as [|b bs Hb _ IH]; [split; reflexivity|].
  destruct IH as [IHlen IHall].
  cbn [fold_right List.length]. unfold MD5.hex_byte at 1 3.
  cbn [String.append String.length all_chars].
  rewrite IHlen, IHall, !hex_digit_ok; [split; [lia | reflexivity] | |].
  - assert (0 <= b mod 16 < 16) by (apply Z.mod_pos_bound; lia). lia.
  - assert (0 <= b / 16 < 16)
      by (split; [apply Z.div_pos; lia | apply Z.div_lt_upper_bound; lia]).
    lia.
Qed.

Lemma bytes_le_bound (n : nat) (x : Z) :
  List.Forall (fun b => 0 <= b < 256) (MD5.bytes_le n x).
Proof.
  unfold MD5.bytes_le. apply List.Forall_forall. intros b Hin.
  apply List.in_map_iff in Hin. destruct Hin as (j & <- & _).
  apply Z.mod_pos_bound. lia.
Qed.

Lemma all_chars_has_char (p : ascii -> bool) (c : ascii) (s : string) :
  p c = false -> all_chars p s = true -> has_char c s = false.
Proof.
  intros Hc. induction s as [|d s IH]; cbn; [reflexivity|].
  intros Hall. apply andb_prop in Hall. destruct Hall as [Hd Hs].
  destruct (Ascii.eqb_spec d c) as [->|_]; [congruence|]. now apply IH.
Qed.

Lemma insert_item_perm (x : string * Json.value) (l : Json.dict) :
  Permutation (Json.insert_item x l) (x :: l).
Proof.
  induction l as [|y l IH]; cbn; [reflexivity|].
  destruct (String.leb (fst x) (fst y)); [reflexivity|].
  rewrite IH. apply perm_swap.
Qed.

Lemma sorted_items_is_perm (d : Json.dict) : Permutation (Json.sorted_items d) d.
Proof.
  induction d as [|x d IH]; cbn; [reflexivity|].
  rewrite insert_item_perm. now rewrite IH.
Qed.

End CacheFacts.

(** X7. The cache key of any parameter set is a string of exactly 32
    characters of [0-9a-f]; it has no slash, so the cache file
    [<cache_dir>/<key>.json] lies directly in the cache directory, and
    among the strings of such characters, as all keys of the client are,
    no other names that file. *)
Theorem cache_key_format (params : Json.dict) :
  String.length (_get_cache_key params) = 32%nat
  /\ PyStr.all_chars ishex (_get_cache_key params) = true
  /\ PyStr.has_char "/" (_get_cache_key params) = false
  /\ forall dir key,
       PyStr.all_chars ishex key = true ->
       cache_file dir key = cache_file dir (_get_cache_key params) ->
       key = _get_cache_key params.
Proof.
  unfold _get_cache_key, MD5.hexdigest, MD5.hex_of.
  set (x := MD5.digest _).
  destruct (CacheFacts.hex_bytes_ok (MD5.bytes_le 16 x)
              (CacheFacts.bytes_le_bound 16 x)) as [Hlen Hall].
  split; [exact Hlen|]. split; [exact Hall|]. split.
  - now apply (CacheFacts.all_chars_has_char ishex).
  - intros dir key _. apply CacheFacts.cache_file_inj.
Qed.

Lemma get_cached_ext (key : string) (c : ArxivClient) (w w' : World) :
  (forall dir, cache_dir c = Some dir ->
               files w !! cache_file dir key = files w' !! cache_file dir key) ->
  fst (datetime_now w) = fst (datetime_now w') ->
  fst (_get_cached key (c, w)) = fst (_get_cached key (c, w')).
Proof.
  intros Hfile Hnow. unfold _get_cached.
  destruct (cache_dir c) as [dir|]; [|reflexivity].
  rewrite (Hfile dir eq_refl).
  destruct (files w' !! cache_file dir key) as [[| |[[|t]|] results]|];
    try reflexivity.
  destruct (datetime_now w) as [now w1], (datetime_now w') as [now' w1'].
  cbn [fst] in Hnow. subst now'.
  now destruct (now - t <? cache_ttl c).
Qed.

(** X8. Cache entries do not interfere, and the last store wins. The keys
    are strings of the characters [0-9a-f], as the keys that
    [_get_cache_key] makes are. With a cache directory, storing records
    under one key leaves what is read under any other key, at the same
    moment, as it was; and after two stores under the same key a reading
    within the TTL of the second returns the records of the second. *)
Theorem cache_entries_independent (c : ArxivClient) (w : World)
    (dir k1 k2 : string) (rs1 rs2 : list Paper) :
  cache_dir c = Some dir ->
  PyStr.all_chars ishex k1 = true ->
  PyStr.all_chars ishex k2 = true ->
  let st1 := snd (_set_cached k1 rs1 (c, w)) in
  let st2 := snd (_set_cached k1 rs2 st1) in
  (k1 <> k2 ->
   forall w2 w2',
     files w2 = files (snd st1) -> files w2' = files w ->
     fst (datetime_now w2) = fst (datetime_now w2') ->
     fst (_get_cached k2 (c, w2)) = fst (_get_cached k2 (c, w2')))
  /\ (forall w3,
        files w3 = files (snd st2) ->
        fst (datetime_now w3) - fst (datetime_now (snd st1)) < cache_ttl c ->
        fst (_get_cached k1 (c, w3)) = OK (Some rs2)).
Proof.
  intros Hdir _ _ st1 st2.
  assert (Hset : forall k rs w0,
             _set_cached k rs (c, w0)
             = (OK tt, (c, write_file (cache_file dir k)
                             (JsonObject (Some (IsoTime (fst (datetime_now w0))))
                                (Some rs)) (snd (datetime_now w0))))).
  { intros k rs w0. unfold _set_cached. rewrite Hdir.
    now destruct (datetime_now w0). }
  subst st2 st1. rewrite Hset. cbn [snd]. rewrite Hset. cbn [snd fst]. split.
  - intros Hne w2 w2' Hf Hf' Hnow. apply get_cached_ext; [|exact Hnow].
    intros dir' Hdir'. rewrite Hdir in Hdir'. injection Hdir' as <-.
    rewrite Hf, Hf'. cbn [files write_file].
    apply lookup_insert_ne. intros E.
    apply CacheFacts.cache_file_inj in E. congruence.
  - intros w3 Hf Hage. unfold _get_cached. rewrite Hdir, Hf.
    cbn [files write_file]. rewrite lookup_insert_eq.
    destruct (datetime_now w3) as [now w4]. cbn [fst] in *.
    apply Z.ltb_lt in Hage. now rewrite Hage.
Qed.

(** X8 in a world where nothing takes time, at the MD5 digests of the
    empty string and of [a]: an empty list is stored, then the records of
    a page of two, and the reading gives the two. *)
Lemma cache_entries_independent_witness :
  let c := Samples.caching_client in
  let w := Samples.still_world (Samples.always NetTimeout) Samples.epoch_2026 in
  let k1 := "d41d8cd98f00b204e9800998ecf8427e" in
  let k2 := "0cc175b9c0f1b6a831c399e269772661" in
  let rs2 := match @parse_entries utc_seconds
                     (Xml.findall "atom:entry" (Samples.page 2 0 2)) with
             | OK ps => ps
             | Raise _ => []
             end in
  let st2 := snd (_set_cached k1 rs2 (snd (_set_cached k1 [] (c, w)))) in
  PyStr.all_chars ishex k1 = true
  /\ PyStr.all_chars ishex k2 = true
  /\ fst (_get_cached k1 (c, snd st2)) = OK (Some rs2)
  /\ List.length rs2 = 2%nat.
Proof.
  intros c w k1 k2 rs2 st2.
  destruct (cache_entries_independent c w ".cache" k1 k2 [] rs2
              eq_refl eq_refl eq_refl) as [_ Hlast].
  split; [reflexivity|]. split; [reflexivity|].
  split; [|vm_compute; reflexivity].
  apply (Hlast (snd st2) eq_refl). vm_compute. reflexivity.
Defined.

(** X9. What is hashed for the cache key identifies the parameter set:
    two dictionaries (keys pairwise different) are serialised by
    [json.dumps(sort_keys=True)], and encoded, to the same bytes if and
    only if they have the same items, in whatever order. *)
Theorem dumps_sorted_same_items (d1 d2 : Json.dict) :
  List.NoDup (List.map fst d1) ->
  (Json.utf8 (Json.dumps_sorted d1) = Json.utf8 (Json.dumps_sorted d2)
   <-> Permutation d1 d2).
Proof.
  intros Hnd. split.
  - intros E. apply KeyFacts.utf8_inj, KeyFacts.dumps_sorted_inj in E.
    rewrite <- (CacheFacts.sorted_items_is_perm d1), E.
    apply CacheFacts.sorted_items_is_perm.
  - intros Hperm. unfold Json.dumps_sorted.
    now rewrite (KeyFacts.sorted_items_perm d1 d2 Hperm Hnd).
Qed.

(** X9 at the parameters of a search, with the first two swapped. *)
Lemma dumps_sorted_same_items_witness :
  let d1 := Samples.demo_params 10 in
  let d2 := [("start", Json.Int 0); ("search_query", Json.Str "cat:cs.LG");
             ("max_results", Json.Int 10); ("sortBy", Json.Str "relevance");
             ("sortOrder", Json.Str "descending")] in
  Json.utf8 (Json.dumps_sorted d1) = Json.utf8 (Json.dumps_sorted d2).
Proof.
  intros d1 d2.
  assert (Hnd : List.NoDup (List.map fst d1)).
  { repeat (constructor;
            [simpl; intros Hin;
             repeat (destruct Hin as [Hin|Hin]; [discriminate Hin|]);
             exact Hin|]).
    constructor. }
  exact (proj2 (dumps_sorted_same_items d1 d2 Hnd) (perm_swap _ _ _)).
Defined.
